(** * nav: correlation of Mode S / ADS-B receiver logs

    A shallow embedding of the two versions of the program,
    [ver1/prog1.py] (one file) and [ver2/{config,decoder,main}.py] (the same
    program split into modules), and the properties of its line framing,
    its per-aircraft ingestion loop, its capability filter, the flags of
    its summary table, its interval analysis and the navigation of its
    viewer.

    Conventions of the embedding.
    - Python [str] is [string]; the characters of a log line are ASCII.
    - Python [int] is [Z]; [np.float64] is the primitive binary64 [float],
      so every subtraction, product and comparison of timestamps is the
      IEEE-754 one the interpreter performs.
    - A [dict] is a [gmap], a [set] a [gset], a [list] a [list].
    - numpy and pyModeS are packages the program imports; their functions
      are the fields of the record [PyLib], a parameter of every
      definition that calls them.  A call either returns or raises.
    - A block of statements is a function from the variables to the
      variables and a result; what a block assigned before it raised stays
      assigned, as under [try: ... except Exception: continue].
    - The calls to [pms.adsb.position] are logged in the field
      [position_calls], so that "called once" can be stated. *)

From Stdlib Require Import ZArith List String Ascii Bool Lia DecimalString.
From Stdlib Require Import Floats.PrimFloat Floats.SpecFloat Floats.FloatOps.
From Stdlib Require Import Floats.FloatAxioms Numbers.Cyclic.Int63.Uint63.
From Stdlib Require Import Sorting.Sorted.
From Stdlib Require Import Numbers.DecimalPos Numbers.DecimalZ.
From Stdlib Require Import QArith.QArith_base QArith.Qabs QArith.Qpower.
From stdpp Require Import gmap strings list fin_maps.

#[local] Set Warnings "-inexact-float".
#[local] Open Scope string_scope.
#[local] Open Scope Z_scope.

(** ** Results of calls that may raise *)

Inductive outcome (A : Type) : Type :=
| Ok (a : A)
| Raise.
Arguments Ok {A} a.
Arguments Raise {A}.

(** [try: e  except: return None] around an expression that yields an
    optional value. *)
Definition or_none {A : Type} (o : outcome (option A)) : option A :=
  match o with
  | Ok v => v
  | Raise => None
  end.

(** ** The Python built-ins the program uses *)

Module Py.

(** [str.isspace] on ASCII: TAB, LF, VT, FF, CR, FS, GS, RS, US, SPACE. *)
Definition is_space (c : ascii) : bool :=
  let n := nat_of_ascii c in
  ((9 <=? n)%nat && (n <=? 13)%nat) || ((28 <=? n)%nat && (n <=? 32)%nat).

Fixpoint lstrip (s : string) : string :=
  match s with
  | EmptyString => EmptyString
  | String c s' => if is_space c then lstrip s' else s
  end.

Fixpoint rstrip (s : string) : string :=
  match s with
  | EmptyString => EmptyString
  | String c s' =>
      match rstrip s' with
      | EmptyString => if is_space c then EmptyString else String c EmptyString
      | r => String c r
      end
  end.

(** [s.strip()] *)
Definition strip (s : string) : string := rstrip (lstrip s).

(** [s.split()]: the maximal runs of characters that are not white space. *)
Fixpoint split (s : string) : list string :=
  match s with
  | EmptyString => []
  | String c s' =>
      if is_space c then split s'
      else
        match s' with
        | EmptyString => [String c EmptyString]
        | String c' _ =>
            if is_space c' then String c EmptyString :: split s'
            else
              match split s' with
              | w :: ws => String c w :: ws
              | [] => [String c EmptyString]
              end
        end
  end.

Definition upper_char (c : ascii) : ascii :=
  let n := nat_of_ascii c in
  if ((97 <=? n)%nat && (n <=? 122)%nat) then ascii_of_nat (n - 32) else c.

(** [s.upper()] *)
Fixpoint upper (s : string) : string :=
  match s with
  | EmptyString => EmptyString
  | String c s' => String (upper_char c) (upper s')
  end.

(** [sep.join(l)] *)
Fixpoint join (sep : string) (l : list string) : string :=
  match l with
  | [] => EmptyString
  | [x] => x
  | x :: l' => (x ++ sep ++ join sep l')%string
  end.

(** [s.replace(" ", "")] *)
Fixpoint remove_blanks (s : string) : string :=
  match s with
  | EmptyString => EmptyString
  | String c s' =>
      if Ascii.eqb c " " then remove_blanks s' else String c (remove_blanks s')
  end.

(** [all(p(c) for c in s)] *)
Fixpoint all_chars (p : ascii -> bool) (s : string) : bool :=
  match s with
  | EmptyString => true
  | String c s' => p c && all_chars p s'
  end.

(** [''.join(c for c in s if p(c))] *)
Fixpoint filter_chars (p : ascii -> bool) (s : string) : string :=
  match s with
  | EmptyString => EmptyString
  | String c s' =>
      if p c then String c (filter_chars p s') else filter_chars p s'
  end.

(** [c in t] for a character [c] and a string [t] *)
Fixpoint char_in (c : ascii) (t : string) : bool :=
  match t with
  | EmptyString => false
  | String d t' => Ascii.eqb c d || char_in c t'
  end.

(** [c.isalnum()] on ASCII *)
Definition isalnum (c : ascii) : bool :=
  let n := nat_of_ascii c in
  ((48 <=? n)%nat && (n <=? 57)%nat)
  || ((65 <=? n)%nat && (n <=? 90)%nat)
  || ((97 <=? n)%nat && (n <=? 122)%nat).

(** [needle in hay] for two strings *)
Fixpoint contains (needle hay : string) : bool :=
  String.prefix needle hay
  || match hay with
     | EmptyString => false
     | String _ hay' => contains needle hay'
     end.

(** The value of one digit in base 16, as [int(_, 16)] reads it. *)
Definition hex_digit (c : ascii) : option Z :=
  let n := Z.of_nat (nat_of_ascii c) in
  if (48 <=? n) && (n <=? 57) then Some (n - 48)
  else if (65 <=? n) && (n <=? 70) then Some (n - 55)
  else if (97 <=? n) && (n <=? 102) then Some (n - 87)
  else None.

Fixpoint int16_from (acc : Z) (s : string) : outcome Z :=
  match s with
  | EmptyString => Ok acc
  | String c s' =>
      match hex_digit c with
      | Some d => int16_from (16 * acc + d) s'
      | None => Raise
      end
  end.

(** [int(s, 16)] on a string of hexadecimal digits; [ValueError] on the
    empty string and on any other character. *)
Definition int16 (s : string) : outcome Z :=
  match s with
  | EmptyString => Raise
  | _ => int16_from 0 s
  end.

(** [[s[i:i + 2] for i in range(0, len(s), 2)]] *)
Fixpoint chunks2 (s : string) : list string :=
  match s with
  | EmptyString => []
  | String a EmptyString => [String a EmptyString]
  | String a (String b r) => String a (String b EmptyString) :: chunks2 r
  end.

(** [str(n)] for an integer, as an f-string formats it. *)
Definition str_of_int (n : Z) : string := NilZero.string_of_int (Z.to_int n).

(** Truth value of a string: non-empty. *)
Definition truthy (s : string) : bool :=
  match s with
  | EmptyString => false
  | _ => true
  end.

End Py.

(** ** The imported packages

    [np_float64] is [np.float64(text)], [None] standing for its
    [ValueError].  The other fields are the functions of pyModeS the
    program calls, with the result shapes the specification gives them
    (section 6); [None] inside [Ok] is Python's [None]. *)

Record PyLib : Type := {
  np_float64 : string -> option float;
  pms_icao : string -> outcome string;
  pms_df : string -> outcome Z;
  pms_typecode : string -> outcome (option Z);
  pms_adsb_typecode : string -> outcome (option Z);
  pms_adsb_altitude : string -> outcome (option Z);
  pms_common_altcode : string -> outcome (option Z);
  pms_common_idcode : string -> outcome (option string);
  pms_adsb_velocity :
    string -> outcome (option (option Z * option float * option Z * string));
  pms_adsb_selected_altitude : string -> outcome (option (option Z * string));
  pms_adsb_altitude_diff : string -> outcome (option Z);
  pms_adsb_baro_pressure_setting : string -> outcome (option float);
  pms_adsb_callsign : string -> outcome (option string);
  pms_adsb_oe_flag : string -> outcome Z;
  pms_adsb_position :
    string -> string -> float -> float -> outcome (option (float * float))
}.

(** ** decoder.ADSBMessage *)

Record ADSBMessage : Type := {
  timestamp : float;
  message : list Z;
  message_length : nat
}.

(** ** The variables of the ingestion loop

    [main] keeps one dictionary per kind of data, keyed by the aircraft
    address.  [icao_times[aa]] is the dictionary
    [{"first": _, "last": _}]. *)

Record seen : Type := { first : float; last : float }.

(** [icao_callsigns] holds three kinds of entries under three kinds of
    keys: the call sign under [aa], the squawk under [aa ++ "_sq"] (both
    text) and the set of autopilot modes under [aa ++ "_modes"]. *)

Inductive entry : Type :=
| Text (s : string)
| Modes (m : gset string).

(** The last field is not a variable of the program: it is the log of the
    calls made to [pms.adsb.position], oldest first, with their
    arguments. *)

Record State : Type := mkState {
  icao_times : gmap string seen;
  icao_altitude : gmap string (list (float * Z));
  icao_gnss_altitude : gmap string (list (float * Z));
  icao_speed : gmap string (list (float * Z));
  icao_callsigns : gmap string entry;
  icao_selected_altitude : gmap string (list (float * Z));
  icao_altitude_difference : gmap string (list (float * Z));
  icao_baro_correction : gmap string (list (float * float));
  icao_has_selected_alt : gmap string bool;
  adsb_icao_list : gset string;
  icao_positions : gmap string (list (float * float * float));
  icao_courses : gmap string (list (float * float));
  cpr_messages : gmap string (list (option (string * float)));
  icao_dfs : gmap string (gset string);
  icao_airborne_pos_ts : gmap string (list float);
  icao_surface_pos_ts : gmap string (list float);
  icao_ident_timestamps : gmap string (list float);
  icao_speed_ts : gmap string (list float);
  icao_status_ts : gmap string (list float);
  icao_target_state_ts : gmap string (list float);
  icao_operation_status_ts : gmap string (list float);
  icao_df11_ts : gmap string (list float);
  current_baro_buffer : gmap string (float * Z);
  position_calls : list (string * string * float * float)
}.

(** Assignment to one variable. *)

Definition set_icao_times (v : gmap string seen) (s : State) : State :=
  mkState
    v (icao_altitude s) (icao_gnss_altitude s) (icao_speed s) (icao_callsigns
    s) (icao_selected_altitude s) (icao_altitude_difference s)
    (icao_baro_correction s) (icao_has_selected_alt s) (adsb_icao_list s)
    (icao_positions s) (icao_courses s) (cpr_messages s) (icao_dfs s)
    (icao_airborne_pos_ts s) (icao_surface_pos_ts s) (icao_ident_timestamps
    s) (icao_speed_ts s) (icao_status_ts s) (icao_target_state_ts s)
    (icao_operation_status_ts s) (icao_df11_ts s) (current_baro_buffer s)
    (position_calls s).

Definition set_icao_altitude
    (v : gmap string (list (float * Z)))
    (s : State) : State :=
  mkState
    (icao_times s) v (icao_gnss_altitude s) (icao_speed s) (icao_callsigns s)
    (icao_selected_altitude s) (icao_altitude_difference s)
    (icao_baro_correction s) (icao_has_selected_alt s) (adsb_icao_list s)
    (icao_positions s) (icao_courses s) (cpr_messages s) (icao_dfs s)
    (icao_airborne_pos_ts s) (icao_surface_pos_ts s) (icao_ident_timestamps
    s) (icao_speed_ts s) (icao_status_ts s) (icao_target_state_ts s)
    (icao_operation_status_ts s) (icao_df11_ts s) (current_baro_buffer s)
    (position_calls s).

Definition set_icao_gnss_altitude
    (v : gmap string (list (float * Z)))
    (s : State) : State :=
  mkState
    (icao_times s) (icao_altitude s) v (icao_speed s) (icao_callsigns s)
    (icao_selected_altitude s) (icao_altitude_difference s)
    (icao_baro_correction s) (icao_has_selected_alt s) (adsb_icao_list s)
    (icao_positions s) (icao_courses s) (cpr_messages s) (icao_dfs s)
    (icao_airborne_pos_ts s) (icao_surface_pos_ts s) (icao_ident_timestamps
    s) (icao_speed_ts s) (icao_status_ts s) (icao_target_state_ts s)
    (icao_operation_status_ts s) (icao_df11_ts s) (current_baro_buffer s)
    (position_calls s).

Definition set_icao_speed
    (v : gmap string (list (float * Z)))
    (s : State) : State :=
  mkState
    (icao_times s) (icao_altitude s) (icao_gnss_altitude s) v (icao_callsigns
    s) (icao_selected_altitude s) (icao_altitude_difference s)
    (icao_baro_correction s) (icao_has_selected_alt s) (adsb_icao_list s)
    (icao_positions s) (icao_courses s) (cpr_messages s) (icao_dfs s)
    (icao_airborne_pos_ts s) (icao_surface_pos_ts s) (icao_ident_timestamps
    s) (icao_speed_ts s) (icao_status_ts s) (icao_target_state_ts s)
    (icao_operation_status_ts s) (icao_df11_ts s) (current_baro_buffer s)
    (position_calls s).

Definition set_icao_callsigns (v : gmap string entry) (s : State) : State :=
  mkState
    (icao_times s) (icao_altitude s) (icao_gnss_altitude s) (icao_speed s) v
    (icao_selected_altitude s) (icao_altitude_difference s)
    (icao_baro_correction s) (icao_has_selected_alt s) (adsb_icao_list s)
    (icao_positions s) (icao_courses s) (cpr_messages s) (icao_dfs s)
    (icao_airborne_pos_ts s) (icao_surface_pos_ts s) (icao_ident_timestamps
    s) (icao_speed_ts s) (icao_status_ts s) (icao_target_state_ts s)
    (icao_operation_status_ts s) (icao_df11_ts s) (current_baro_buffer s)
    (position_calls s).

Definition set_icao_selected_altitude
    (v : gmap string (list (float * Z)))
    (s : State) : State :=
  mkState
    (icao_times s) (icao_altitude s) (icao_gnss_altitude s) (icao_speed s)
    (icao_callsigns s) v (icao_altitude_difference s) (icao_baro_correction
    s) (icao_has_selected_alt s) (adsb_icao_list s) (icao_positions s)
    (icao_courses s) (cpr_messages s) (icao_dfs s) (icao_airborne_pos_ts s)
    (icao_surface_pos_ts s) (icao_ident_timestamps s) (icao_speed_ts s)
    (icao_status_ts s) (icao_target_state_ts s) (icao_operation_status_ts s)
    (icao_df11_ts s) (current_baro_buffer s) (position_calls s).

Definition set_icao_altitude_difference
    (v : gmap string (list (float * Z)))
    (s : State) : State :=
  mkState
    (icao_times s) (icao_altitude s) (icao_gnss_altitude s) (icao_speed s)
    (icao_callsigns s) (icao_selected_altitude s) v (icao_baro_correction s)
    (icao_has_selected_alt s) (adsb_icao_list s) (icao_positions s)
    (icao_courses s) (cpr_messages s) (icao_dfs s) (icao_airborne_pos_ts s)
    (icao_surface_pos_ts s) (icao_ident_timestamps s) (icao_speed_ts s)
    (icao_status_ts s) (icao_target_state_ts s) (icao_operation_status_ts s)
    (icao_df11_ts s) (current_baro_buffer s) (position_calls s).

Definition set_icao_baro_correction
    (v : gmap string (list (float * float)))
    (s : State) : State :=
  mkState
    (icao_times s) (icao_altitude s) (icao_gnss_altitude s) (icao_speed s)
    (icao_callsigns s) (icao_selected_altitude s) (icao_altitude_difference
    s) v (icao_has_selected_alt s) (adsb_icao_list s) (icao_positions s)
    (icao_courses s) (cpr_messages s) (icao_dfs s) (icao_airborne_pos_ts s)
    (icao_surface_pos_ts s) (icao_ident_timestamps s) (icao_speed_ts s)
    (icao_status_ts s) (icao_target_state_ts s) (icao_operation_status_ts s)
    (icao_df11_ts s) (current_baro_buffer s) (position_calls s).

Definition set_icao_has_selected_alt
    (v : gmap string bool)
    (s : State) : State :=
  mkState
    (icao_times s) (icao_altitude s) (icao_gnss_altitude s) (icao_speed s)
    (icao_callsigns s) (icao_selected_altitude s) (icao_altitude_difference
    s) (icao_baro_correction s) v (adsb_icao_list s) (icao_positions s)
    (icao_courses s) (cpr_messages s) (icao_dfs s) (icao_airborne_pos_ts s)
    (icao_surface_pos_ts s) (icao_ident_timestamps s) (icao_speed_ts s)
    (icao_status_ts s) (icao_target_state_ts s) (icao_operation_status_ts s)
    (icao_df11_ts s) (current_baro_buffer s) (position_calls s).

Definition set_adsb_icao_list (v : gset string) (s : State) : State :=
  mkState
    (icao_times s) (icao_altitude s) (icao_gnss_altitude s) (icao_speed s)
    (icao_callsigns s) (icao_selected_altitude s) (icao_altitude_difference
    s) (icao_baro_correction s) (icao_has_selected_alt s) v (icao_positions
    s) (icao_courses s) (cpr_messages s) (icao_dfs s) (icao_airborne_pos_ts
    s) (icao_surface_pos_ts s) (icao_ident_timestamps s) (icao_speed_ts s)
    (icao_status_ts s) (icao_target_state_ts s) (icao_operation_status_ts s)
    (icao_df11_ts s) (current_baro_buffer s) (position_calls s).

Definition set_icao_positions
    (v : gmap string (list (float * float * float)))
    (s : State) : State :=
  mkState
    (icao_times s) (icao_altitude s) (icao_gnss_altitude s) (icao_speed s)
    (icao_callsigns s) (icao_selected_altitude s) (icao_altitude_difference
    s) (icao_baro_correction s) (icao_has_selected_alt s) (adsb_icao_list s)
    v (icao_courses s) (cpr_messages s) (icao_dfs s) (icao_airborne_pos_ts s)
    (icao_surface_pos_ts s) (icao_ident_timestamps s) (icao_speed_ts s)
    (icao_status_ts s) (icao_target_state_ts s) (icao_operation_status_ts s)
    (icao_df11_ts s) (current_baro_buffer s) (position_calls s).

Definition set_icao_courses
    (v : gmap string (list (float * float)))
    (s : State) : State :=
  mkState
    (icao_times s) (icao_altitude s) (icao_gnss_altitude s) (icao_speed s)
    (icao_callsigns s) (icao_selected_altitude s) (icao_altitude_difference
    s) (icao_baro_correction s) (icao_has_selected_alt s) (adsb_icao_list s)
    (icao_positions s) v (cpr_messages s) (icao_dfs s) (icao_airborne_pos_ts
    s) (icao_surface_pos_ts s) (icao_ident_timestamps s) (icao_speed_ts s)
    (icao_status_ts s) (icao_target_state_ts s) (icao_operation_status_ts s)
    (icao_df11_ts s) (current_baro_buffer s) (position_calls s).

Definition set_cpr_messages
    (v : gmap string (list (option (string * float))))
    (s : State) : State :=
  mkState
    (icao_times s) (icao_altitude s) (icao_gnss_altitude s) (icao_speed s)
    (icao_callsigns s) (icao_selected_altitude s) (icao_altitude_difference
    s) (icao_baro_correction s) (icao_has_selected_alt s) (adsb_icao_list s)
    (icao_positions s) (icao_courses s) v (icao_dfs s) (icao_airborne_pos_ts
    s) (icao_surface_pos_ts s) (icao_ident_timestamps s) (icao_speed_ts s)
    (icao_status_ts s) (icao_target_state_ts s) (icao_operation_status_ts s)
    (icao_df11_ts s) (current_baro_buffer s) (position_calls s).

Definition set_icao_dfs (v : gmap string (gset string)) (s : State) : State :=
  mkState
    (icao_times s) (icao_altitude s) (icao_gnss_altitude s) (icao_speed s)
    (icao_callsigns s) (icao_selected_altitude s) (icao_altitude_difference
    s) (icao_baro_correction s) (icao_has_selected_alt s) (adsb_icao_list s)
    (icao_positions s) (icao_courses s) (cpr_messages s) v
    (icao_airborne_pos_ts s) (icao_surface_pos_ts s) (icao_ident_timestamps
    s) (icao_speed_ts s) (icao_status_ts s) (icao_target_state_ts s)
    (icao_operation_status_ts s) (icao_df11_ts s) (current_baro_buffer s)
    (position_calls s).

Definition set_icao_airborne_pos_ts
    (v : gmap string (list float))
    (s : State) : State :=
  mkState
    (icao_times s) (icao_altitude s) (icao_gnss_altitude s) (icao_speed s)
    (icao_callsigns s) (icao_selected_altitude s) (icao_altitude_difference
    s) (icao_baro_correction s) (icao_has_selected_alt s) (adsb_icao_list s)
    (icao_positions s) (icao_courses s) (cpr_messages s) (icao_dfs s) v
    (icao_surface_pos_ts s) (icao_ident_timestamps s) (icao_speed_ts s)
    (icao_status_ts s) (icao_target_state_ts s) (icao_operation_status_ts s)
    (icao_df11_ts s) (current_baro_buffer s) (position_calls s).

Definition set_icao_surface_pos_ts
    (v : gmap string (list float))
    (s : State) : State :=
  mkState
    (icao_times s) (icao_altitude s) (icao_gnss_altitude s) (icao_speed s)
    (icao_callsigns s) (icao_selected_altitude s) (icao_altitude_difference
    s) (icao_baro_correction s) (icao_has_selected_alt s) (adsb_icao_list s)
    (icao_positions s) (icao_courses s) (cpr_messages s) (icao_dfs s)
    (icao_airborne_pos_ts s) v (icao_ident_timestamps s) (icao_speed_ts s)
    (icao_status_ts s) (icao_target_state_ts s) (icao_operation_status_ts s)
    (icao_df11_ts s) (current_baro_buffer s) (position_calls s).

Definition set_icao_ident_timestamps
    (v : gmap string (list float))
    (s : State) : State :=
  mkState
    (icao_times s) (icao_altitude s) (icao_gnss_altitude s) (icao_speed s)
    (icao_callsigns s) (icao_selected_altitude s) (icao_altitude_difference
    s) (icao_baro_correction s) (icao_has_selected_alt s) (adsb_icao_list s)
    (icao_positions s) (icao_courses s) (cpr_messages s) (icao_dfs s)
    (icao_airborne_pos_ts s) (icao_surface_pos_ts s) v (icao_speed_ts s)
    (icao_status_ts s) (icao_target_state_ts s) (icao_operation_status_ts s)
    (icao_df11_ts s) (current_baro_buffer s) (position_calls s).

Definition set_icao_speed_ts
    (v : gmap string (list float))
    (s : State) : State :=
  mkState
    (icao_times s) (icao_altitude s) (icao_gnss_altitude s) (icao_speed s)
    (icao_callsigns s) (icao_selected_altitude s) (icao_altitude_difference
    s) (icao_baro_correction s) (icao_has_selected_alt s) (adsb_icao_list s)
    (icao_positions s) (icao_courses s) (cpr_messages s) (icao_dfs s)
    (icao_airborne_pos_ts s) (icao_surface_pos_ts s) (icao_ident_timestamps
    s) v (icao_status_ts s) (icao_target_state_ts s)
    (icao_operation_status_ts s) (icao_df11_ts s) (current_baro_buffer s)
    (position_calls s).

Definition set_icao_status_ts
    (v : gmap string (list float))
    (s : State) : State :=
  mkState
    (icao_times s) (icao_altitude s) (icao_gnss_altitude s) (icao_speed s)
    (icao_callsigns s) (icao_selected_altitude s) (icao_altitude_difference
    s) (icao_baro_correction s) (icao_has_selected_alt s) (adsb_icao_list s)
    (icao_positions s) (icao_courses s) (cpr_messages s) (icao_dfs s)
    (icao_airborne_pos_ts s) (icao_surface_pos_ts s) (icao_ident_timestamps
    s) (icao_speed_ts s) v (icao_target_state_ts s) (icao_operation_status_ts
    s) (icao_df11_ts s) (current_baro_buffer s) (position_calls s).

Definition set_icao_target_state_ts
    (v : gmap string (list float))
    (s : State) : State :=
  mkState
    (icao_times s) (icao_altitude s) (icao_gnss_altitude s) (icao_speed s)
    (icao_callsigns s) (icao_selected_altitude s) (icao_altitude_difference
    s) (icao_baro_correction s) (icao_has_selected_alt s) (adsb_icao_list s)
    (icao_positions s) (icao_courses s) (cpr_messages s) (icao_dfs s)
    (icao_airborne_pos_ts s) (icao_surface_pos_ts s) (icao_ident_timestamps
    s) (icao_speed_ts s) (icao_status_ts s) v (icao_operation_status_ts s)
    (icao_df11_ts s) (current_baro_buffer s) (position_calls s).

Definition set_icao_operation_status_ts
    (v : gmap string (list float))
    (s : State) : State :=
  mkState
    (icao_times s) (icao_altitude s) (icao_gnss_altitude s) (icao_speed s)
    (icao_callsigns s) (icao_selected_altitude s) (icao_altitude_difference
    s) (icao_baro_correction s) (icao_has_selected_alt s) (adsb_icao_list s)
    (icao_positions s) (icao_courses s) (cpr_messages s) (icao_dfs s)
    (icao_airborne_pos_ts s) (icao_surface_pos_ts s) (icao_ident_timestamps
    s) (icao_speed_ts s) (icao_status_ts s) (icao_target_state_ts s) v
    (icao_df11_ts s) (current_baro_buffer s) (position_calls s).

Definition set_icao_df11_ts
    (v : gmap string (list float))
    (s : State) : State :=
  mkState
    (icao_times s) (icao_altitude s) (icao_gnss_altitude s) (icao_speed s)
    (icao_callsigns s) (icao_selected_altitude s) (icao_altitude_difference
    s) (icao_baro_correction s) (icao_has_selected_alt s) (adsb_icao_list s)
    (icao_positions s) (icao_courses s) (cpr_messages s) (icao_dfs s)
    (icao_airborne_pos_ts s) (icao_surface_pos_ts s) (icao_ident_timestamps
    s) (icao_speed_ts s) (icao_status_ts s) (icao_target_state_ts s)
    (icao_operation_status_ts s) v (current_baro_buffer s) (position_calls s).

Definition set_current_baro_buffer
    (v : gmap string (float * Z))
    (s : State) : State :=
  mkState
    (icao_times s) (icao_altitude s) (icao_gnss_altitude s) (icao_speed s)
    (icao_callsigns s) (icao_selected_altitude s) (icao_altitude_difference
    s) (icao_baro_correction s) (icao_has_selected_alt s) (adsb_icao_list s)
    (icao_positions s) (icao_courses s) (cpr_messages s) (icao_dfs s)
    (icao_airborne_pos_ts s) (icao_surface_pos_ts s) (icao_ident_timestamps
    s) (icao_speed_ts s) (icao_status_ts s) (icao_target_state_ts s)
    (icao_operation_status_ts s) (icao_df11_ts s) v (position_calls s).

Definition set_position_calls
    (v : list (string * string * float * float))
    (s : State) : State :=
  mkState
    (icao_times s) (icao_altitude s) (icao_gnss_altitude s) (icao_speed s)
    (icao_callsigns s) (icao_selected_altitude s) (icao_altitude_difference
    s) (icao_baro_correction s) (icao_has_selected_alt s) (adsb_icao_list s)
    (icao_positions s) (icao_courses s) (cpr_messages s) (icao_dfs s)
    (icao_airborne_pos_ts s) (icao_surface_pos_ts s) (icao_ident_timestamps
    s) (icao_speed_ts s) (icao_status_ts s) (icao_target_state_ts s)
    (icao_operation_status_ts s) (icao_df11_ts s) (current_baro_buffer s) v.

Definition empty_state : State :=
  mkState ∅ ∅ ∅ ∅ ∅ ∅ ∅ ∅ ∅ ∅ ∅ ∅ ∅ ∅ ∅ ∅ ∅ ∅ ∅ ∅ ∅ ∅ ∅ [].

(** ** Control flow: calls that may raise, with and without the variables *)

Definition obind {A B : Type} (o : outcome A) (k : A -> outcome B) : outcome B :=
  match o with
  | Ok a => k a
  | Raise => Raise
  end.

(** A block of statements: it reads and assigns the variables and either
    completes or raises; what it assigned before raising stays assigned. *)
Definition M (A : Type) : Type := State -> State * outcome A.

Definition ret {A : Type} (a : A) : M A := fun s => (s, Ok a).

Definition bind {A B : Type} (m : M A) (k : A -> M B) : M B :=
  fun s =>
    match m s with
    | (s', Ok a) => k a s'
    | (s', Raise) => (s', Raise)
    end.

Definition call {A : Type} (o : outcome A) : M A := fun s => (s, o).

(** An expression over the variables that may raise, such as [d[k]]. *)
Definition read {A : Type} (f : State -> outcome A) : M A := fun s => (s, f s).

Definition load {A : Type} (f : State -> A) : M A := fun s => (s, Ok (f s)).

Definition store (f : State -> State) : M unit := fun s => (f s, Ok tt).

Definition skip : M unit := ret tt.

(** [try: body  except Exception: continue] as the last statement of a
    loop body: the variables as [body] left them. *)
Definition try_continue (body : M unit) (s : State) : State := fst (body s).

Declare Scope out_scope.
Delimit Scope out_scope with out.
Notation "x <- m ;; k" := (obind m (fun x => k))
  (at level 100, m at next level, right associativity) : out_scope.

Declare Scope py_scope.
Delimit Scope py_scope with py.
Notation "x <- m ;; k" := (bind m (fun x => k))
  (at level 100, m at next level, right associativity) : py_scope.
Notation "m ;; k" := (bind m (fun _ => k))
  (at level 100, right associativity) : py_scope.

(** ** Python operations on values *)

(** [x in l] for an integer and a list of integers *)
Definition Z_in (x : Z) (l : list Z) : bool := existsb (Z.eqb x) l.

(** [a <= x <= b] where [x] may be [None]: the comparison of an integer
    with [None] raises [TypeError]. *)
Definition between (a : Z) (x : option Z) (b : Z) : outcome bool :=
  match x with
  | Some v => Ok ((a <=? v) && (v <=? b))
  | None => Raise
  end.

(** [x == n] where [x] may be [None] *)
Definition is_int (x : option Z) (n : Z) : bool :=
  match x with
  | Some v => v =? n
  | None => false
  end.

(** [d[k]]: [KeyError] when absent *)
Definition getitem {V : Type} (d : gmap string V) (k : string) : outcome V :=
  match d !! k with
  | Some v => Ok v
  | None => Raise
  end.

(** [d.setdefault(k, v)], for its effect on [d] *)
Definition setdefault {V : Type} (k : string) (v : V) (d : gmap string V)
  : gmap string V :=
  match d !! k with
  | Some _ => d
  | None => <[k := v]> d
  end.

(** [d.setdefault(k, []).append(x)] *)
Definition push {V : Type} (k : string) (x : V) (d : gmap string (list V))
  : gmap string (list V) :=
  <[k := (default [] (d !! k) ++ [x])%list]> d.

(** [d.setdefault(k, set()).add(x)] *)
Definition add_to (k : string) (x : string) (d : gmap string (gset string))
  : gmap string (gset string) :=
  <[k := default ∅ (d !! k) ∪ {[x]}]> d.

(** The position that the index [i] designates in a list of length [n]:
    negative indices count from the end, anything else is an
    [IndexError]. *)
Definition list_index (n : nat) (i : Z) : outcome nat :=
  if (0 <=? i) && (i <? Z.of_nat n) then Ok (Z.to_nat i)
  else if (- Z.of_nat n <=? i) && (i <? 0) then Ok (Z.to_nat (i + Z.of_nat n))
  else Raise.

(** [all(l)] for a list whose items are [None] or a pair *)
Definition all_set {A : Type} (l : list (option A)) : bool :=
  forallb (fun x => match x with Some _ => true | None => false end) l.

(** [l[i]] unpacked as a pair: [IndexError] out of range, [TypeError] on
    [None] *)
Definition unpack {A : Type} (l : list (option A)) (i : nat) : outcome A :=
  match l !! i with
  | Some (Some p) => Ok p
  | _ => Raise
  end.

(** The characters of a string, each as a string of length one *)
Fixpoint chars (s : string) : list string :=
  match s with
  | EmptyString => []
  | String c s' => String c EmptyString :: chars s'
  end.

(** * Version 2: [ver2/config.py], [ver2/decoder.py], [ver2/main.py] *)

Module Ver2.

Module config.

Definition MAX_MESSAGE_LENGTH : nat := 32.

Definition MODE_MAP : gmap string string :=
  list_to_map
    [("U", "AP"); ("/", "ALT"); ("M", "VNAV"); ("F", "LNAV");
     ("P", "APP"); ("T", "TCAS"); ("C", "HDG")].

End config.

Module decoder.

(** The bytes of the hexadecimal text [message_str], two digits at a
    time. *)
Fixpoint bytes_of (chunks : list string) : outcome (list Z) :=
  match chunks with
  | [] => Ok []
  | c :: rest =>
      (b <- Py.int16 c ;;
       bs <- bytes_of rest ;;
       Ok (b :: bs))%out
  end.

(** [parse_ads_b_line] from the joining of [hex_parts] on: the text is
    validated and stored into a fresh [ADSBMessage], whose buffer of
    [MAX_MESSAGE_LENGTH] zero bytes receives the first
    [message_length] bytes. *)
Definition decode_hex_parts (timestamp : float) (hex_parts : list string)
  : option (ADSBMessage * string * string) :=
  let message_spaced := Py.strip (Py.upper (Py.join " " hex_parts)) in
  let message_str := Py.remove_blanks message_spaced in
  if (String.length message_str =? 0)%nat
     || negb (Py.all_chars (fun c => Py.char_in c "0123456789ABCDEF")
                message_str)
  then None
  else
    match bytes_of (Py.chunks2 message_str) with
    | Raise => None
    | Ok bytes_list =>
        let n := Nat.min (length bytes_list) config.MAX_MESSAGE_LENGTH in
        let filled := map (fun b => b mod 256) (take n bytes_list) in
        Some ({| timestamp := timestamp;
                 message :=
                   (filled
                    ++ replicate (config.MAX_MESSAGE_LENGTH - n) 0)%list;
                 message_length := n |},
              message_spaced, message_str)
    end.

Definition parse_ads_b_line (lib : PyLib) (line : string)
  : option (ADSBMessage * string * string) :=
  let parts := Py.split (Py.strip line) in
  if (length parts <? 2)%nat then None
  else
    match np_float64 lib (nth 0 parts "") with
    | None => None
    | Some timestamp =>
        let marker := Py.upper (nth 1 parts "") in
        let hex_parts :=
          if (3 <=? length parts)%nat
             && (String.eqb marker "DF" || String.eqb marker "UF")
          then drop 2 parts
          else drop 1 parts in
        decode_hex_parts timestamp hex_parts
    end.

Definition get_altitude_any_df (lib : PyLib) (msg_str : string) (df : Z)
  : option Z :=
  or_none
    (if Z_in df [17; 18] then
       (tc <- pms_adsb_typecode lib msg_str ;;
        airborne <- between 9 tc 18 ;;
        if airborne then pms_adsb_altitude lib msg_str else Ok None)%out
     else if Z_in df [0; 4; 16; 20] then pms_common_altcode lib msg_str
     else Ok None).

Definition get_squawk (lib : PyLib) (msg_str : string) (df : Z)
  : option string :=
  or_none
    (if Z_in df [5; 21] then pms_common_idcode lib msg_str else Ok None).

Definition get_velocity (lib : PyLib) (msg_str : string) : option Z :=
  or_none
    (df <- pms_df lib msg_str ;;
     if negb (Z_in df [17; 18]) then Ok None
     else
       tc <- pms_adsb_typecode lib msg_str ;;
       if is_int tc 19 then
         result <- pms_adsb_velocity lib msg_str ;;
         match result with
         | Some (Some speed, _, _, _) => Ok (Some speed)
         | _ => Ok None
         end
       else Ok None)%out.

Definition get_course (lib : PyLib) (msg_str : string) : option float :=
  or_none
    (df <- pms_df lib msg_str ;;
     if negb (Z_in df [17; 18]) then Ok None
     else
       tc <- pms_adsb_typecode lib msg_str ;;
       if is_int tc 19 then
         result <- pms_adsb_velocity lib msg_str ;;
         match result with
         | Some (_, heading, _, _) => Ok heading
         | None => Raise
         end
       else Ok None)%out.

Definition get_selected_altitude (lib : PyLib) (msg_str : string)
  : option (Z * gset string) :=
  or_none
    (df <- pms_df lib msg_str ;;
     if negb (Z_in df [17; 18]) then Ok None
     else
       tc <- pms_adsb_typecode lib msg_str ;;
       if negb (is_int tc 29) then Ok None
       else
         sel_alt_info <- pms_adsb_selected_altitude lib msg_str ;;
         match sel_alt_info with
         | None => Ok None
         | Some (Some selected_alt, raw_modes) =>
             if (-2000 <=? selected_alt) && (selected_alt <=? 50000) then
               let processed_modes : gset string :=
                 list_to_set
                   (map (fun m => default m (config.MODE_MAP !! m))
                      (chars raw_modes)) in
               Ok (Some (selected_alt, processed_modes))
             else Ok None
         | Some (None, _) => Ok None
         end)%out.

Definition get_altitude_difference (lib : PyLib) (msg_str : string)
  : option Z :=
  or_none
    (df <- pms_df lib msg_str ;;
     if negb (Z_in df [17; 18]) then Ok None
     else
       tc <- pms_typecode lib msg_str ;;
       if negb (is_int tc 19) then Ok None
       else
         altitude_diff <- pms_adsb_altitude_diff lib msg_str ;;
         match altitude_diff with
         | Some d =>
             if (-2500 <=? d) && (d <=? 2500) then Ok (Some d) else Ok None
         | None => Ok None
         end)%out.

Definition get_baro_correction (lib : PyLib) (msg_str : string)
  : option float :=
  or_none
    (df <- pms_df lib msg_str ;;
     if negb (Z_in df [17; 18]) then Ok None
     else
       tc <- pms_adsb_typecode lib msg_str ;;
       if negb (is_int tc 29) then Ok None
       else
         baro_setting <- pms_adsb_baro_pressure_setting lib msg_str ;;
         match baro_setting with
         | Some b =>
             if PrimFloat.leb 800 b && PrimFloat.leb b 1100
             then Ok (Some b) else Ok None
         | None => Ok None
         end)%out.

Definition get_callsign (lib : PyLib) (msg_str : string) : option string :=
  or_none
    (df <- pms_df lib msg_str ;;
     if negb (Z_in df [17; 18]) then Ok None
     else
       tc <- pms_adsb_typecode lib msg_str ;;
       ident <- between 1 tc 4 ;;
       if ident then
         callsign <- pms_adsb_callsign lib msg_str ;;
         match callsign with
         | Some cs =>
             if Py.truthy cs then Ok (Some (Py.filter_chars Py.isalnum cs))
             else Ok None
         | None => Ok None
         end
       else Ok None)%out.

Definition get_format_label (msg_str : string) (df : Z) : string :=
  let length_type :=
    if Z_in df [0; 4; 5; 11] then "S"
    else if Z_in df [16; 17; 18; 19; 20; 21; 24] then "L"
    else
      let length_bits := Z.of_nat (String.length msg_str) * 4 in
      if length_bits =? 56 then "S"
      else if length_bits =? 112 then "L"
      else "?" in
  let label := ("DF" ++ Py.str_of_int df)%string in
  (label ++ "(" ++ length_type ++ ")")%string.

End decoder.

Module main.

(** Lines 62-73 of the loop: the line is framed and the address and
    the format of the message are read; [None] is every [continue]. *)
Definition identify (lib : PyLib) (target_icao : option string)
    (line : string) : option (ADSBMessage * string * string * Z) :=
  if negb (Py.truthy (Py.strip line)) then None
  else
    match decoder.parse_ads_b_line lib line with
    | None => None
    | Some (msg, message_spaced, message_str) =>
        match pms_icao lib message_str, pms_df lib message_str with
        | Ok aa, Ok df =>
            match target_icao with
            | Some t =>
                if Py.truthy t && negb (String.eqb aa t) then None
                else Some (msg, message_str, aa, df)
            | None => Some (msg, message_str, aa, df)
            end
        | _, _ => None
        end
    end.

(** Lines 75-89: the aircraft, the format label, the first and last
    times and the acquisition squitters. *)
Definition register (msg : ADSBMessage) (message_str aa : string) (df : Z)
    (s : State) : State :=
  let s := set_adsb_icao_list (adsb_icao_list s ∪ {[aa]}) s in
  let fmt_label := decoder.get_format_label message_str df in
  let s := set_icao_dfs (add_to aa fmt_label (icao_dfs s)) s in
  let s :=
    match icao_times s !! aa with
    | None =>
        set_icao_times
          (<[aa := {| first := timestamp msg; last := timestamp msg |}]>
             (icao_times s)) s
    | Some times =>
        set_icao_times
          (<[aa := {| first := first times; last := timestamp msg |}]>
             (icao_times s)) s
    end in
  if df =? 11 then
    set_icao_df11_ts (push aa (timestamp msg) (icao_df11_ts s)) s
  else s.

(** Lines 108-121: the time of the message, per kind of squitter. *)
Definition timestamps_block (aa : string) (ts : float) (tc : Z) : M unit :=
  ((if ((9 <=? tc) && (tc <=? 18)) || ((20 <=? tc) && (tc <=? 22)) then
      store (fun s =>
        set_icao_airborne_pos_ts (push aa ts (icao_airborne_pos_ts s)) s)
    else skip) ;;
   (if (5 <=? tc) && (tc <=? 8) then
      store (fun s =>
        set_icao_surface_pos_ts (push aa ts (icao_surface_pos_ts s)) s)
    else skip) ;;
   (if (1 <=? tc) && (tc <=? 4) then
      store (fun s =>
        set_icao_ident_timestamps (push aa ts (icao_ident_timestamps s)) s)
    else skip) ;;
   (if tc =? 19 then
      store (fun s => set_icao_speed_ts (push aa ts (icao_speed_ts s)) s)
    else skip) ;;
   (if tc =? 28 then
      store (fun s => set_icao_status_ts (push aa ts (icao_status_ts s)) s)
    else skip) ;;
   (if tc =? 29 then
      store (fun s =>
        set_icao_target_state_ts (push aa ts (icao_target_state_ts s)) s)
    else skip) ;;
   (if tc =? 31 then
      store (fun s =>
        set_icao_operation_status_ts
          (push aa ts (icao_operation_status_ts s)) s)
    else skip))%py.

(** [pms.adsb.position(msg0, msg1, t0, t1)], the call being logged. *)
Definition position (lib : PyLib) (msg0 msg1 : string) (t0 t1 : float)
  : M (option (float * float)) :=
  fun s =>
    (set_position_calls (position_calls s ++ [(msg0, msg1, t0, t1)])%list s,
     pms_adsb_position lib msg0 msg1 t0 t1).

(** Lines 125-136: the frame goes into the slot of its parity; a
    complete pair less than 10 seconds apart is resolved and both
    slots are emptied. *)
Definition cpr_block (lib : PyLib) (aa message_str : string) (ts : float)
  : M unit :=
  (store (fun s =>
     set_cpr_messages (setdefault aa [None; None] (cpr_messages s)) s) ;;
   oe_flag <- call (pms_adsb_oe_flag lib message_str) ;;
   slots <- read (fun s => getitem (cpr_messages s) aa) ;;
   i <- call (list_index (length slots) oe_flag) ;;
   store (fun s =>
     set_cpr_messages
       (<[aa := <[i := Some (message_str, ts)]> slots]> (cpr_messages s)) s) ;;
   slots <- read (fun s => getitem (cpr_messages s) aa) ;;
   if all_set slots then
     p0 <- call (unpack slots 0) ;;
     p1 <- call (unpack slots 1) ;;
     let '(msg0, t0) := p0 in
     let '(msg1, t1) := p1 in
     if PrimFloat.ltb (PrimFloat.abs (PrimFloat.sub t0 t1)) 10 then
       pos <- position lib msg0 msg1 t0 t1 ;;
       match pos with
       | Some (lat, lon) =>
           store (fun s =>
             set_icao_positions
               (push aa (ts, lat, lon) (icao_positions s)) s)
       | None => skip
       end ;;
       store (fun s =>
         set_cpr_messages (<[aa := [None; None]]> (cpr_messages s)) s)
     else skip
   else skip)%py.

(** Lines 140-156: speed, course, altitude difference and the GNSS
    altitude derived from the last barometric one. *)
Definition velocity_block (lib : PyLib) (aa message_str : string)
    (ts : float) : M unit :=
  (match decoder.get_velocity lib message_str with
   | Some gs => store (fun s => set_icao_speed (push aa (ts, gs) (icao_speed s)) s)
   | None => skip
   end ;;
   match decoder.get_course lib message_str with
   | Some course =>
       store (fun s => set_icao_courses (push aa (ts, course) (icao_courses s)) s)
   | None => skip
   end ;;
   match decoder.get_altitude_difference lib message_str with
   | Some alt_diff =>
       store (fun s =>
         set_icao_altitude_difference
           (push aa (ts, alt_diff) (icao_altitude_difference s)) s) ;;
       buffer <- load (fun s => current_baro_buffer s !! aa) ;;
       match buffer with
       | Some (last_ts, last_baro) =>
           if PrimFloat.ltb (PrimFloat.abs (PrimFloat.sub ts last_ts)) 5
           then
             let gnss_alt := last_baro + alt_diff in
             store (fun s =>
               set_icao_gnss_altitude
                 (push aa (ts, gnss_alt) (icao_gnss_altitude s)) s)
           else skip
       | None => skip
       end
   | None => skip
   end)%py.

(** Lines 160-161 *)
Definition identification_block (lib : PyLib) (aa message_str : string)
  : M unit :=
  match decoder.get_callsign lib message_str with
  | Some cs =>
      if Py.truthy cs then
        store (fun s =>
          set_icao_callsigns (<[aa := Text cs]> (icao_callsigns s)) s)
      else skip
  | None => skip
  end.

(** [existing_modes.union(modes)] where [existing_modes] is
    [icao_callsigns.get(modes_key, set())]: text has no [union]. *)
Definition union_modes (existing : option entry) (modes : gset string)
  : outcome (gset string) :=
  match existing with
  | None => Ok (∅ ∪ modes)
  | Some (Modes m) => Ok (m ∪ modes)
  | Some (Text _) => Raise
  end.

(** Lines 165-176 *)
Definition target_state_block (lib : PyLib) (aa message_str : string)
    (ts : float) : M unit :=
  (match decoder.get_selected_altitude lib message_str with
   | Some (sel_alt_value, modes) =>
       store (fun s =>
         set_icao_selected_altitude
           (push aa (ts, sel_alt_value) (icao_selected_altitude s)) s) ;;
       store (fun s =>
         set_icao_has_selected_alt
           (<[aa := true]> (icao_has_selected_alt s)) s) ;;
       let modes_key := (aa ++ "_modes")%string in
       existing_modes <- load (fun s => icao_callsigns s !! modes_key) ;;
       merged <- call (union_modes existing_modes modes) ;;
       store (fun s =>
         set_icao_callsigns
           (<[modes_key := Modes merged]> (icao_callsigns s)) s)
   | None => skip
   end ;;
   match decoder.get_baro_correction lib message_str with
   | Some baro_corr =>
       store (fun s =>
         set_icao_baro_correction
           (push aa (ts, baro_corr) (icao_baro_correction s)) s)
   | None => skip
   end)%py.

(** Lines 92-96: a plausible barometric altitude, from any format
    that carries one, is recorded and kept as the last one. *)
Definition altitude_block (lib : PyLib) (aa message_str : string) (df : Z)
    (ts : float) : M unit :=
  match decoder.get_altitude_any_df lib message_str df with
  | Some alt =>
      if (-2000 <=? alt) && (alt <=? 60000) then
        (store (fun s =>
           set_icao_altitude (push aa (ts, alt) (icao_altitude s)) s) ;;
         store (fun s =>
           set_current_baro_buffer
             (<[aa := (ts, alt)]> (current_baro_buffer s)) s))%py
      else skip
  | None => skip
  end.

(** Lines 99-101 *)
Definition squawk_block (lib : PyLib) (aa message_str : string) (df : Z)
  : M unit :=
  match decoder.get_squawk lib message_str df with
  | Some sq =>
      if Py.truthy sq then
        store (fun s =>
          set_icao_callsigns
            (<[(aa ++ "_sq")%string := Text sq]> (icao_callsigns s)) s)
      else skip
  | None => skip
  end.

(** Lines 104-176, an extended squitter.  Its type code is compared
    with integers at once, so a type code [None] raises before
    anything is stored for it. *)
Definition adsb_block (lib : PyLib) (aa message_str : string) (ts : float)
  : M unit :=
  (tc <- call (pms_adsb_typecode lib message_str) ;;
   match tc with
   | None => call Raise
   | Some tc =>
       timestamps_block aa ts tc ;;
       if (9 <=? tc) && (tc <=? 18) then cpr_block lib aa message_str ts
       else if tc =? 19 then velocity_block lib aa message_str ts
       else if (1 <=? tc) && (tc <=? 4) then
         identification_block lib aa message_str
       else if tc =? 29 then target_state_block lib aa message_str ts
       else skip
   end)%py.

(** Lines 92-176, the body of the inner [try]. *)
Definition decode_block (lib : PyLib) (aa message_str : string) (df : Z)
    (ts : float) : M unit :=
  (altitude_block lib aa message_str df ts ;;
   squawk_block lib aa message_str df ;;
   if Z_in df [17; 18] then adsb_block lib aa message_str ts else skip)%py.

(** One iteration of the loop over the lines of the file. *)
Definition loop_body (lib : PyLib) (target_icao : option string)
    (s : State) (line : string) : State :=
  match identify lib target_icao line with
  | None => s
  | Some (msg, message_str, aa, df) =>
      try_continue
        (decode_block lib aa message_str df (timestamp msg))
        (register msg message_str aa df s)
  end.

(** The loop, from the empty dictionaries. *)
Definition ingest (lib : PyLib) (target_icao : option string)
    (lines : list string) : State :=
  fold_left (loop_body lib target_icao) lines empty_state.

(** Lines 181-200: the aircraft with at least one extended squitter. *)
Definition has_adsb (dfs : gset string) : bool :=
  existsb (fun label => Py.contains "DF17" label || Py.contains "DF18" label)
    (elements dfs).

Definition filtered_icao_list (s : State) : gset string :=
  list_to_set
    (List.filter (fun icao => has_adsb (default ∅ (icao_dfs s !! icao)))
       (elements (adsb_icao_list s))).

Definition total_icao_count (s : State) : Z :=
  Z.of_nat (size (adsb_icao_list s)).

Definition filtered_count (s : State) : Z :=
  total_icao_count s - Z.of_nat (size (filtered_icao_list s)).

(** Lines 238-243: the flag of a column of the table, ["+"] when the
    aircraft has a series in the dictionary and the series is not
    empty. *)
Definition series_flag {A : Type} (d : gmap string (list A)) (icao : string)
  : string :=
  match d !! icao with
  | Some (_ :: _) => "+"
  | _ => "-"
  end.

(** Line 240: [icao_has_selected_alt.get(icao)] *)
Definition sel_flag (s : State) (icao : string) : string :=
  match icao_has_selected_alt s !! icao with
  | Some true => "+"
  | _ => "-"
  end.

End main.

End Ver2.

(** * Version 1: [ver1/prog1.py], the same program in one file *)

Module Ver1.

Module prog1.

Definition MAX_MESSAGE_LENGTH : nat := 32.

Definition MODE_MAP : gmap string string :=
  list_to_map
    [("U", "AP"); ("/", "ALT"); ("M", "VNAV"); ("F", "LNAV");
     ("P", "APP"); ("T", "TCAS"); ("C", "HDG")].

(** The bytes of the hexadecimal text [message_str], two digits at a
    time. *)
Fixpoint bytes_of (chunks : list string) : outcome (list Z) :=
  match chunks with
  | [] => Ok []
  | c :: rest =>
      (b <- Py.int16 c ;;
       bs <- bytes_of rest ;;
       Ok (b :: bs))%out
  end.

(** [parse_ads_b_line] from the joining of [hex_parts] on: the text is
    validated and stored into a fresh [ADSBMessage], whose buffer of
    [MAX_MESSAGE_LENGTH] zero bytes receives the first
    [message_length] bytes. *)
Definition decode_hex_parts (timestamp : float) (hex_parts : list string)
  : option (ADSBMessage * string * string) :=
  let message_spaced := Py.strip (Py.upper (Py.join " " hex_parts)) in
  let message_str := Py.remove_blanks message_spaced in
  if (String.length message_str =? 0)%nat
     || negb (Py.all_chars (fun c => Py.char_in c "0123456789ABCDEF")
                message_str)
  then None
  else
    match bytes_of (Py.chunks2 message_str) with
    | Raise => None
    | Ok bytes_list =>
        let n := Nat.min (length bytes_list) MAX_MESSAGE_LENGTH in
        let filled := map (fun b => b mod 256) (take n bytes_list) in
        Some ({| timestamp := timestamp;
                 message :=
                   (filled
                    ++ replicate (MAX_MESSAGE_LENGTH - n) 0)%list;
                 message_length := n |},
              message_spaced, message_str)
    end.

Definition parse_ads_b_line (lib : PyLib) (line : string)
  : option (ADSBMessage * string * string) :=
  let parts := Py.split (Py.strip line) in
  if (length parts <? 2)%nat then None
  else
    match np_float64 lib (nth 0 parts "") with
    | None => None
    | Some timestamp =>
        let marker := Py.upper (nth 1 parts "") in
        let hex_parts :=
          if (3 <=? length parts)%nat
             && (String.eqb marker "DF" || String.eqb marker "UF")
          then drop 2 parts
          else drop 1 parts in
        decode_hex_parts timestamp hex_parts
    end.

Definition get_altitude_any_df (lib : PyLib) (msg_str : string) (df : Z)
  : option Z :=
  or_none
    (if Z_in df [17; 18] then
       (tc <- pms_adsb_typecode lib msg_str ;;
        airborne <- between 9 tc 18 ;;
        if airborne then pms_adsb_altitude lib msg_str else Ok None)%out
     else if Z_in df [0; 4; 16; 20] then pms_common_altcode lib msg_str
     else Ok None).

Definition get_squawk (lib : PyLib) (msg_str : string) (df : Z)
  : option string :=
  or_none
    (if Z_in df [5; 21] then pms_common_idcode lib msg_str else Ok None).

Definition get_velocity (lib : PyLib) (msg_str : string) : option Z :=
  or_none
    (df <- pms_df lib msg_str ;;
     if negb (Z_in df [17; 18]) then Ok None
     else
       tc <- pms_adsb_typecode lib msg_str ;;
       if is_int tc 19 then
         result <- pms_adsb_velocity lib msg_str ;;
         match result with
         | Some (Some speed, _, _, _) => Ok (Some speed)
         | _ => Ok None
         end
       else Ok None)%out.

Definition get_course (lib : PyLib) (msg_str : string) : option float :=
  or_none
    (df <- pms_df lib msg_str ;;
     if negb (Z_in df [17; 18]) then Ok None
     else
       tc <- pms_adsb_typecode lib msg_str ;;
       if is_int tc 19 then
         result <- pms_adsb_velocity lib msg_str ;;
         match result with
         | Some (_, heading, _, _) => Ok heading
         | None => Raise
         end
       else Ok None)%out.

Definition get_selected_altitude (lib : PyLib) (msg_str : string)
  : option (Z * gset string) :=
  or_none
    (df <- pms_df lib msg_str ;;
     if negb (Z_in df [17; 18]) then Ok None
     else
       tc <- pms_adsb_typecode lib msg_str ;;
       if negb (is_int tc 29) then Ok None
       else
         sel_alt_info <- pms_adsb_selected_altitude lib msg_str ;;
         match sel_alt_info with
         | None => Ok None
         | Some (Some selected_alt, raw_modes) =>
             if (-2000 <=? selected_alt) && (selected_alt <=? 50000) then
               let processed_modes : gset string :=
                 list_to_set
                   (map (fun m => default m (MODE_MAP !! m))
                      (chars raw_modes)) in
               Ok (Some (selected_alt, processed_modes))
             else Ok None
         | Some (None, _) => Ok None
         end)%out.

Definition get_altitude_difference (lib : PyLib) (msg_str : string)
  : option Z :=
  or_none
    (df <- pms_df lib msg_str ;;
     if negb (Z_in df [17; 18]) then Ok None
     else
       tc <- pms_typecode lib msg_str ;;
       if negb (is_int tc 19) then Ok None
       else
         altitude_diff <- pms_adsb_altitude_diff lib msg_str ;;
         match altitude_diff with
         | Some d =>
             if (-2500 <=? d) && (d <=? 2500) then Ok (Some d) else Ok None
         | None => Ok None
         end)%out.

Definition get_baro_correction (lib : PyLib) (msg_str : string)
  : option float :=
  or_none
    (df <- pms_df lib msg_str ;;
     if negb (Z_in df [17; 18]) then Ok None
     else
       tc <- pms_adsb_typecode lib msg_str ;;
       if negb (is_int tc 29) then Ok None
       else
         baro_setting <- pms_adsb_baro_pressure_setting lib msg_str ;;
         match baro_setting with
         | Some b =>
             if PrimFloat.leb 800 b && PrimFloat.leb b 1100
             then Ok (Some b) else Ok None
         | None => Ok None
         end)%out.

Definition get_callsign (lib : PyLib) (msg_str : string) : option string :=
  or_none
    (df <- pms_df lib msg_str ;;
     if negb (Z_in df [17; 18]) then Ok None
     else
       tc <- pms_adsb_typecode lib msg_str ;;
       ident <- between 1 tc 4 ;;
       if ident then
         callsign <- pms_adsb_callsign lib msg_str ;;
         match callsign with
         | Some cs =>
             if Py.truthy cs then Ok (Some (Py.filter_chars Py.isalnum cs))
             else Ok None
         | None => Ok None
         end
       else Ok None)%out.

Definition get_format_label (msg_str : string) (df : Z) : string :=
  let length_type :=
    if Z_in df [0; 4; 5; 11] then "S"
    else if Z_in df [16; 17; 18; 19; 20; 21; 24] then "L"
    else
      let length_bits := Z.of_nat (String.length msg_str) * 4 in
      if length_bits =? 56 then "S"
      else if length_bits =? 112 then "L"
      else "?" in
  let label := ("DF" ++ Py.str_of_int df)%string in
  (label ++ "(" ++ length_type ++ ")")%string.

(** Lines 852-863 of the loop: the line is framed and the address and
    the format of the message are read; [None] is every [continue]. *)
Definition identify (lib : PyLib) (target_icao : option string)
    (line : string) : option (ADSBMessage * string * string * Z) :=
  if negb (Py.truthy (Py.strip line)) then None
  else
    match parse_ads_b_line lib line with
    | None => None
    | Some (msg, message_spaced, message_str) =>
        match pms_icao lib message_str, pms_df lib message_str with
        | Ok aa, Ok df =>
            match target_icao with
            | Some t =>
                if Py.truthy t && negb (String.eqb aa t) then None
                else Some (msg, message_str, aa, df)
            | None => Some (msg, message_str, aa, df)
            end
        | _, _ => None
        end
    end.

(** Lines 865-879: the aircraft, the format label, the first and last
    times and the acquisition squitters. *)
Definition register (msg : ADSBMessage) (message_str aa : string) (df : Z)
    (s : State) : State :=
  let s := set_adsb_icao_list (adsb_icao_list s ∪ {[aa]}) s in
  let fmt_label := get_format_label message_str df in
  let s := set_icao_dfs (add_to aa fmt_label (icao_dfs s)) s in
  let s :=
    match icao_times s !! aa with
    | None =>
        set_icao_times
          (<[aa := {| first := timestamp msg; last := timestamp msg |}]>
             (icao_times s)) s
    | Some times =>
        set_icao_times
          (<[aa := {| first := first times; last := timestamp msg |}]>
             (icao_times s)) s
    end in
  if df =? 11 then
    set_icao_df11_ts (push aa (timestamp msg) (icao_df11_ts s)) s
  else s.

(** Lines 898-911: the time of the message, per kind of squitter. *)
Definition timestamps_block (aa : string) (ts : float) (tc : Z) : M unit :=
  ((if ((9 <=? tc) && (tc <=? 18)) || ((20 <=? tc) && (tc <=? 22)) then
      store (fun s =>
        set_icao_airborne_pos_ts (push aa ts (icao_airborne_pos_ts s)) s)
    else skip) ;;
   (if (5 <=? tc) && (tc <=? 8) then
      store (fun s =>
        set_icao_surface_pos_ts (push aa ts (icao_surface_pos_ts s)) s)
    else skip) ;;
   (if (1 <=? tc) && (tc <=? 4) then
      store (fun s =>
        set_icao_ident_timestamps (push aa ts (icao_ident_timestamps s)) s)
    else skip) ;;
   (if tc =? 19 then
      store (fun s => set_icao_speed_ts (push aa ts (icao_speed_ts s)) s)
    else skip) ;;
   (if tc =? 28 then
      store (fun s => set_icao_status_ts (push aa ts (icao_status_ts s)) s)
    else skip) ;;
   (if tc =? 29 then
      store (fun s =>
        set_icao_target_state_ts (push aa ts (icao_target_state_ts s)) s)
    else skip) ;;
   (if tc =? 31 then
      store (fun s =>
        set_icao_operation_status_ts
          (push aa ts (icao_operation_status_ts s)) s)
    else skip))%py.

(** [pms.adsb.position(msg0, msg1, t0, t1)], the call being logged. *)
Definition position (lib : PyLib) (msg0 msg1 : string) (t0 t1 : float)
  : M (option (float * float)) :=
  fun s =>
    (set_position_calls (position_calls s ++ [(msg0, msg1, t0, t1)])%list s,
     pms_adsb_position lib msg0 msg1 t0 t1).

(** Lines 915-926: the frame goes into the slot of its parity; a
    complete pair less than 10 seconds apart is resolved and both
    slots are emptied. *)
Definition cpr_block (lib : PyLib) (aa message_str : string) (ts : float)
  : M unit :=
  (store (fun s =>
     set_cpr_messages (setdefault aa [None; None] (cpr_messages s)) s) ;;
   oe_flag <- call (pms_adsb_oe_flag lib message_str) ;;
   slots <- read (fun s => getitem (cpr_messages s) aa) ;;
   i <- call (list_index (length slots) oe_flag) ;;
   store (fun s =>
     set_cpr_messages
       (<[aa := <[i := Some (message_str, ts)]> slots]> (cpr_messages s)) s) ;;
   slots <- read (fun s => getitem (cpr_messages s) aa) ;;
   if all_set slots then
     p0 <- call (unpack slots 0) ;;
     p1 <- call (unpack slots 1) ;;
     let '(msg0, t0) := p0 in
     let '(msg1, t1) := p1 in
     if PrimFloat.ltb (PrimFloat.abs (PrimFloat.sub t0 t1)) 10 then
       pos <- position lib msg0 msg1 t0 t1 ;;
       match pos with
       | Some (lat, lon) =>
           store (fun s =>
             set_icao_positions
               (push aa (ts, lat, lon) (icao_positions s)) s)
       | None => skip
       end ;;
       store (fun s =>
         set_cpr_messages (<[aa := [None; None]]> (cpr_messages s)) s)
     else skip
   else skip)%py.

(** Lines 930-946: speed, course, altitude difference and the GNSS
    altitude derived from the last barometric one. *)
Definition velocity_block (lib : PyLib) (aa message_str : string)
    (ts : float) : M unit :=
  (match get_velocity lib message_str with
   | Some gs => store (fun s => set_icao_speed (push aa (ts, gs) (icao_speed s)) s)
   | None => skip
   end ;;
   match get_course lib message_str with
   | Some course =>
       store (fun s => set_icao_courses (push aa (ts, course) (icao_courses s)) s)
   | None => skip
   end ;;
   match get_altitude_difference lib message_str with
   | Some alt_diff =>
       store (fun s =>
         set_icao_altitude_difference
           (push aa (ts, alt_diff) (icao_altitude_difference s)) s) ;;
       buffer <- load (fun s => current_baro_buffer s !! aa) ;;
       match buffer with
       | Some (last_ts, last_baro) =>
           if PrimFloat.ltb (PrimFloat.abs (PrimFloat.sub ts last_ts)) 5
           then
             let gnss_alt := last_baro + alt_diff in
             store (fun s =>
               set_icao_gnss_altitude
                 (push aa (ts, gnss_alt) (icao_gnss_altitude s)) s)
           else skip
       | None => skip
       end
   | None => skip
   end)%py.

(** Lines 950-951 *)
Definition identification_block (lib : PyLib) (aa message_str : string)
  : M unit :=
  match get_callsign lib message_str with
  | Some cs =>
      if Py.truthy cs then
        store (fun s =>
          set_icao_callsigns (<[aa := Text cs]> (icao_callsigns s)) s)
      else skip
  | None => skip
  end.

(** [existing_modes.union(modes)] where [existing_modes] is
    [icao_callsigns.get(modes_key, set())]: text has no [union]. *)
Definition union_modes (existing : option entry) (modes : gset string)
  : outcome (gset string) :=
  match existing with
  | None => Ok (∅ ∪ modes)
  | Some (Modes m) => Ok (m ∪ modes)
  | Some (Text _) => Raise
  end.

(** Lines 955-966 *)
Definition target_state_block (lib : PyLib) (aa message_str : string)
    (ts : float) : M unit :=
  (match get_selected_altitude lib message_str with
   | Some (sel_alt_value, modes) =>
       store (fun s =>
         set_icao_selected_altitude
           (push aa (ts, sel_alt_value) (icao_selected_altitude s)) s) ;;
       store (fun s =>
         set_icao_has_selected_alt
           (<[aa := true]> (icao_has_selected_alt s)) s) ;;
       let modes_key := (aa ++ "_modes")%string in
       existing_modes <- load (fun s => icao_callsigns s !! modes_key) ;;
       merged <- call (union_modes existing_modes modes) ;;
       store (fun s =>
         set_icao_callsigns
           (<[modes_key := Modes merged]> (icao_callsigns s)) s)
   | None => skip
   end ;;
   match get_baro_correction lib message_str with
   | Some baro_corr =>
       store (fun s =>
         set_icao_baro_correction
           (push aa (ts, baro_corr) (icao_baro_correction s)) s)
   | None => skip
   end)%py.

(** Lines 882-886: a plausible barometric altitude, from any format
    that carries one, is recorded and kept as the last one. *)
Definition altitude_block (lib : PyLib) (aa message_str : string) (df : Z)
    (ts : float) : M unit :=
  match get_altitude_any_df lib message_str df with
  | Some alt =>
      if (-2000 <=? alt) && (alt <=? 60000) then
        (store (fun s =>
           set_icao_altitude (push aa (ts, alt) (icao_altitude s)) s) ;;
         store (fun s =>
           set_current_baro_buffer
             (<[aa := (ts, alt)]> (current_baro_buffer s)) s))%py
      else skip
  | None => skip
  end.

(** Lines 889-891 *)
Definition squawk_block (lib : PyLib) (aa message_str : string) (df : Z)
  : M unit :=
  match get_squawk lib message_str df with
  | Some sq =>
      if Py.truthy sq then
        store (fun s =>
          set_icao_callsigns
            (<[(aa ++ "_sq")%string := Text sq]> (icao_callsigns s)) s)
      else skip
  | None => skip
  end.

(** Lines 894-966, an extended squitter.  Its type code is compared
    with integers at once, so a type code [None] raises before
    anything is stored for it. *)
Definition adsb_block (lib : PyLib) (aa message_str : string) (ts : float)
  : M unit :=
  (tc <- call (pms_adsb_typecode lib message_str) ;;
   match tc with
   | None => call Raise
   | Some tc =>
       timestamps_block aa ts tc ;;
       if (9 <=? tc) && (tc <=? 18) then cpr_block lib aa message_str ts
       else if tc =? 19 then velocity_block lib aa message_str ts
       else if (1 <=? tc) && (tc <=? 4) then
         identification_block lib aa message_str
       else if tc =? 29 then target_state_block lib aa message_str ts
       else skip
   end)%py.

(** Lines 882-966, the body of the inner [try]. *)
Definition decode_block (lib : PyLib) (aa message_str : string) (df : Z)
    (ts : float) : M unit :=
  (altitude_block lib aa message_str df ts ;;
   squawk_block lib aa message_str df ;;
   if Z_in df [17; 18] then adsb_block lib aa message_str ts else skip)%py.

(** One iteration of the loop over the lines of the file. *)
Definition loop_body (lib : PyLib) (target_icao : option string)
    (s : State) (line : string) : State :=
  match identify lib target_icao line with
  | None => s
  | Some (msg, message_str, aa, df) =>
      try_continue
        (decode_block lib aa message_str df (timestamp msg))
        (register msg message_str aa df s)
  end.

(** The loop, from the empty dictionaries. *)
Definition ingest (lib : PyLib) (target_icao : option string)
    (lines : list string) : State :=
  fold_left (loop_body lib target_icao) lines empty_state.

(** Lines 971-990: the aircraft with at least one extended squitter. *)
Definition has_adsb (dfs : gset string) : bool :=
  existsb (fun label => Py.contains "DF17" label || Py.contains "DF18" label)
    (elements dfs).

Definition filtered_icao_list (s : State) : gset string :=
  list_to_set
    (List.filter (fun icao => has_adsb (default ∅ (icao_dfs s !! icao)))
       (elements (adsb_icao_list s))).

Definition total_icao_count (s : State) : Z :=
  Z.of_nat (size (adsb_icao_list s)).

Definition filtered_count (s : State) : Z :=
  total_icao_count s - Z.of_nat (size (filtered_icao_list s)).

(** [IcaoGraphs._plot_histogram], lines 580-669: the intervals
    between the messages of one kind and their three bands. *)
Module IcaoGraphs.

(** Lines 584-630: the target interval and the half-width of the
    tolerance, in milliseconds, per display mode. *)
Definition center_dev (mode : string) : Z * Z :=
  if String.eqb mode "df11_msg_intervals" then (1000, 200)
  else if String.eqb mode "reg05_msg_intervals" then (500, 100)
  else if String.eqb mode "reg06_msg_intervals" then (500, 100)
  else if String.eqb mode "reg08_msg_intervals" then (5000, 200)
  else if String.eqb mode "reg09_msg_intervals" then (500, 100)
  else if String.eqb mode "reg61_msg_intervals" then (5000, 200)
  else if String.eqb mode "reg62_msg_intervals" then (1250, 100)
  else if String.eqb mode "reg65_msg_intervals" then (2500, 100)
  else (500, 100).

(** [sorted(l)] compares with [<] and keeps equal items in their
    order.  This is the list [sorted] returns when no item is a NaN; with
    a NaN among the items the order Python returns depends on the merges
    of its algorithm, and only the items and their number are the same. *)
Fixpoint insort (x : float) (l : list float) : list float :=
  match l with
  | [] => [x]
  | y :: l' => if PrimFloat.ltb x y then x :: l else y :: insort x l'
  end.

Definition sorted (l : list float) : list float :=
  fold_left (fun acc x => insort x acc) l [].

(** [np.diff] *)
Fixpoint diff (l : list float) : list float :=
  match l with
  | a :: (b :: _) as l' => PrimFloat.sub b a :: diff l'
  | _ => []
  end.

(** A Python integer as the [float64] numpy compares it with (exact
    below 2^53 in absolute value). *)
Definition float_of_int (z : Z) : float :=
  if z <? 0 then PrimFloat.opp (PrimFloat.of_uint63 (Uint63.of_Z (- z)))
  else PrimFloat.of_uint63 (Uint63.of_Z z).

Inductive histogram : Type :=
| InsufficientData
| NoValidIntervals
| Bands (intervals middle left right : list float).

Definition plot_histogram (data_source : option (list float))
    (center dev : Z) : histogram :=
  match data_source with
  | None => InsufficientData
  | Some data =>
      if (length data <? 2)%nat then InsufficientData
      else
        let timestamps := sorted data in
        let intervals :=
          map (fun d => PrimFloat.mul d 1000) (diff timestamps) in
        let intervals := List.filter (fun x => PrimFloat.leb 0 x) intervals in
        if (length intervals =? 0)%nat then NoValidIntervals
        else
          let low := float_of_int (center - dev) in
          let high := float_of_int (center + dev) in
          let middle :=
            List.filter
              (fun x => PrimFloat.leb low x && PrimFloat.leb x high)
              intervals in
          let left := List.filter (fun x => PrimFloat.ltb x low) intervals in
          let right := List.filter (fun x => PrimFloat.ltb high x) intervals in
          Bands intervals middle left right
  end.

(** [sorted(l)] for strings: [<] compares the code points, left to
    right. *)
Fixpoint insort_str (x : string) (l : list string) : list string :=
  match l with
  | [] => [x]
  | y :: l' => if String.ltb x y then x :: l else y :: insort_str x l'
  end.

Definition sorted_str (l : list string) : list string :=
  fold_left (fun acc x => insort_str x acc) l [].

(** Lines 255-259 of [__init__]: the aircraft that have some data, among
    those of [adsb_icao_list], in ascending order. *)
Definition icao_with_data (s : State) : gset string :=
  dom (icao_altitude s) ∪ dom (icao_speed s) ∪ dom (icao_positions s)
  ∪ dom (icao_courses s) ∪ dom (icao_gnss_altitude s)
  ∪ dom (icao_airborne_pos_ts s) ∪ dom (icao_df11_ts s).

Definition icao_list (s : State) (adsb_icao_list : gset string) : list string :=
  sorted_str (elements (icao_with_data s ∩ adsb_icao_list)).

(** Lines 288-291 *)
Definition plot_modes : list string :=
  ["all_tracks"; "altitude"; "gnss_altitude"; "speed";
   "altitude_speed_combined"; "latitude"; "course"; "track"; "altitude_diff";
   "baro_correction"; "df11_msg_intervals"; "reg05_msg_intervals";
   "reg06_msg_intervals"; "reg08_msg_intervals"; "reg09_msg_intervals";
   "reg61_msg_intervals"; "reg62_msg_intervals"; "reg65_msg_intervals"].

(** What the navigation changes: [self.icao_index] and
    [self.plot_mode_idx], both 0 at the end of [__init__] (lines 285 and
    293). *)
Record view : Type := {
  icao_index : Z;
  plot_mode_idx : Z
}.

Definition initial_view : view := {| icao_index := 0; plot_mode_idx := 0 |}.

(** Lines 754-772: each method returns at once when [self.icao_list] is
    empty; the drawing that follows the assignment changes neither
    index. *)
Definition next_icao (icao_list : list string) (v : view) : view :=
  match icao_list with
  | [] => v
  | _ =>
      {| icao_index := (icao_index v + 1) mod Z.of_nat (length icao_list);
         plot_mode_idx := plot_mode_idx v |}
  end.

Definition prev_icao (icao_list : list string) (v : view) : view :=
  match icao_list with
  | [] => v
  | _ =>
      {| icao_index :=
           (icao_index v - 1 + Z.of_nat (length icao_list))
           mod Z.of_nat (length icao_list);
         plot_mode_idx := plot_mode_idx v |}
  end.

Definition next_mode (icao_list : list string) (v : view) : view :=
  match icao_list with
  | [] => v
  | _ =>
      {| icao_index := icao_index v;
         plot_mode_idx :=
           (plot_mode_idx v + 1) mod Z.of_nat (length plot_modes) |}
  end.

Definition prev_mode (icao_list : list string) (v : view) : view :=
  match icao_list with
  | [] => v
  | _ =>
      {| icao_index := icao_index v;
         plot_mode_idx :=
           (plot_mode_idx v - 1 + Z.of_nat (length plot_modes))
           mod Z.of_nat (length plot_modes) |}
  end.

(** Lines 774-778 *)
Definition on_key (icao_list : list string) (key : string) (v : view) : view :=
  if String.eqb key "right" then next_icao icao_list v
  else if String.eqb key "left" then prev_icao icao_list v
  else if String.eqb key "up" then next_mode icao_list v
  else if String.eqb key "down" then prev_mode icao_list v
  else v.

End IcaoGraphs.

End prog1.

End Ver1.

(** * A table-driven stand-in for the imported packages

    The examples below run the program on short logs.  They need some
    [PyLib]: this one reads the time as a decimal number and answers every
    pyModeS call from a table that lists, per message, what the message
    carries; a message that is not in the table, or a question that does
    not fit the kind of the message, raises. *)

Module Mock.

Inductive payload : Type :=
| AirbornePosition (oe : Z) (alt : option Z)
| Velocity (v : option (option Z * option float * option Z * string))
    (diff : option Z)
| Identification (callsign : option string)
| TargetState (sel : option (option Z * string)) (baro : option float)
| AltitudeReply (alt : option Z)
| IdentityReply (code : option string)
| Other.

Record frame : Type := {
  fr_icao : string;
  fr_df : Z;
  fr_tc : option Z;
  fr_payload : payload
}.

Definition table : Type := list (string * frame).

Fixpoint find (t : table) (m : string) : option frame :=
  match t with
  | [] => None
  | (k, fr) :: t' => if String.eqb k m then Some fr else find t' m
  end.

Definition ask {A : Type} (t : table) (m : string) (f : frame -> outcome A)
  : outcome A :=
  match find t m with
  | Some fr => f fr
  | None => Raise
  end.

(** Unsigned decimal text, with an optional fraction: the digits as one
    integer and the number of digits after the point. *)
Fixpoint digits (acc : Z) (frac : option nat) (s : string)
  : option (Z * nat) :=
  match s with
  | EmptyString => Some (acc, default 0%nat frac)
  | String c s' =>
      let n := Z.of_nat (nat_of_ascii c) in
      if (48 <=? n) && (n <=? 57) then
        digits (10 * acc + (n - 48)) (S <$> frac) s'
      else if Ascii.eqb c "." then
        match frac with
        | None => digits acc (Some 0%nat) s'
        | Some _ => None
        end
      else None
  end.

Definition float_of_decimal (s : string) : option float :=
  match s with
  | EmptyString => None
  | _ =>
      match digits 0 None s with
      | Some (n, k) =>
          Some (PrimFloat.div (PrimFloat.of_uint63 (Uint63.of_Z n))
                  (PrimFloat.of_uint63 (Uint63.of_Z (10 ^ Z.of_nat k))))
      | None => None
      end
  end.

(** [fixes] lists the pairs of frames that resolve to a position. *)
Definition lib (t : table) (fixes : list (string * string * (float * float)))
  : PyLib :=
  {| np_float64 := float_of_decimal;
     pms_icao := fun m => ask t m (fun fr => Ok (fr_icao fr));
     pms_df := fun m => ask t m (fun fr => Ok (fr_df fr));
     pms_typecode := fun m => ask t m (fun fr => Ok (fr_tc fr));
     pms_adsb_typecode := fun m => ask t m (fun fr => Ok (fr_tc fr));
     pms_adsb_altitude := fun m =>
       ask t m (fun fr =>
         match fr_payload fr with AirbornePosition _ a => Ok a | _ => Raise end);
     pms_common_altcode := fun m =>
       ask t m (fun fr =>
         match fr_payload fr with AltitudeReply a => Ok a | _ => Raise end);
     pms_common_idcode := fun m =>
       ask t m (fun fr =>
         match fr_payload fr with IdentityReply c => Ok c | _ => Raise end);
     pms_adsb_velocity := fun m =>
       ask t m (fun fr =>
         match fr_payload fr with Velocity v _ => Ok v | _ => Raise end);
     pms_adsb_selected_altitude := fun m =>
       ask t m (fun fr =>
         match fr_payload fr with TargetState a _ => Ok a | _ => Raise end);
     pms_adsb_altitude_diff := fun m =>
       ask t m (fun fr =>
         match fr_payload fr with Velocity _ d => Ok d | _ => Raise end);
     pms_adsb_baro_pressure_setting := fun m =>
       ask t m (fun fr =>
         match fr_payload fr with TargetState _ b => Ok b | _ => Raise end);
     pms_adsb_callsign := fun m =>
       ask t m (fun fr =>
         match fr_payload fr with Identification c => Ok c | _ => Raise end);
     pms_adsb_oe_flag := fun m =>
       ask t m (fun fr =>
         match fr_payload fr with AirbornePosition oe _ => Ok oe | _ => Raise end);
     pms_adsb_position := fun m0 m1 _ _ =>
       Ok (snd <$> List.find
                     (fun e => String.eqb (fst (fst e)) m0
                               && String.eqb (snd (fst e)) m1) fixes) |}.

(** The frames of the examples: aircraft 4840D6 sends an even and an odd
    airborne position, a velocity with an altitude difference of +50 ft,
    two identifications and a target state; aircraft 3C6444 answers
    Mode S interrogations only. *)
Definition frames : table :=
  [("8D4840D6580000", {| fr_icao := "4840D6"; fr_df := 17; fr_tc := Some 11;
                         fr_payload := AirbornePosition 0 (Some 35000) |});
   ("8D4840D6580400", {| fr_icao := "4840D6"; fr_df := 17; fr_tc := Some 11;
                         fr_payload := AirbornePosition 1 (Some 35000) |});
   ("8D4840D6990050", {| fr_icao := "4840D6"; fr_df := 17; fr_tc := Some 19;
                         fr_payload :=
                           Velocity (Some (Some 450, Some 90.5%float, Some 0, "GS"))
                             (Some 50) |});
   ("8D4840D620AAAA", {| fr_icao := "4840D6"; fr_df := 17; fr_tc := Some 4;
                         fr_payload := Identification (Some "KLM1023_") |});
   ("8D4840D620BBBB", {| fr_icao := "4840D6"; fr_df := 17; fr_tc := Some 4;
                         fr_payload := Identification (Some "KLM88___") |});
   ("8D4840D6EA0000", {| fr_icao := "4840D6"; fr_df := 17; fr_tc := Some 29;
                         fr_payload :=
                           TargetState (Some (Some 36000, "MCP/FCU"))
                             (Some 1013.6%float) |});
   ("203C6444000000", {| fr_icao := "3C6444"; fr_df := 4; fr_tc := None;
                         fr_payload := AltitudeReply (Some 35000) |});
   ("283C6444999900", {| fr_icao := "3C6444"; fr_df := 5; fr_tc := None;
                         fr_payload := IdentityReply (Some "9999") |});
   ("204840D6000000", {| fr_icao := "4840D6"; fr_df := 4; fr_tc := None;
                         fr_payload := AltitudeReply (Some 35000) |})].

Definition fixes : list (string * string * (float * float)) :=
  [("8D4840D6580000", "8D4840D6580400", (52.2572%float, 3.91937%float))].

Definition pylib : PyLib := lib frames fixes.

(** The same library with a resolver that raises, as a decoder does on
    frames too short to hold the fields it reads. *)
Definition failing_resolver (l : PyLib) : PyLib :=
  {| np_float64 := np_float64 l;
     pms_icao := pms_icao l;
     pms_df := pms_df l;
     pms_typecode := pms_typecode l;
     pms_adsb_typecode := pms_adsb_typecode l;
     pms_adsb_altitude := pms_adsb_altitude l;
     pms_common_altcode := pms_common_altcode l;
     pms_common_idcode := pms_common_idcode l;
     pms_adsb_velocity := pms_adsb_velocity l;
     pms_adsb_selected_altitude := pms_adsb_selected_altitude l;
     pms_adsb_altitude_diff := pms_adsb_altitude_diff l;
     pms_adsb_baro_pressure_setting := pms_adsb_baro_pressure_setting l;
     pms_adsb_callsign := pms_adsb_callsign l;
     pms_adsb_oe_flag := pms_adsb_oe_flag l;
     pms_adsb_position := fun _ _ _ _ => Raise |}.

End Mock.

(** * Values named in the properties *)

(** The double next above 600: binary64 has no 0.6, [1.6 - 1.0] is the
    double next above the one nearest to 0.6, and its product by 1000
    rounds up. *)
Definition just_above_600 : float := 0x1.2c00000000001p+9%float.

(** The rational number a double stands for; an infinity and a NaN stand
    for none. *)
Definition rational (x : float) : option Q :=
  match Prim2SF x with
  | S754_zero _ => Some (inject_Z 0)
  | S754_finite sign mantissa exponent =>
      Some (Qmult (inject_Z (if sign then Z.neg mantissa else Z.pos mantissa))
              (Qpower (inject_Z 2) exponent))
  | _ => None
  end.

(** The distance of two times as numbers, that is, before the rounding
    of the subtraction the program performs. *)
Definition apart (t0 t1 : float) : option Q :=
  match rational t0, rational t1 with
  | Some q0, Some q1 => Some (Qabs (Qminus q0 q1))
  | _, _ => None
  end.

(** "The times differ by strictly less than [bound] seconds" and "the
    times are within [bound] seconds of each other", read on the numbers. *)
Definition apart_less_than (t0 t1 : float) (bound : Z) : Prop :=
  match apart t0 t1 with
  | Some gap => Qlt gap (inject_Z bound)
  | None => False
  end.

Definition apart_at_most (t0 t1 : float) (bound : Z) : Prop :=
  match apart t0 t1 with
  | Some gap => Qle gap (inject_Z bound)
  | None => False
  end.

(** The double nearest to 6.000000000000001, which is 6 + 2^-50 *)
Definition just_above_6 : float := 0x1.8000000000001p+2%float.

(** The times of the messages that name the aircraft [aa], in the order
    of the file: a message counts as soon as its line is framed and its
    address and format are read, whatever its fields decode to. *)
Definition times_of (lib : PyLib) (target_icao : option string) (aa : string)
    (lines : list string) : list float :=
  omap
    (fun line =>
       match Ver2.main.identify lib target_icao line with
       | Some (msg, _, aa', _) =>
           if String.eqb aa' aa then Some (timestamp msg) else None
       | None => None
       end)
    lines.

(** [icao_times[aa]] after one more message at time [t] *)
Definition seen_at (r : option seen) (t : float) : option seen :=
  match r with
  | None => Some {| first := t; last := t |}
  | Some x => Some {| first := first x; last := t |}
  end.

(** The reading of "first seen is the minimum and last seen the maximum
    of the times": both are among the times and bound all of them. *)
Definition is_min_max (r : seen) (times : list float) : Prop :=
  In (first r) times /\ In (last r) times
  /\ Forall (fun t => PrimFloat.leb (first r) t = true
                      /\ PrimFloat.leb t (last r) = true) times.

(** The call sign a line reports for the aircraft [aa]: the line is a
    message of [aa] from which [get_callsign] extracts a call sign that is
    not empty once the characters other than letters and digits are
    removed. *)
Definition callsign_of (lib : PyLib) (target_icao : option string)
    (aa line : string) : option string :=
  match Ver2.main.identify lib target_icao line with
  | Some (_, message_str, aa', _) =>
      if String.eqb aa' aa then
        match Ver2.decoder.get_callsign lib message_str with
        | Some cs => if Py.truthy cs then Some cs else None
        | None => None
        end
      else None
  | None => None
  end.

Definition callsigns_of (lib : PyLib) (target_icao : option string)
    (aa : string) (lines : list string) : list string :=
  omap (callsign_of lib target_icao aa) lines.

(** Every value of every series of a dictionary satisfies [P]. *)
Definition all_values {V : Type} (P : V -> Prop)
    (d : gmap string (list (float * V))) : Prop :=
  forall aa l, d !! aa = Some l -> Forall (fun p => P (snd p)) l.

(** The plausibility ranges of the stored values: feet for the three
    altitudes, hectopascal for the pressure setting. *)
Definition plausible (s : State) : Prop :=
  all_values (fun v => -2000 <= v <= 60000) (icao_altitude s)
  /\ all_values (fun v => -2000 <= v <= 50000) (icao_selected_altitude s)
  /\ all_values (fun v => -2500 <= v <= 2500) (icao_altitude_difference s)
  /\ all_values
       (fun v => PrimFloat.leb 800 v = true /\ PrimFloat.leb v 1100 = true)
       (icao_baro_correction s).

(** A squawk is a Mode A code, four octal digits: the range a squawk could
    be checked against. *)
Definition squawk_in_range (sq : string) : bool :=
  (String.length sq =? 4)%nat
  && Py.all_chars (fun c => Py.char_in c "01234567") sq.

(** A label for the extended-squitter format 17 or 18: what
    [get_format_label] makes of some message of one of these formats. *)
Definition is_es_label (label : string) : Prop :=
  exists m df,
    (df = 17 \/ df = 18) /\ label = Ver2.decoder.get_format_label m df.

(** The labels of an aircraft, [icao_dfs.get(icao, set())] *)
Definition labels_of (s : State) (aa : string) : gset string :=
  default ∅ (icao_dfs s !! aa).

(** What the capability filter tests on one label *)
Definition names_adsb (label : string) : bool :=
  Py.contains "DF17" label || Py.contains "DF18" label.

(** Every label of the state was made from a format the decoder
    returned. *)
Definition labels_from (lib : PyLib) (s : State) : Prop :=
  forall aa dfs label,
    icao_dfs s !! aa = Some dfs -> label ∈ dfs ->
    exists m df,
      pms_df lib m = Ok df /\ label = Ver2.decoder.get_format_label m df.

(** The series of the aircraft [aa] in a dictionary of series, empty when
    the aircraft has none. *)
Definition series_of {A : Type} (d : gmap string (list A)) (aa : string)
  : list A :=
  default [] (d !! aa).

(** The framed message of a line of the examples *)
Definition framed (line : string) : ADSBMessage :=
  match Ver2.decoder.parse_ads_b_line Mock.pylib line with
  | Some (msg, _, _) => msg
  | None => {| timestamp := 0; message := []; message_length := 0 |}
  end.

(** [keeps P m]: the block [m] maintains [P], whether it completes or
    raises.  [total m]: the block never raises. *)
Definition keeps {A : Type} (P : State -> Prop) (m : M A) : Prop :=
  forall s, P s -> P (fst (m s)).

Definition total {A : Type} (m : M A) : Prop :=
  forall s, exists a, snd (m s) = Ok a.

(** [wp m Q R s]: run from [s], the block [m] either completes with a
    value and in a state that satisfy [Q], or raises in a state that
    satisfies [R]. *)
Definition wp {A : Type} (m : M A) (Q : A -> State -> Prop)
    (R : State -> Prop) (s : State) : Prop :=
  match m s with
  | (s', Ok a) => Q a s'
  | (s', Raise) => R s'
  end.

(** The last barometric altitude of every aircraft is the last sample of
    its barometric series. *)
Definition buffer_is_last_altitude (s : State) : Prop :=
  forall aa,
    current_baro_buffer s !! aa = list.last (series_of (icao_altitude s) aa).

(** The aircraft of the set are those that have times and those that
    have labels, and no set of labels is empty. *)
Definition registered (s : State) : Prop :=
  dom (icao_times s) = adsb_icao_list s
  /\ dom (icao_dfs s) = adsb_icao_list s
  /\ forall aa dfs, icao_dfs s !! aa = Some dfs -> dfs <> ∅.

(** The line is a message of the aircraft [t]. *)
Definition names (lib : PyLib) (t line : string) : bool :=
  match Ver2.main.identify lib None line with
  | Some (_, _, aa, _) => String.eqb aa t
  | None => false
  end.

(** Every aircraft that has parity slots has two of them. *)
Definition two_slots (d : gmap string (list (option (string * float)))) : Prop :=
  forall aa slots, d !! aa = Some slots -> length slots = 2%nat.

(** The last barometric altitudes are plausible, and the GNSS altitudes
    are at most one altitude difference away from a plausible barometric
    altitude. *)
Definition buffer_plausible (s : State) : Prop :=
  forall aa t b, current_baro_buffer s !! aa = Some (t, b) -> -2000 <= b <= 60000.

Definition gnss_bounded (s : State) : Prop :=
  buffer_plausible s
  /\ all_values (fun v => -4500 <= v <= 62500) (icao_gnss_altitude s).

(** The squawk a line reports for the aircraft [aa]: the line is a
    message of [aa] from which [get_squawk] extracts a code that is not
    empty. *)
Definition squawk_of (lib : PyLib) (target_icao : option string)
    (aa line : string) : option string :=
  match Ver2.main.identify lib target_icao line with
  | Some (_, message_str, aa', df) =>
      if String.eqb aa' aa then
        match Ver2.decoder.get_squawk lib message_str df with
        | Some sq => if Py.truthy sq then Some sq else None
        | None => None
        end
      else None
  | None => None
  end.

Definition squawks_of (lib : PyLib) (target_icao : option string)
    (aa : string) (lines : list string) : list string :=
  omap (squawk_of lib target_icao aa) lines.

(** The autopilot modes a line reports for the aircraft [aa]: the line is
    a message of [aa] from which [get_selected_altitude] extracts a
    selected altitude and its modes. *)
Definition modes_of_line (lib : PyLib) (target_icao : option string)
    (aa line : string) : option (gset string) :=
  match Ver2.main.identify lib target_icao line with
  | Some (_, message_str, aa', df) =>
      if String.eqb aa' aa then
        snd <$> Ver2.decoder.get_selected_altitude lib message_str
      else None
  | None => None
  end.

Definition modes_of (lib : PyLib) (target_icao : option string)
    (aa : string) (lines : list string) : list (gset string) :=
  omap (modes_of_line lib target_icao aa) lines.

(** The entry of the modes of an aircraft after one more report: a set is
    extended; text, which has no [union], stays as it is, the message
    being abandoned. *)
Definition merge_modes (e : option entry) (modes : gset string) : option entry :=
  match e with
  | None => Some (Modes (∅ ∪ modes))
  | Some (Modes existing) => Some (Modes (existing ∪ modes))
  | Some (Text t) => Some (Text t)
  end.

(** No entry of modes holds text. *)
Definition modes_clean (s : State) : Prop :=
  forall aa t, icao_callsigns s !! (aa ++ "_modes")%string <> Some (Text t).

(** No series of the dictionary is empty. *)
Definition no_empty_series {A : Type} (d : gmap string (list A)) : Prop :=
  forall aa, d !! aa <> Some [].

(** What the flags of the table rely on: the series shown are not empty,
    and an aircraft is marked as having a selected altitude exactly when
    it has a series of selected altitudes. *)
Definition flags_sound (s : State) : Prop :=
  no_empty_series (icao_positions s)
  /\ no_empty_series (icao_courses s)
  /\ no_empty_series (icao_altitude_difference s)
  /\ no_empty_series (icao_baro_correction s)
  /\ no_empty_series (icao_gnss_altitude s)
  /\ no_empty_series (icao_selected_altitude s)
  /\ forall aa,
       icao_has_selected_alt s !! aa
       = match icao_selected_altitude s !! aa with
         | Some _ => Some true
         | None => None
         end.

(** The seven kinds of extended squitter whose times are kept, each with
    its dictionary and the test of lines 108-121 on the type code. *)
Inductive kind : Type :=
| AirbornePos | SurfacePos | Ident | Speed | Status | TargetState
| OperationStatus.

Definition times_by (k : kind) (s : State) : gmap string (list float) :=
  match k with
  | AirbornePos => icao_airborne_pos_ts s
  | SurfacePos => icao_surface_pos_ts s
  | Ident => icao_ident_timestamps s
  | Speed => icao_speed_ts s
  | Status => icao_status_ts s
  | TargetState => icao_target_state_ts s
  | OperationStatus => icao_operation_status_ts s
  end.

Definition has_kind (k : kind) (tc : Z) : bool :=
  match k with
  | AirbornePos => ((9 <=? tc) && (tc <=? 18)) || ((20 <=? tc) && (tc <=? 22))
  | SurfacePos => (5 <=? tc) && (tc <=? 8)
  | Ident => (1 <=? tc) && (tc <=? 4)
  | Speed => tc =? 19
  | Status => tc =? 28
  | TargetState => tc =? 29
  | OperationStatus => tc =? 31
  end.

(** The time and the text of a line when the line is an extended
    squitter of the aircraft [aa] whose type code passes [test]. *)
Definition squitter (lib : PyLib) (target_icao : option string)
    (aa : string) (test : Z -> bool) (line : string) : option (float * string) :=
  match Ver2.main.identify lib target_icao line with
  | Some (msg, message_str, aa', df) =>
      if String.eqb aa' aa && Z_in df [17; 18] then
        match pms_adsb_typecode lib message_str with
        | Ok (Some tc) =>
            if test tc then Some (timestamp msg, message_str) else None
        | _ => None
        end
      else None
  | None => None
  end.

Definition squitters (lib : PyLib) (target_icao : option string)
    (aa : string) (k : kind) (lines : list string) : list (float * string) :=
  omap (squitter lib target_icao aa (has_kind k)) lines.

(** The time of a line when the line is an all-call reply, format 11, of
    the aircraft [aa]. *)
Definition acquisition_time (lib : PyLib) (target_icao : option string)
    (aa line : string) : option float :=
  match Ver2.main.identify lib target_icao line with
  | Some (msg, _, aa', df) =>
      if String.eqb aa' aa && (df =? 11) then Some (timestamp msg) else None
  | None => None
  end.

(** The barometric altitude sample of a line of the aircraft [aa] *)
Definition altitude_sample (lib : PyLib) (target_icao : option string)
    (aa line : string) : option (float * Z) :=
  match Ver2.main.identify lib target_icao line with
  | Some (msg, message_str, aa', df) =>
      if String.eqb aa' aa then
        match Ver2.decoder.get_altitude_any_df lib message_str df with
        | Some alt =>
            if (-2000 <=? alt) && (alt <=? 60000)
            then Some (timestamp msg, alt) else None
        | None => None
        end
      else None
  | None => None
  end.

(** What an extractor returns for each frame, with the time of the
    frame *)
Definition extracted {V : Type} (f : string -> option V)
    (frames : list (float * string)) : list (float * V) :=
  omap (fun frame => (fun v => (fst frame, v)) <$> f (snd frame)) frames.

(** The dictionaries of the velocity block and of the target state block,
    each group as one value. *)
Definition velocity_series (s : State)
  : gmap string (list (float * Z)) * gmap string (list (float * float))
    * gmap string (list (float * Z)) :=
  (icao_speed s, icao_courses s, icao_altitude_difference s).

Definition target_state_series (s : State)
  : gmap string (list (float * Z)) * gmap string (list (float * float)) :=
  (icao_selected_altitude s, icao_baro_correction s).

(** A token of [split]: no white space in it, and not empty. *)
Definition solid (t : string) : bool :=
  Py.all_chars (fun c => negb (Py.is_space c)) t.

Definition token (t : string) : Prop := solid t = true /\ t <> "".

(** Both indices of the view designate an item. *)
Definition in_range (aircraft : list string) (v : Ver1.prog1.IcaoGraphs.view)
  : Prop :=
  0 <= Ver1.prog1.IcaoGraphs.icao_index v < Z.of_nat (length aircraft)
  /\ 0 <= Ver1.prog1.IcaoGraphs.plot_mode_idx v
     < Z.of_nat (length Ver1.prog1.IcaoGraphs.plot_modes).

(** The view after a sequence of keys *)
Definition after_keys (aircraft : list string) (keys : list string)
  : Ver1.prog1.IcaoGraphs.view :=
  fold_left (fun v key => Ver1.prog1.IcaoGraphs.on_key aircraft key v) keys
    Ver1.prog1.IcaoGraphs.initial_view.

(** [a] is not after [b] in the order of [sorted] on strings. *)
Definition ascending (a b : string) : Prop := String.ltb b a = false.

(** * Properties *)

(** ** The two versions are one program *)

Lemma parse_ads_b_line_same (lib : PyLib) (line : string) :
  Ver1.prog1.parse_ads_b_line lib line = Ver2.decoder.parse_ads_b_line lib line.
Proof. reflexivity. Qed.

Lemma identify_same (lib : PyLib) (target_icao : option string) (line : string) :
  Ver1.prog1.identify lib target_icao line
  = Ver2.main.identify lib target_icao line.
Proof. reflexivity. Qed.

Lemma register_same (msg : ADSBMessage) (message_str aa : string) (df : Z)
    (s : State) :
  Ver1.prog1.register msg message_str aa df s
  = Ver2.main.register msg message_str aa df s.
Proof. reflexivity. Qed.

Lemma decode_block_same (lib : PyLib) (aa message_str : string) (df : Z)
    (ts : float) (s : State) :
  Ver1.prog1.decode_block lib aa message_str df ts s
  = Ver2.main.decode_block lib aa message_str df ts s.
Proof. reflexivity. Qed.

Lemma loop_body_same (lib : PyLib) (target_icao : option string) (s : State)
    (line : string) :
  Ver1.prog1.loop_body lib target_icao s line
  = Ver2.main.loop_body lib target_icao s line.
Proof.
  unfold Ver1.prog1.loop_body, Ver2.main.loop_body.
  rewrite identify_same.
  destruct (Ver2.main.identify lib target_icao line) as [[[[msg m] aa] df]|];
    [|reflexivity].
  unfold try_continue.
  now rewrite register_same, decode_block_same.
Qed.

Lemma fold_loop_same (lib : PyLib) (target_icao : option string)
    (lines : list string) (s : State) :
  fold_left (Ver1.prog1.loop_body lib target_icao) lines s
  = fold_left (Ver2.main.loop_body lib target_icao) lines s.
Proof.
  revert s.
  induction lines as [|line lines IH]; intros s; simpl; [reflexivity|].
  now rewrite loop_body_same, IH.
Qed.

(** C9: for every sequence of input lines (and every behaviour of the
    imported decoder), the main loop of version 1 and the main loop of
    version 2 leave the same aggregated state: all series, the call sign,
    squawk and mode entries, the label sets, the first and last times, the
    CPR and barometric buffers and the lists of message times. *)
Theorem C9_versions_agree (lib : PyLib) (target_icao : option string)
    (lines : list string) :
  Ver1.prog1.ingest lib target_icao lines
  = Ver2.main.ingest lib target_icao lines.
Proof. apply fold_loop_same. Qed.

(** ** Line framing *)

Lemma parse_two_tokens (lib : PyLib) (line t0 t1 : string) (ts : float) :
  Py.split (Py.strip line) = [t0; t1] ->
  np_float64 lib t0 = Some ts ->
  Ver2.decoder.parse_ads_b_line lib line
  = Ver2.decoder.decode_hex_parts ts [t1].
Proof.
  intros Hs Ht. unfold Ver2.decoder.parse_ads_b_line.
  rewrite Hs. cbn [length Nat.ltb Nat.leb nth]. rewrite Ht.
  reflexivity.
Qed.

Lemma parse_marker_skipped (lib : PyLib) (line t0 m t2 : string)
    (rest : list string) (ts : float) :
  Py.split (Py.strip line) = t0 :: m :: t2 :: rest ->
  np_float64 lib t0 = Some ts ->
  Py.upper m = "DF" \/ Py.upper m = "UF" ->
  Ver2.decoder.parse_ads_b_line lib line
  = Ver2.decoder.decode_hex_parts ts (t2 :: rest).
Proof.
  intros Hs Ht Hm. unfold Ver2.decoder.parse_ads_b_line.
  rewrite Hs. cbn [length Nat.ltb Nat.leb nth]. rewrite Ht.
  destruct Hm as [-> | ->]; reflexivity.
Qed.

(** C10: a line of exactly two tokens whose first token reads as a time
    is accepted when the second token is "DF" in any letter case, and its
    payload is the single byte 0xDF, the marker itself being taken as
    hexadecimal text; it is discarded when the second token is "UF" in any
    letter case.  The marker is skipped only when a third token follows: the
    payload is then read from the third token on. *)
Theorem C10_two_token_marker_line (lib : PyLib) (line t0 t1 : string)
    (ts : float)
    (Hsplit : Py.split (Py.strip line) = [t0; t1])
    (Htime : np_float64 lib t0 = Some ts) :
  (Py.upper t1 = "DF" ->
     exists msg,
       Ver2.decoder.parse_ads_b_line lib line = Some (msg, "DF", "DF")
       /\ timestamp msg = ts
       /\ message_length msg = 1%nat
       /\ take (message_length msg) (message msg) = [0xDF])
  /\ (Py.upper t1 = "UF" -> Ver2.decoder.parse_ads_b_line lib line = None)
  /\ (forall (line' m t2 : string) (rest : list string),
        Py.split (Py.strip line') = t0 :: m :: t2 :: rest ->
        Py.upper m = "DF" \/ Py.upper m = "UF" ->
        Ver2.decoder.parse_ads_b_line lib line'
        = Ver2.decoder.decode_hex_parts ts (t2 :: rest))
  /\ Ver1.prog1.parse_ads_b_line lib line
     = Ver2.decoder.parse_ads_b_line lib line.
Proof.
  rewrite (parse_two_tokens lib line t0 t1 ts Hsplit Htime).
  repeat split.
  - intros Hdf.
    unfold Ver2.decoder.decode_hex_parts. cbn [Py.join]. rewrite Hdf.
    eexists. split; [reflexivity|]. repeat split.
  - intros Huf.
    unfold Ver2.decoder.decode_hex_parts. cbn [Py.join]. rewrite Huf.
    reflexivity.
  - intros line' m t2 rest Hs Hm.
    now apply (parse_marker_skipped lib line' t0 m t2 rest ts).
  - rewrite parse_ads_b_line_same.
    apply (parse_two_tokens lib line t0 t1 ts Hsplit Htime).
Qed.

(** On the line "1.5 dF" the payload is the byte 0xDF at the time 1.5. *)
Lemma C10_two_token_marker_line_witness :
  (exists msg,
     Ver2.decoder.parse_ads_b_line Mock.pylib "1.5 dF" = Some (msg, "DF", "DF")
     /\ timestamp msg = 1.5%float
     /\ message_length msg = 1%nat
     /\ take (message_length msg) (message msg) = [0xDF])
  /\ Ver2.decoder.parse_ads_b_line Mock.pylib "1.5 8D 4840d6"
     = Ver2.decoder.decode_hex_parts 1.5 ["8D"; "4840d6"].
Proof.
  pose proof (C10_two_token_marker_line Mock.pylib "1.5 dF" "1.5" "dF" 1.5
                eq_refl eq_refl) as (Hdf & _ & _ & _).
  split; [exact (Hdf eq_refl)|reflexivity].
Defined.

(** ** Interval analysis *)

(** C8, as the program computes it: on the times 0.0, 0.5, 1.0, 1.6 with
    a target of 500 ms and a tolerance of 100 ms the intervals are 500 ms,
    500 ms and the double next above 600 ms; two of them fall in the band
    [400, 600], one is above it and none is below it. *)
Theorem C8_intervals_and_bands :
  Ver1.prog1.IcaoGraphs.plot_histogram
    (Some [0.0; 0.5; 1.0; 1.6]%float) 500 100
  = Ver1.prog1.IcaoGraphs.Bands
      [500; 500; just_above_600]%float
      [500; 500]%float
      []
      [just_above_600]
  /\ PrimFloat.ltb 600 just_above_600 = true
  /\ Ver1.prog1.IcaoGraphs.center_dev "reg05_msg_intervals" = (500, 100).
Proof. repeat split. Qed.

(** C8 as stated fails: the third interval is not 600 ms. *)
Lemma C8_third_interval_is_not_600 :
  ~ (exists middle left right : list float,
       Ver1.prog1.IcaoGraphs.plot_histogram
         (Some [0.0; 0.5; 1.0; 1.6]%float) 500 100
       = Ver1.prog1.IcaoGraphs.Bands [500; 500; 600]%float middle left right).
Proof.
  intros (middle & left & right & H).
  apply (f_equal
           (fun h =>
              match h with
              | Ver1.prog1.IcaoGraphs.Bands intervals _ _ _ =>
                  forallb (fun x => PrimFloat.leb x 600) intervals
              | _ => true
              end)) in H.
  vm_compute in H. discriminate H.
Qed.

(** ** Reasoning about blocks of statements *)

Lemma bind_ok {A B : Type} (m : M A) (k : A -> M B) (s : State) (a : A) :
  snd (m s) = Ok a -> bind m k s = k a (fst (m s)).
Proof. unfold bind. destruct (m s) as [s' [a'|]]; simpl; congruence. Qed.

Lemma bind_total {A : Type} (m : M unit) (k : unit -> M A) (s : State) :
  total m -> bind m k s = k tt (fst (m s)).
Proof. intros Hm. destruct (Hm s) as [[] H]. now apply bind_ok. Qed.

Section Keeps.
Context {A B : Type} (P : State -> Prop).

Lemma keeps_ret (a : A) : keeps P (ret a).
Proof. intros s H. exact H. Qed.

Lemma keeps_read (f : State -> outcome A) : keeps P (read f).
Proof. intros s H. exact H. Qed.

Lemma keeps_call (o : outcome A) : keeps P (call o).
Proof. intros s H. exact H. Qed.

Lemma keeps_load (f : State -> A) : keeps P (load f).
Proof. intros s H. exact H. Qed.

Lemma keeps_store (f : State -> State) :
  (forall s, P s -> P (f s)) -> keeps P (store f).
Proof. intros Hf s H. now apply Hf. Qed.

Lemma keeps_bind (m : M A) (k : A -> M B) :
  keeps P m -> (forall a, keeps P (k a)) -> keeps P (bind m k).
Proof.
  intros Hm Hk s H. unfold bind.
  specialize (Hm s H). destruct (m s) as [s' [a|]]; simpl in *.
  - now apply Hk.
  - exact Hm.
Qed.
End Keeps.

Lemma keeps_skip (P : State -> Prop) : keeps P skip.
Proof. intros s H. exact H. Qed.

Section Total.
Context {A B : Type}.

Lemma total_ret (a : A) : total (ret a).
Proof. intros s. now exists a. Qed.

Lemma total_load (f : State -> A) : total (load f).
Proof. intros s. now exists (f s). Qed.

Lemma total_bind (m : M A) (k : A -> M B) :
  total m -> (forall a, total (k a)) -> total (bind m k).
Proof.
  intros Hm Hk s. destruct (Hm s) as [a Ha].
  rewrite (bind_ok m k s a Ha). apply Hk.
Qed.
End Total.

Lemma total_store (f : State -> State) : total (store f).
Proof. intros s. now exists tt. Qed.

Lemma total_skip : total skip.
Proof. intros s. now exists tt. Qed.

(** One step of a proof that a block maintains a property: the rule of
    the outermost statement; branches are split on what they test. *)
Ltac keeps_step :=
  lazymatch goal with
  | |- keeps _ (bind _ _) => apply keeps_bind; [|intros ?]
  | |- keeps _ (store _) => apply keeps_store; intros ? ?
  | |- keeps _ (read _) => apply keeps_read
  | |- keeps _ (call _) => apply keeps_call
  | |- keeps _ (load _) => apply keeps_load
  | |- keeps _ (ret _) => apply keeps_ret
  | |- keeps _ skip => apply keeps_skip
  | |- keeps _ (match ?x with _ => _ end) => destruct x eqn:?
  end.

Ltac total_step :=
  lazymatch goal with
  | |- total (bind _ _) => apply total_bind; [|intros ?]
  | |- total (store _) => apply total_store
  | |- total (load _) => apply total_load
  | |- total (ret _) => apply total_ret
  | |- total skip => apply total_skip
  | |- total (match ?x with _ => _ end) => destruct x
  end.

(** The blocks that come before the dispatch on the type code never
    raise. *)
Lemma altitude_block_total (lib : PyLib) (aa m : string) (df : Z) (ts : float) :
  total (Ver2.main.altitude_block lib aa m df ts).
Proof. unfold Ver2.main.altitude_block. repeat total_step. Qed.

Lemma squawk_block_total (lib : PyLib) (aa m : string) (df : Z) :
  total (Ver2.main.squawk_block lib aa m df).
Proof. unfold Ver2.main.squawk_block. repeat total_step. Qed.

Lemma timestamps_block_total (aa : string) (ts : float) (tc : Z) :
  total (Ver2.main.timestamps_block aa ts tc).
Proof. unfold Ver2.main.timestamps_block. repeat total_step. Qed.

Lemma keeps_position (P : State -> Prop) (lib : PyLib) (m0 m1 : string)
    (t0 t1 : float) :
  (forall s c, P s -> P (set_position_calls c s)) ->
  keeps P (Ver2.main.position lib m0 m1 t0 t1).
Proof. intros H s Hs. now apply H. Qed.

Ltac keeps_block :=
  repeat first
    [ keeps_step
    | apply keeps_position; intros ? ? ? ].

Ltac unfold_blocks :=
  unfold Ver2.main.decode_block, Ver2.main.adsb_block,
    Ver2.main.altitude_block, Ver2.main.squawk_block,
    Ver2.main.timestamps_block, Ver2.main.cpr_block,
    Ver2.main.velocity_block, Ver2.main.identification_block,
    Ver2.main.target_state_block.

(** ** First and last times *)

Lemma decode_block_keeps_times (lib : PyLib) (aa m : string) (df : Z)
    (ts : float) (v : gmap string seen) :
  keeps (fun s => icao_times s = v) (Ver2.main.decode_block lib aa m df ts).
Proof. unfold_blocks. keeps_block; assumption. Qed.

Lemma register_times (msg : ADSBMessage) (m aa : string) (df : Z) (s : State) :
  icao_times (Ver2.main.register msg m aa df s)
  = match seen_at (icao_times s !! aa) (timestamp msg) with
    | Some r => <[aa := r]> (icao_times s)
    | None => icao_times s
    end.
Proof.
  unfold Ver2.main.register, seen_at. cbn.
  destruct (icao_times s !! aa); destruct (df =? 11); reflexivity.
Qed.

Lemma loop_body_times (lib : PyLib) (target_icao : option string) (s : State)
    (line aa : string) :
  icao_times (Ver2.main.loop_body lib target_icao s line) !! aa
  = fold_left seen_at (times_of lib target_icao aa [line]) (icao_times s !! aa).
Proof.
  unfold Ver2.main.loop_body, times_of. cbn [omap list_omap].
  destruct (Ver2.main.identify lib target_icao line)
    as [[[[msg m] aa'] df]|]; [|reflexivity].
  unfold try_continue.
  rewrite (decode_block_keeps_times lib aa' m df (timestamp msg) _ _ eq_refl).
  rewrite register_times.
  destruct (String.eqb_spec aa' aa) as [->|Hne]; cbn [fold_left].
  - destruct (seen_at (icao_times s !! aa) (timestamp msg)) eqn:E.
    + now rewrite lookup_insert_eq.
    + unfold seen_at in E. destruct (icao_times s !! aa); discriminate.
  - destruct (seen_at (icao_times s !! aa') (timestamp msg));
      [now rewrite lookup_insert_ne|reflexivity].
Qed.

Lemma times_of_app (lib : PyLib) (target_icao : option string) (aa : string)
    (l1 l2 : list string) :
  times_of lib target_icao aa (l1 ++ l2)
  = (times_of lib target_icao aa l1 ++ times_of lib target_icao aa l2)%list.
Proof. unfold times_of. apply omap_app. Qed.

Lemma fold_loop_times (lib : PyLib) (target_icao : option string) (aa : string)
    (lines : list string) (s : State) :
  icao_times (fold_left (Ver2.main.loop_body lib target_icao) lines s) !! aa
  = fold_left seen_at (times_of lib target_icao aa lines) (icao_times s !! aa).
Proof.
  revert s. induction lines as [|line lines IH]; intros s; [reflexivity|].
  cbn [fold_left]. rewrite IH, loop_body_times.
  change (line :: lines) with ([line] ++ lines)%list.
  now rewrite times_of_app, fold_left_app.
Qed.

Lemma last_cons_default {A : Type} (l : list A) (a d : A) :
  List.last (a :: l) d = List.last l a.
Proof.
  revert a d. induction l as [|b l IH]; intros a d; [reflexivity|].
  change (List.last (a :: b :: l) d) with (List.last (b :: l) d).
  now rewrite !IH.
Qed.

Lemma seen_at_from (x : seen) (times : list float) :
  fold_left seen_at times (Some x)
  = Some {| first := first x; last := List.last times (last x) |}.
Proof.
  revert x. induction times as [|t times IH]; intros x.
  - now destruct x.
  - cbn [fold_left seen_at]. rewrite IH. cbn [first last].
    now rewrite last_cons_default.
Qed.

Lemma last_in {A : Type} (l : list A) (a : A) : In (List.last l a) (a :: l).
Proof.
  revert a. induction l as [|b l IH]; intros a; [now left|].
  rewrite last_cons_default. right. apply IH.
Qed.

Lemma sorted_below_last {A : Type} (R : A -> A -> Prop) (l : list A) (d : A) :
  StronglySorted R l ->
  Forall (fun x => R x x) l ->
  Forall (fun x => R x (List.last l d)) l.
Proof.
  intros Hs. revert d.
  induction Hs as [|a l Hs IH Ha]; intros d Hr; [constructor|].
  rewrite last_cons_default.
  apply Forall_cons_1 in Hr. destruct Hr as [Haa Hr].
  constructor; [|now apply IH].
  destruct (last_in l a) as [<-|Hin]; [exact Haa|].
  rewrite List.Forall_forall in Ha. now apply Ha.
Qed.

(** C5, as the program computes it: after the ingestion of any sequence
    of lines, an aircraft has first and last times exactly when some
    message named it; the first time is the time of the earliest such
    message in the file and the last time is the time of the latest one in
    the file, every identified message counting whether or not its fields
    decode.  When these times never decrease along the file (and none is
    a NaN), they are the minimum and the maximum. *)
Theorem C5_first_and_latest_message (lib : PyLib)
    (target_icao : option string) (lines : list string) (aa : string) :
  icao_times (Ver2.main.ingest lib target_icao lines) !! aa
  = match times_of lib target_icao aa lines with
    | [] => None
    | t :: later => Some {| first := t; last := List.last later t |}
    end
  /\ (StronglySorted (fun a b => PrimFloat.leb a b = true)
        (times_of lib target_icao aa lines) ->
      Forall (fun t => PrimFloat.leb t t = true)
        (times_of lib target_icao aa lines) ->
      forall r,
        icao_times (Ver2.main.ingest lib target_icao lines) !! aa = Some r ->
        is_min_max r (times_of lib target_icao aa lines)).
Proof.
  assert (icao_times (Ver2.main.ingest lib target_icao lines) !! aa
          = match times_of lib target_icao aa lines with
            | [] => None
            | t :: later => Some {| first := t; last := List.last later t |}
            end) as Heq.
  { unfold Ver2.main.ingest. rewrite fold_loop_times.
    change (icao_times empty_state !! aa) with (@None seen).
    destruct (times_of lib target_icao aa lines) as [|t later]; [reflexivity|].
    cbn [fold_left seen_at]. now rewrite seen_at_from. }
  split; [exact Heq|].
  intros Hsorted Hrefl r Hr. rewrite Heq in Hr.
  destruct (times_of lib target_icao aa lines) as [|t later]; [discriminate|].
  injection Hr as <-. unfold is_min_max. cbn [first last].
  split; [now left|]. split; [apply last_in|].
  pose proof (sorted_below_last _ _ t Hsorted Hrefl) as Hlast.
  rewrite last_cons_default in Hlast.
  apply StronglySorted_inv in Hsorted. destruct Hsorted as [_ Hfirst].
  apply Forall_cons_1 in Hrefl. destruct Hrefl as [Ht _].
  rewrite List.Forall_forall in *.
  intros x Hx. split; [|now apply Hlast].
  destruct Hx as [<-|Hx]; [exact Ht|now apply Hfirst].
Qed.

(** A log in time order: first 3, last 5, the minimum and the maximum. *)
Lemma C5_first_and_latest_message_witness :
  let lines := ["3.0 8D4840D620AAAA"; "4 283C6444999900"; "5.0 8D4840D6990050"] in
  icao_times (Ver2.main.ingest Mock.pylib None lines) !! "4840D6"
  = Some {| first := 3; last := 5 |}
  /\ is_min_max {| first := 3; last := 5 |}
       (times_of Mock.pylib None "4840D6" lines).
Proof.
  intros lines.
  destruct (C5_first_and_latest_message Mock.pylib None lines "4840D6")
    as [Heq Hmm].
  split; [exact Heq|].
  apply Hmm; [| |exact Heq].
  - repeat constructor.
  - repeat constructor.
Defined.

(** C5 as stated fails: a log whose second message carries an earlier
    time than its first leaves the first time above the last one. *)
Lemma C5_times_are_not_min_max :
  let lines := ["5.0 8D4840D620AAAA"; "3.0 8D4840D620BBBB"] in
  times_of Mock.pylib None "4840D6" lines = [5; 3]%float
  /\ exists r,
       icao_times (Ver2.main.ingest Mock.pylib None lines) !! "4840D6" = Some r
       /\ first r = 5%float /\ last r = 3%float
       /\ ~ is_min_max r (times_of Mock.pylib None "4840D6" lines).
Proof.
  split; [reflexivity|].
  exists {| first := 5; last := 3 |}.
  split; [reflexivity|]. split; [reflexivity|]. split; [reflexivity|].
  intros (_ & _ & H).
  apply Forall_inv in H. destruct H as [_ H].
  vm_compute in H. discriminate H.
Qed.

(** ** Call signs *)

Ltac decide_tests :=
  repeat match goal with
    | |- context [Z.leb ?a ?b] =>
        first [ rewrite (proj2 (Z.leb_le a b)) by lia
              | rewrite (proj2 (Z.leb_gt a b)) by lia ]
    | |- context [Z.eqb ?a ?b] =>
        first [ rewrite (proj2 (Z.eqb_eq a b)) by lia
              | rewrite (proj2 (Z.eqb_neq a b)) by lia ]
    end.

Lemma char_in_app (c : ascii) (x y : string) :
  Py.char_in c (x ++ y)%string = Py.char_in c x || Py.char_in c y.
Proof.
  induction x as [|d x IH]; [reflexivity|].
  simpl. now rewrite IH, orb_assoc.
Qed.

(** An address without underscore is none of the keys made for the squawk
    and the modes of some aircraft. *)
Lemma address_not_sq (aa x : string) :
  Py.char_in "_" aa = false -> (x ++ "_sq")%string <> aa.
Proof.
  intros H <-. rewrite char_in_app in H.
  apply orb_false_elim in H. destruct H as [_ H]. discriminate H.
Qed.

Lemma address_not_modes (aa x : string) :
  Py.char_in "_" aa = false -> (x ++ "_modes")%string <> aa.
Proof.
  intros H <-. rewrite char_in_app in H.
  apply orb_false_elim in H. destruct H as [_ H]. discriminate H.
Qed.

Lemma get_callsign_inv (lib : PyLib) (m cs : string) :
  Ver2.decoder.get_callsign lib m = Some cs ->
  exists df tc,
    pms_df lib m = Ok df /\ Z_in df [17; 18] = true
    /\ pms_adsb_typecode lib m = Ok (Some tc) /\ 1 <= tc <= 4.
Proof.
  unfold Ver2.decoder.get_callsign, or_none, obind, between.
  destruct (pms_df lib m) as [df|]; [|discriminate].
  destruct (Z_in df [17; 18]) eqn:Hdf; cbn [negb]; [|discriminate].
  destruct (pms_adsb_typecode lib m) as [[tc|]|]; try discriminate.
  destruct ((1 <=? tc) && (tc <=? 4)) eqn:Htc; [|discriminate].
  intros _. apply andb_true_iff in Htc. destruct Htc as [H1 H4].
  apply Z.leb_le in H1, H4.
  exists df, tc. repeat split; try reflexivity; assumption.
Qed.

Lemma identify_df (lib : PyLib) (target_icao : option string)
    (line m aa : string) (msg : ADSBMessage) (df : Z) :
  Ver2.main.identify lib target_icao line = Some (msg, m, aa, df) ->
  pms_icao lib m = Ok aa /\ pms_df lib m = Ok df
  /\ exists spaced, Ver2.decoder.parse_ads_b_line lib line = Some (msg, spaced, m).
Proof.
  unfold Ver2.main.identify.
  destruct (negb (Py.truthy (Py.strip line))); [discriminate|].
  destruct (Ver2.decoder.parse_ads_b_line lib line) as [[[msg' sp] m']|];
    [|discriminate].
  destruct (pms_icao lib m') as [aa'|] eqn:Ha; [|discriminate].
  destruct (pms_df lib m') as [df'|] eqn:Hd; [|discriminate].
  destruct target_icao as [t|].
  - destruct (Py.truthy t && negb (aa' =? t)%string); [discriminate|].
    intros [= -> -> -> ->]. eauto.
  - intros [= -> -> -> ->]. eauto.
Qed.

Lemma register_callsigns (msg : ADSBMessage) (m aa : string) (df : Z)
    (s : State) :
  icao_callsigns (Ver2.main.register msg m aa df s) = icao_callsigns s.
Proof.
  unfold Ver2.main.register.
  destruct (icao_times _ !! aa); destruct (df =? 11); reflexivity.
Qed.

(** Nothing but a reported call sign of [aa] changes the entry of [aa]. *)
Lemma decode_block_keeps_callsign (lib : PyLib) (aa' m : string) (df : Z)
    (ts : float) (aa : string) (v : option entry) :
  Py.char_in "_" aa = false ->
  aa' <> aa
  \/ (forall cs, Ver2.decoder.get_callsign lib m = Some cs ->
                 Py.truthy cs = false) ->
  keeps (fun s => icao_callsigns s !! aa = v)
    (Ver2.main.decode_block lib aa' m df ts).
Proof.
  intros Haa Hno. unfold_blocks.
  keeps_block; try assumption; cbn.
  - rewrite lookup_insert_ne; [assumption|now apply address_not_sq].
  - destruct Hno as [Hne|Hno]; [now rewrite lookup_insert_ne|].
    match goal with
    | T : Py.truthy ?cs = true |- _ =>
        rewrite (Hno cs eq_refl) in T; discriminate T
    end.
  - rewrite lookup_insert_ne; [assumption|now apply address_not_modes].
Qed.

(** A reported call sign is stored under the address, over what was
    there. *)
Lemma decode_block_stores_callsign (lib : PyLib) (aa m cs : string) (df : Z)
    (ts : float) (s : State) :
  pms_df lib m = Ok df ->
  Ver2.decoder.get_callsign lib m = Some cs ->
  Py.truthy cs = true ->
  icao_callsigns (fst (Ver2.main.decode_block lib aa m df ts s)) !! aa
  = Some (Text cs).
Proof.
  intros Hdf Hcs Hne.
  destruct (get_callsign_inv lib m cs Hcs) as (df' & tc & Hdf' & Hin & Htc & Hr).
  assert (df' = df) as -> by congruence.
  unfold Ver2.main.decode_block.
  rewrite bind_total by apply altitude_block_total.
  rewrite bind_total by apply squawk_block_total.
  rewrite Hin. unfold Ver2.main.adsb_block. rewrite Htc.
  rewrite (bind_ok (call (Ok (Some tc))) _ _ (Some tc)) by reflexivity.
  rewrite bind_total by apply timestamps_block_total.
  decide_tests. cbn [andb].
  unfold Ver2.main.identification_block. rewrite Hcs, Hne.
  cbn. apply lookup_insert_eq.
Qed.

Lemma loop_body_callsign (lib : PyLib) (target_icao : option string)
    (s : State) (line aa : string) :
  Py.char_in "_" aa = false ->
  icao_callsigns (Ver2.main.loop_body lib target_icao s line) !! aa
  = match callsign_of lib target_icao aa line with
    | Some cs => Some (Text cs)
    | None => icao_callsigns s !! aa
    end.
Proof.
  intros Haa. unfold Ver2.main.loop_body, callsign_of.
  destruct (Ver2.main.identify lib target_icao line)
    as [[[[msg m] aa'] df]|] eqn:Hid; [|reflexivity].
  unfold try_continue.
  destruct (identify_df _ _ _ _ _ _ _ Hid) as (_ & Hdf & _).
  assert (forall v,
            (aa' <> aa
             \/ (forall cs, Ver2.decoder.get_callsign lib m = Some cs ->
                            Py.truthy cs = false)) ->
            icao_callsigns s !! aa = v ->
            icao_callsigns
              (fst (Ver2.main.decode_block lib aa' m df (timestamp msg)
                      (Ver2.main.register msg m aa' df s))) !! aa = v)
    as Hframe.
  { intros v Hno Hv.
    apply (decode_block_keeps_callsign lib aa' m df (timestamp msg) aa v Haa Hno).
    now rewrite register_callsigns. }
  destruct (String.eqb_spec aa' aa) as [->|Hne].
  - destruct (Ver2.decoder.get_callsign lib m) as [cs|] eqn:Hcs.
    + destruct (Py.truthy cs) eqn:Ht.
      * now apply decode_block_stores_callsign.
      * apply Hframe; [right|reflexivity]. intros cs' [= <-]. exact Ht.
    + apply Hframe; [right|reflexivity]. intros cs' [=].
  - apply Hframe; [now left|reflexivity].
Qed.

Lemma fold_loop_callsign (lib : PyLib) (target_icao : option string)
    (aa : string) (lines : list string) (s : State) :
  Py.char_in "_" aa = false ->
  icao_callsigns (fold_left (Ver2.main.loop_body lib target_icao) lines s) !! aa
  = match list.last (callsigns_of lib target_icao aa lines) with
    | Some cs => Some (Text cs)
    | None => icao_callsigns s !! aa
    end.
Proof.
  intros Haa. revert s.
  induction lines as [|line lines IH]; intros s; [reflexivity|].
  cbn [fold_left]. rewrite IH. unfold callsigns_of. cbn [omap list_omap].
  fold (callsigns_of lib target_icao aa lines).
  rewrite (loop_body_callsign lib target_icao s line aa Haa).
  destruct (callsign_of lib target_icao aa line) as [cs|]; [|reflexivity].
  rewrite last_cons.
  now destruct (list.last (callsigns_of lib target_icao aa lines)).
Qed.

(** C4, as the program computes it: for every sequence of lines and every
    aircraft (an address has no underscore), the recorded call sign is the
    sanitized call sign of the latest identification message of the
    aircraft that produced a non-empty one, and there is none when no
    message produced one: each such message overwrites the entry. *)
Theorem C4_latest_callsign_wins (lib : PyLib) (target_icao : option string)
    (lines : list string) (aa : string)
    (Haddress : Py.char_in "_" aa = false) :
  icao_callsigns (Ver2.main.ingest lib target_icao lines) !! aa
  = Text <$> list.last (callsigns_of lib target_icao aa lines).
Proof.
  unfold Ver2.main.ingest.
  rewrite (fold_loop_callsign lib target_icao aa lines empty_state Haddress).
  now destruct (list.last (callsigns_of lib target_icao aa lines)).
Qed.

(** One identification, then a velocity message: the call sign stays. *)
Lemma C4_latest_callsign_wins_witness :
  icao_callsigns
    (Ver2.main.ingest Mock.pylib None
       ["1.0 8D4840D620AAAA"; "2.0 8D4840D6990050"]) !! "4840D6"
  = Some (Text "KLM1023").
Proof.
  exact (C4_latest_callsign_wins Mock.pylib None
           ["1.0 8D4840D620AAAA"; "2.0 8D4840D6990050"] "4840D6" eq_refl).
Defined.

(** C4 as stated fails: a second identification with another call sign
    replaces the first one. *)
Lemma C4_first_callsign_is_overwritten :
  let lines := ["1.0 8D4840D620AAAA"; "6.0 8D4840D620BBBB"] in
  callsigns_of Mock.pylib None "4840D6" lines = ["KLM1023"; "KLM88"]
  /\ icao_callsigns (Ver2.main.ingest Mock.pylib None (take 1 lines)) !! "4840D6"
     = Some (Text "KLM1023")
  /\ icao_callsigns (Ver2.main.ingest Mock.pylib None lines) !! "4840D6"
     = Some (Text "KLM88")
  /\ icao_callsigns (Ver2.main.ingest Mock.pylib None lines) !! "4840D6"
     <> Text <$> head (callsigns_of Mock.pylib None "4840D6" lines).
Proof.
  repeat split; try reflexivity.
  vm_compute. discriminate.
Qed.

(** ** Plausibility ranges *)

Lemma all_values_empty {V : Type} (P : V -> Prop) : all_values P ∅.
Proof. intros aa l H. rewrite lookup_empty in H. discriminate H. Qed.

Lemma all_values_push {V : Type} (P : V -> Prop) (aa : string) (ts : float)
    (v : V) (d : gmap string (list (float * V))) :
  all_values P d -> P v -> all_values P (push aa (ts, v) d).
Proof.
  intros Hd Hv k l. unfold push.
  destruct (decide (aa = k)) as [->|Hne].
  - rewrite lookup_insert_eq. intros [= <-].
    apply Forall_app. split; [|now repeat constructor].
    destruct (d !! k) as [l0|] eqn:E; [now apply (Hd k)|constructor].
  - rewrite lookup_insert_ne by exact Hne. apply Hd.
Qed.

Lemma get_selected_altitude_range (lib : PyLib) (m : string) (v : Z)
    (modes : gset string) :
  Ver2.decoder.get_selected_altitude lib m = Some (v, modes) ->
  -2000 <= v <= 50000.
Proof.
  unfold Ver2.decoder.get_selected_altitude, or_none, obind.
  destruct (pms_df lib m) as [df|]; [|discriminate].
  destruct (negb (Z_in df [17; 18])); [discriminate|].
  destruct (pms_adsb_typecode lib m) as [tc|]; [|discriminate].
  destruct (negb (is_int tc 29)); [discriminate|].
  destruct (pms_adsb_selected_altitude lib m) as [[[[a|] raw]|]|];
    try discriminate.
  destruct ((-2000 <=? a) && (a <=? 50000)) eqn:E; [|discriminate].
  intros [= <- _]. apply andb_true_iff in E. destruct E as [E1 E2].
  apply Z.leb_le in E1, E2. now split.
Qed.

Lemma get_altitude_difference_range (lib : PyLib) (m : string) (d : Z) :
  Ver2.decoder.get_altitude_difference lib m = Some d -> -2500 <= d <= 2500.
Proof.
  unfold Ver2.decoder.get_altitude_difference, or_none, obind.
  destruct (pms_df lib m) as [df|]; [|discriminate].
  destruct (negb (Z_in df [17; 18])); [discriminate|].
  destruct (pms_typecode lib m) as [tc|]; [|discriminate].
  destruct (negb (is_int tc 19)); [discriminate|].
  destruct (pms_adsb_altitude_diff lib m) as [[a|]|]; try discriminate.
  destruct ((-2500 <=? a) && (a <=? 2500)) eqn:E; [|discriminate].
  intros [= <-]. apply andb_true_iff in E. destruct E as [E1 E2].
  apply Z.leb_le in E1, E2. now split.
Qed.

Lemma get_baro_correction_range (lib : PyLib) (m : string) (b : float) :
  Ver2.decoder.get_baro_correction lib m = Some b ->
  PrimFloat.leb 800 b = true /\ PrimFloat.leb b 1100 = true.
Proof.
  unfold Ver2.decoder.get_baro_correction, or_none, obind.
  destruct (pms_df lib m) as [df|]; [|discriminate].
  destruct (negb (Z_in df [17; 18])); [discriminate|].
  destruct (pms_adsb_typecode lib m) as [tc|]; [|discriminate].
  destruct (negb (is_int tc 29)); [discriminate|].
  destruct (pms_adsb_baro_pressure_setting lib m) as [[a|]|]; try discriminate.
  destruct (PrimFloat.leb 800 a && PrimFloat.leb a 1100) eqn:E; [|discriminate].
  intros [= <-]. now apply andb_true_iff in E.
Qed.

Lemma decode_block_keeps_plausible (lib : PyLib) (aa m : string) (df : Z)
    (ts : float) :
  keeps plausible (Ver2.main.decode_block lib aa m df ts).
Proof.
  unfold_blocks. keeps_block; try assumption;
    match goal with
    | H : plausible _ |- _ => destruct H as (Halt & Hsel & Hdiff & Hbaro)
    end;
    unfold plausible; cbn; repeat split; try assumption;
    apply all_values_push; try assumption.
  - match goal with
    | E : _ && _ = true |- _ =>
        apply andb_true_iff in E; destruct E as [E1 E2];
        apply Z.leb_le in E1, E2; now split
    end.
  - eapply get_altitude_difference_range; eassumption.
  - eapply get_selected_altitude_range; eassumption.
  - eapply get_baro_correction_range; eassumption.
Qed.

Lemma register_keeps_plausible (msg : ADSBMessage) (m aa : string) (df : Z)
    (s : State) :
  plausible s -> plausible (Ver2.main.register msg m aa df s).
Proof.
  unfold Ver2.main.register.
  destruct (icao_times _ !! aa); destruct (df =? 11); intros H; exact H.
Qed.

Lemma loop_body_keeps_plausible (lib : PyLib) (target_icao : option string)
    (s : State) (line : string) :
  plausible s -> plausible (Ver2.main.loop_body lib target_icao s line).
Proof.
  intros H. unfold Ver2.main.loop_body.
  destruct (Ver2.main.identify lib target_icao line)
    as [[[[msg m] aa] df]|]; [|exact H].
  apply decode_block_keeps_plausible. now apply register_keeps_plausible.
Qed.

(** C7, as the program computes it: after the ingestion of any sequence
    of lines, every stored barometric altitude is within -2000..60000 ft,
    every selected altitude within -2000..50000 ft, every altitude
    difference within -2500..2500 ft and every pressure setting within
    800..1100 hPa.  A barometric altitude outside its range leaves the
    variables as they were and nothing is raised; a selected altitude, an
    altitude difference or a pressure setting outside its range is turned
    into [None] by its extractor.  The squawk has no range check: any code
    that is not empty is stored as it is. *)
Theorem C7_stored_values_in_range (lib : PyLib) (target_icao : option string)
    (lines : list string) :
  plausible (Ver2.main.ingest lib target_icao lines)
  /\ (forall aa m df ts s alt,
        Ver2.decoder.get_altitude_any_df lib m df = Some alt ->
        alt < -2000 \/ 60000 < alt ->
        Ver2.main.altitude_block lib aa m df ts s = (s, Ok tt))
  /\ (forall m a raw,
        pms_adsb_selected_altitude lib m = Ok (Some (Some a, raw)) ->
        a < -2000 \/ 50000 < a ->
        Ver2.decoder.get_selected_altitude lib m = None)
  /\ (forall m d,
        pms_adsb_altitude_diff lib m = Ok (Some d) ->
        d < -2500 \/ 2500 < d ->
        Ver2.decoder.get_altitude_difference lib m = None)
  /\ (forall m b,
        pms_adsb_baro_pressure_setting lib m = Ok (Some b) ->
        PrimFloat.leb 800 b && PrimFloat.leb b 1100 = false ->
        Ver2.decoder.get_baro_correction lib m = None)
  /\ (forall aa m df s sq,
        Ver2.decoder.get_squawk lib m df = Some sq ->
        Py.truthy sq = true ->
        Ver2.main.squawk_block lib aa m df s
        = (set_icao_callsigns
             (<[(aa ++ "_sq")%string := Text sq]> (icao_callsigns s)) s,
           Ok tt)).
Proof.
  split; [|split; [|split; [|split; [|split]]]].
  - unfold Ver2.main.ingest.
    assert (plausible empty_state) as H0
      by (repeat split; apply all_values_empty).
    revert H0. generalize empty_state.
    induction lines as [|line lines IH]; intros s Hs; [exact Hs|].
    cbn [fold_left]. apply IH. now apply loop_body_keeps_plausible.
  - intros aa m df ts s alt Halt Hout.
    unfold Ver2.main.altitude_block. rewrite Halt.
    destruct Hout; decide_tests; reflexivity.
  - intros m a raw Hsel Hout.
    unfold Ver2.decoder.get_selected_altitude, or_none, obind. rewrite Hsel.
    destruct (pms_df lib m) as [df|]; [|reflexivity].
    destruct (negb (Z_in df [17; 18])); [reflexivity|].
    destruct (pms_adsb_typecode lib m) as [tc|]; [|reflexivity].
    destruct (negb (is_int tc 29)); [reflexivity|].
    destruct Hout; decide_tests; reflexivity.
  - intros m d Hd Hout.
    unfold Ver2.decoder.get_altitude_difference, or_none, obind. rewrite Hd.
    destruct (pms_df lib m) as [df|]; [|reflexivity].
    destruct (negb (Z_in df [17; 18])); [reflexivity|].
    destruct (pms_typecode lib m) as [tc|]; [|reflexivity].
    destruct (negb (is_int tc 19)); [reflexivity|].
    destruct Hout; decide_tests; reflexivity.
  - intros m b Hb Hout.
    unfold Ver2.decoder.get_baro_correction, or_none, obind. rewrite Hb, Hout.
    destruct (pms_df lib m) as [df|]; [|reflexivity].
    destruct (negb (Z_in df [17; 18])); [reflexivity|].
    destruct (pms_adsb_typecode lib m) as [tc|]; [|reflexivity].
    destruct (negb (is_int tc 29)); reflexivity.
  - intros aa m df s sq Hsq Ht.
    unfold Ver2.main.squawk_block. now rewrite Hsq, Ht.
Qed.

(** A log with an altitude, an altitude difference, a selected altitude
    and a pressure setting. *)
Lemma C7_stored_values_in_range_witness :
  plausible
    (Ver2.main.ingest Mock.pylib None
       ["100 204840D6000000"; "104 8D4840D6990050"; "120 8D4840D6EA0000"]).
Proof.
  exact (proj1 (C7_stored_values_in_range Mock.pylib None
                  ["100 204840D6000000"; "104 8D4840D6990050";
                   "120 8D4840D6EA0000"])).
Defined.

(** C7 as stated fails for the squawk: a code that is no Mode A code is
    stored. *)
Lemma C7_squawk_is_not_range_checked :
  icao_callsigns
    (Ver2.main.ingest Mock.pylib None ["5 283C6444999900"]) !! "3C6444_sq"
  = Some (Text "9999")
  /\ squawk_in_range "9999" = false.
Proof. split; reflexivity. Qed.

(** ** Capability filter *)

Lemma get_format_label_shape (m : string) (df : Z) :
  exists lt,
    (lt = "S" \/ lt = "L" \/ lt = "?")
    /\ Ver2.decoder.get_format_label m df
       = (("DF" ++ Py.str_of_int df) ++ "(" ++ lt ++ ")")%string.
Proof.
  unfold Ver2.decoder.get_format_label.
  destruct (Z_in df [0; 4; 5; 11]); [exists "S"; auto|].
  destruct (Z_in df [16; 17; 18; 19; 20; 21; 24]); [exists "L"; auto|].
  destruct (_ =? 56); [exists "S"; auto|].
  destruct (_ =? 112); [exists "L"; auto|].
  exists "?"; auto.
Qed.

(** On the labels of the 32 formats of a 5-bit field, the test of the
    filter holds exactly for the formats 17 and 18. *)
Lemma names_adsb_table :
  forallb
    (fun n =>
       let df := Z.of_nat n in
       forallb
         (fun lt =>
            Bool.eqb
              (names_adsb (("DF" ++ Py.str_of_int df) ++ "(" ++ lt ++ ")")%string)
              ((df =? 17) || (df =? 18)))
         ["S"; "L"; "?"])
    (seq 0 32)
  = true.
Proof. vm_compute. reflexivity. Qed.

Lemma names_adsb_format (m : string) (df : Z) :
  0 <= df < 32 ->
  names_adsb (Ver2.decoder.get_format_label m df) = (df =? 17) || (df =? 18).
Proof.
  intros Hdf.
  destruct (get_format_label_shape m df) as (lt & Hlt & ->).
  pose proof names_adsb_table as H.
  rewrite forallb_forall in H.
  specialize (H (Z.to_nat df)).
  rewrite Z2Nat.id in H by lia.
  assert (In (Z.to_nat df) (seq 0 32)) as Hin by (apply in_seq; lia).
  specialize (H Hin). cbv zeta in H. rewrite forallb_forall in H.
  apply Bool.eqb_prop. apply H.
  destruct Hlt as [->|[->| ->]]; simpl; auto.
Qed.

Lemma has_adsb_spec (dfs : gset string) :
  Ver2.main.has_adsb dfs = true
  <-> exists label, label ∈ dfs /\ names_adsb label = true.
Proof.
  unfold Ver2.main.has_adsb. rewrite existsb_exists.
  split; intros (label & Hin & Hl); exists label; split; try exact Hl.
  - apply elem_of_elements. now apply list_elem_of_In.
  - apply list_elem_of_In. now apply elem_of_elements.
Qed.

Lemma filtered_icao_list_spec (s : State) (aa : string) :
  aa ∈ Ver2.main.filtered_icao_list s
  <-> aa ∈ adsb_icao_list s /\ Ver2.main.has_adsb (labels_of s aa) = true.
Proof.
  unfold Ver2.main.filtered_icao_list, labels_of.
  rewrite elem_of_list_to_set, list_elem_of_In, filter_In.
  now rewrite <- list_elem_of_In, elem_of_elements.
Qed.

Lemma decode_block_keeps_dfs (lib : PyLib) (aa m : string) (df : Z) (ts : float)
    (v : gmap string (gset string)) :
  keeps (fun s => icao_dfs s = v) (Ver2.main.decode_block lib aa m df ts).
Proof. unfold_blocks. keeps_block; assumption. Qed.

Lemma register_dfs (msg : ADSBMessage) (m aa : string) (df : Z) (s : State) :
  icao_dfs (Ver2.main.register msg m aa df s)
  = add_to aa (Ver2.decoder.get_format_label m df) (icao_dfs s).
Proof.
  unfold Ver2.main.register. cbn.
  destruct (icao_times s !! aa); destruct (df =? 11); reflexivity.
Qed.

Lemma loop_body_labels_from (lib : PyLib) (target_icao : option string)
    (s : State) (line : string) :
  labels_from lib s ->
  labels_from lib (Ver2.main.loop_body lib target_icao s line).
Proof.
  intros Hs. unfold Ver2.main.loop_body.
  destruct (Ver2.main.identify lib target_icao line)
    as [[[[msg m] aa] df]|] eqn:Hid; [|exact Hs].
  destruct (identify_df _ _ _ _ _ _ _ Hid) as (_ & Hdf & _).
  unfold try_continue, labels_from.
  rewrite (decode_block_keeps_dfs lib aa m df (timestamp msg) _ _ eq_refl).
  rewrite register_dfs. unfold add_to.
  intros k dfs label Hk Hl.
  destruct (decide (aa = k)) as [->|Hne].
  - rewrite lookup_insert_eq in Hk. injection Hk as <-.
    apply elem_of_union in Hl. destruct Hl as [Hl|Hl].
    + destruct (icao_dfs s !! k) as [old|] eqn:E; [|set_solver].
      now apply (Hs k old).
    + apply elem_of_singleton in Hl. subst label. now exists m, df.
  - rewrite lookup_insert_ne in Hk by exact Hne. now apply (Hs k dfs).
Qed.

Lemma ingest_labels_from (lib : PyLib) (target_icao : option string)
    (lines : list string) :
  labels_from lib (Ver2.main.ingest lib target_icao lines).
Proof.
  unfold Ver2.main.ingest.
  assert (labels_from lib empty_state) as H0.
  { intros aa dfs label H. cbn in H. rewrite lookup_empty in H. discriminate H. }
  revert H0. generalize empty_state.
  induction lines as [|line lines IH]; intros s Hs; [exact Hs|].
  cbn [fold_left]. apply IH. now apply loop_body_labels_from.
Qed.

Lemma es_label_names_adsb (label : string) :
  is_es_label label -> names_adsb label = true.
Proof.
  intros (m & df & Hdf & ->).
  rewrite names_adsb_format by (destruct Hdf; lia).
  destruct Hdf as [-> | ->]; reflexivity.
Qed.

(** C6: with a decoder whose formats are those of a 5-bit field, the
    capability filter retains an aircraft of the aggregated set exactly
    when one of its labels is a label for the format 17 or 18.  An aircraft
    whose labels are exactly DF4(S) and DF5(S) is excluded, an aircraft of
    the set that has the label DF17(L) is included, and the number of
    aircraft discovered is the number retained plus the number filtered
    out. *)
Theorem C6_filter_keeps_extended_squitter (lib : PyLib)
    (target_icao : option string) (lines : list string)
    (Hformat : forall m df, pms_df lib m = Ok df -> 0 <= df < 32) :
  let s := Ver2.main.ingest lib target_icao lines in
  (forall aa,
     aa ∈ adsb_icao_list s ->
     (aa ∈ Ver2.main.filtered_icao_list s
      <-> exists label, label ∈ labels_of s aa /\ is_es_label label))
  /\ Ver2.main.filtered_icao_list s ⊆ adsb_icao_list s
  /\ (forall aa,
        labels_of s aa = {[ "DF4(S)"; "DF5(S)" ]} ->
        aa ∉ Ver2.main.filtered_icao_list s)
  /\ (forall aa,
        aa ∈ adsb_icao_list s -> "DF17(L)" ∈ labels_of s aa ->
        aa ∈ Ver2.main.filtered_icao_list s)
  /\ Ver2.main.total_icao_count s
     = Z.of_nat (size (Ver2.main.filtered_icao_list s))
       + Ver2.main.filtered_count s
  /\ 0 <= Ver2.main.filtered_count s.
Proof.
  intros s.
  assert (Ver2.main.filtered_icao_list s ⊆ adsb_icao_list s) as Hsub.
  { intros aa Haa. now apply filtered_icao_list_spec in Haa. }
  split; [|split; [exact Hsub|split; [|split; [|split]]]].
  - intros aa Haa. split.
    + intros Hin. apply filtered_icao_list_spec in Hin. destruct Hin as [_ Hin].
      apply has_adsb_spec in Hin. destruct Hin as (label & Hl & Hn).
      exists label. split; [exact Hl|].
      unfold labels_of in Hl.
      destruct (icao_dfs s !! aa) as [dfs|] eqn:E; [|set_solver].
      destruct (ingest_labels_from lib target_icao lines aa dfs label E Hl)
        as (m & df & Hdf & ->).
      rewrite names_adsb_format in Hn by eauto.
      exists m, df. split; [|reflexivity].
      apply orb_true_iff in Hn.
      destruct Hn as [Hn|Hn]; apply Z.eqb_eq in Hn; auto.
    + intros (label & Hl & Hes). apply filtered_icao_list_spec.
      split; [assumption|]. apply has_adsb_spec.
      exists label. split; [exact Hl|now apply es_label_names_adsb].
  - intros aa Hl Hin. apply filtered_icao_list_spec in Hin.
    destruct Hin as [_ Hin]. rewrite Hl in Hin. apply has_adsb_spec in Hin.
    destruct Hin as (label & Hin & Hn).
    apply elem_of_union in Hin. destruct Hin as [Hin|Hin];
      apply elem_of_singleton in Hin; subst label; discriminate Hn.
  - intros aa Haa Hin. apply filtered_icao_list_spec. split; [exact Haa|].
    apply has_adsb_spec. exists "DF17(L)". now split.
  - unfold Ver2.main.filtered_count. lia.
  - unfold Ver2.main.filtered_count, Ver2.main.total_icao_count.
    apply subseteq_size in Hsub. lia.
Qed.

Lemma mock_df_bounded (t : Mock.table) :
  Forall (fun e => 0 <= Mock.fr_df (snd e) < 32) t ->
  forall m df, Mock.ask t m (fun fr => Ok (Mock.fr_df fr)) = Ok df -> 0 <= df < 32.
Proof.
  intros Ht m df. unfold Mock.ask.
  induction Ht as [|[k fr] t Hfr Ht IH]; cbn [Mock.find]; [discriminate|].
  destruct (String.eqb k m); [|exact IH].
  intros [= <-]. exact Hfr.
Qed.

(** Two aircraft: 4840D6 sends an extended squitter and is retained,
    3C6444 answers with the formats 4 and 5 only and is filtered out. *)
Lemma C6_filter_keeps_extended_squitter_witness :
  let s :=
    Ver2.main.ingest Mock.pylib None
      ["1.0 8D4840D620AAAA"; "2.0 203C6444000000"; "3.0 283C6444999900";
       "4.0 204840D6000000"] in
  ("4840D6" ∈ Ver2.main.filtered_icao_list s
   <-> exists label, label ∈ labels_of s "4840D6" /\ is_es_label label)
  /\ labels_of s "3C6444" = {[ "DF4(S)"; "DF5(S)" ]}
  /\ ("3C6444" ∉ Ver2.main.filtered_icao_list s)
  /\ Ver2.main.total_icao_count s = 2
  /\ Ver2.main.filtered_count s = 1.
Proof.
  intros s.
  assert (forall m df, pms_df Mock.pylib m = Ok df -> 0 <= df < 32) as Hformat.
  { apply mock_df_bounded. repeat constructor; cbn; lia. }
  destruct (C6_filter_keeps_extended_squitter Mock.pylib None
              ["1.0 8D4840D620AAAA"; "2.0 203C6444000000";
               "3.0 283C6444999900"; "4.0 204840D6000000"] Hformat)
    as (Hiff & _ & Hout & _).
  split; [|split; [|split; [|split]]].
  - apply Hiff. vm_compute. reflexivity.
  - vm_compute. reflexivity.
  - apply Hout. vm_compute. reflexivity.
  - vm_compute. reflexivity.
  - vm_compute. reflexivity.
Defined.

(** ** The dispatch on the type code *)

Lemma extended_squitter_format (df : Z) :
  df = 17 \/ df = 18 -> Z_in df [17; 18] = true.
Proof. intros [-> | ->]; reflexivity. Qed.

(** The state in which the block of a type code starts: the altitude, the
    squawk and the message times have been dealt with. *)
Lemma decode_block_adsb (lib : PyLib) (aa m : string) (df tc : Z) (ts : float)
    (s : State) :
  Z_in df [17; 18] = true ->
  pms_adsb_typecode lib m = Ok (Some tc) ->
  Ver2.main.decode_block lib aa m df ts s
  = (if (9 <=? tc) && (tc <=? 18) then Ver2.main.cpr_block lib aa m ts
     else if tc =? 19 then Ver2.main.velocity_block lib aa m ts
     else if (1 <=? tc) && (tc <=? 4) then Ver2.main.identification_block lib aa m
     else if tc =? 29 then Ver2.main.target_state_block lib aa m ts
     else skip)
      (fst (Ver2.main.timestamps_block aa ts tc
              (fst (Ver2.main.squawk_block lib aa m df
                      (fst (Ver2.main.altitude_block lib aa m df ts s)))))).
Proof.
  intros Hdf Htc. unfold Ver2.main.decode_block.
  rewrite bind_total by apply altitude_block_total.
  rewrite bind_total by apply squawk_block_total.
  rewrite Hdf. unfold Ver2.main.adsb_block. rewrite Htc.
  rewrite (bind_ok (call (Ok (Some tc))) _ _ (Some tc)) by reflexivity.
  rewrite bind_total by apply timestamps_block_total.
  reflexivity.
Qed.

Lemma altitude_block_keeps (P : State -> Prop) (lib : PyLib) (aa m : string)
    (df : Z) (ts : float) :
  (forall v s, P s -> P (set_icao_altitude v s)) ->
  (forall v s, P s -> P (set_current_baro_buffer v s)) ->
  keeps P (Ver2.main.altitude_block lib aa m df ts).
Proof.
  intros H1 H2. unfold Ver2.main.altitude_block. keeps_block; auto.
Qed.

Lemma squawk_block_keeps (P : State -> Prop) (lib : PyLib) (aa m : string)
    (df : Z) :
  (forall v s, P s -> P (set_icao_callsigns v s)) ->
  keeps P (Ver2.main.squawk_block lib aa m df).
Proof. intros H. unfold Ver2.main.squawk_block. keeps_block; auto. Qed.

Lemma timestamps_block_keeps (P : State -> Prop) (aa : string) (ts : float)
    (tc : Z) :
  (forall v s, P s -> P (set_icao_airborne_pos_ts v s)) ->
  (forall v s, P s -> P (set_icao_surface_pos_ts v s)) ->
  (forall v s, P s -> P (set_icao_ident_timestamps v s)) ->
  (forall v s, P s -> P (set_icao_speed_ts v s)) ->
  (forall v s, P s -> P (set_icao_status_ts v s)) ->
  (forall v s, P s -> P (set_icao_target_state_ts v s)) ->
  (forall v s, P s -> P (set_icao_operation_status_ts v s)) ->
  keeps P (Ver2.main.timestamps_block aa ts tc).
Proof.
  intros. unfold Ver2.main.timestamps_block. keeps_block; auto.
Qed.

Lemma register_keeps (P : State -> Prop) (msg : ADSBMessage) (m aa : string)
    (df : Z) (s : State) :
  (forall v s, P s -> P (set_adsb_icao_list v s)) ->
  (forall v s, P s -> P (set_icao_dfs v s)) ->
  (forall v s, P s -> P (set_icao_times v s)) ->
  (forall v s, P s -> P (set_icao_df11_ts v s)) ->
  P s -> P (Ver2.main.register msg m aa df s).
Proof.
  intros H1 H2 H3 H4 Hs. unfold Ver2.main.register.
  destruct (icao_times _ !! aa); destruct (df =? 11); auto.
Qed.

(** A property of the variables that the altitude, the squawk, the lists
    of message times and the registration of the message do not touch
    holds when the block of the type code starts. *)
Lemma before_dispatch (P : State -> Prop) (lib : PyLib) (msg : ADSBMessage)
    (aa m : string) (df tc : Z) (s : State) :
  (forall v s, P s -> P (set_adsb_icao_list v s)) ->
  (forall v s, P s -> P (set_icao_dfs v s)) ->
  (forall v s, P s -> P (set_icao_times v s)) ->
  (forall v s, P s -> P (set_icao_df11_ts v s)) ->
  (forall v s, P s -> P (set_icao_altitude v s)) ->
  (forall v s, P s -> P (set_current_baro_buffer v s)) ->
  (forall v s, P s -> P (set_icao_callsigns v s)) ->
  (forall v s, P s -> P (set_icao_airborne_pos_ts v s)) ->
  (forall v s, P s -> P (set_icao_surface_pos_ts v s)) ->
  (forall v s, P s -> P (set_icao_ident_timestamps v s)) ->
  (forall v s, P s -> P (set_icao_speed_ts v s)) ->
  (forall v s, P s -> P (set_icao_status_ts v s)) ->
  (forall v s, P s -> P (set_icao_target_state_ts v s)) ->
  (forall v s, P s -> P (set_icao_operation_status_ts v s)) ->
  P s ->
  P (fst (Ver2.main.timestamps_block aa (timestamp msg) tc
            (fst (Ver2.main.squawk_block lib aa m df
                    (fst (Ver2.main.altitude_block lib aa m df (timestamp msg)
                            (Ver2.main.register msg m aa df s))))))).
Proof.
  intros. apply timestamps_block_keeps; auto.
  apply squawk_block_keeps; auto.
  apply altitude_block_keeps; auto.
  apply register_keeps; auto.
Qed.

(** ** Altitude fusion *)

Lemma get_altitude_any_df_velocity (lib : PyLib) (m : string) (df : Z) :
  Z_in df [17; 18] = true ->
  pms_adsb_typecode lib m = Ok (Some 19) ->
  Ver2.decoder.get_altitude_any_df lib m df = None.
Proof.
  intros Hdf Htc. unfold Ver2.decoder.get_altitude_any_df.
  now rewrite Hdf, Htc.
Qed.

Lemma altitude_block_none (lib : PyLib) (aa m : string) (df : Z) (ts : float)
    (s : State) :
  Ver2.decoder.get_altitude_any_df lib m df = None ->
  Ver2.main.altitude_block lib aa m df ts s = (s, Ok tt).
Proof. intros H. unfold Ver2.main.altitude_block. now rewrite H. Qed.

Lemma lookup_push {A : Type} (aa : string) (x : A)
    (d : gmap string (list A)) :
  push aa x d !! aa = Some (series_of d aa ++ [x])%list.
Proof. unfold push, series_of. apply lookup_insert_eq. Qed.

(** What the velocity block does with an altitude difference. *)
Lemma velocity_block_fuses (lib : PyLib) (aa m : string) (ts : float) (d : Z)
    (s : State) :
  Ver2.decoder.get_altitude_difference lib m = Some d ->
  let s' := fst (Ver2.main.velocity_block lib aa m ts s) in
  icao_altitude_difference s' = push aa (ts, d) (icao_altitude_difference s)
  /\ current_baro_buffer s' = current_baro_buffer s
  /\ icao_gnss_altitude s'
     = match current_baro_buffer s !! aa with
       | Some (tb, b) =>
           if PrimFloat.ltb (PrimFloat.abs (PrimFloat.sub ts tb)) 5
           then push aa (ts, b + d) (icao_gnss_altitude s)
           else icao_gnss_altitude s
       | None => icao_gnss_altitude s
       end.
Proof.
  intros Hd. unfold Ver2.main.velocity_block. rewrite Hd.
  destruct (Ver2.decoder.get_velocity lib m);
    destruct (Ver2.decoder.get_course lib m); cbn;
    destruct (current_baro_buffer s !! aa) as [[tb b]|]; cbn;
    try destruct (PrimFloat.ltb _ 5); cbn; auto.
Qed.

(** C3: a velocity message of an aircraft that yields an altitude
    difference d (hence within -2500..2500 ft) at the time t appends (t, d)
    to the differences, and appends a GNSS-derived altitude exactly when
    the barometric buffer of the aircraft holds some (t_b, b) with
    |t - t_b| < 5 seconds; the appended sample is (t, b + d).  With an empty
    buffer, or a buffer 5 seconds or more away, the GNSS-derived altitudes
    are left as they were.  The test is the strict one of the program, on
    the difference it computes.  With the buffer (100, 35000) and the
    difference +50, the message at t = 104 appends (104, 35050) and the
    messages at t = 105 and at t = 106 append nothing. *)
Theorem C3_gnss_altitude_fusion (lib : PyLib) (target_icao : option string)
    (s : State) (line : string) (msg : ADSBMessage) (m aa : string) (df d : Z)
    (Hid : Ver2.main.identify lib target_icao line = Some (msg, m, aa, df))
    (Hes : df = 17 \/ df = 18)
    (Htc : pms_adsb_typecode lib m = Ok (Some 19))
    (Hdiff : Ver2.decoder.get_altitude_difference lib m = Some d) :
  let t := timestamp msg in
  let s' := Ver2.main.loop_body lib target_icao s line in
  -2500 <= d <= 2500
  /\ icao_altitude_difference s' !! aa
     = Some (series_of (icao_altitude_difference s) aa ++ [(t, d)])%list
  /\ (forall tb b,
        current_baro_buffer s !! aa = Some (tb, b) ->
        PrimFloat.ltb (PrimFloat.abs (PrimFloat.sub t tb)) 5 = true ->
        icao_gnss_altitude s' !! aa
        = Some (series_of (icao_gnss_altitude s) aa ++ [(t, b + d)])%list)
  /\ (forall tb b,
        current_baro_buffer s !! aa = Some (tb, b) ->
        PrimFloat.ltb (PrimFloat.abs (PrimFloat.sub t tb)) 5 = false ->
        icao_gnss_altitude s' = icao_gnss_altitude s)
  /\ (current_baro_buffer s !! aa = None ->
      icao_gnss_altitude s' = icao_gnss_altitude s)
  /\ (current_baro_buffer s !! aa = Some (100%float, 35000) -> d = 50 ->
      (t = 104%float ->
       icao_gnss_altitude s' !! aa
       = Some (series_of (icao_gnss_altitude s) aa ++ [(104%float, 35050)])%list)
      /\ (t = 105%float -> icao_gnss_altitude s' = icao_gnss_altitude s)
      /\ (t = 106%float -> icao_gnss_altitude s' = icao_gnss_altitude s)).
Proof.
  pose proof (extended_squitter_format df Hes) as Hdf.
  intros t s'.
  assert (icao_altitude_difference s'
          = push aa (t, d) (icao_altitude_difference s)
          /\ icao_gnss_altitude s'
             = match current_baro_buffer s !! aa with
               | Some (tb, b) =>
                   if PrimFloat.ltb (PrimFloat.abs (PrimFloat.sub t tb)) 5
                   then push aa (t, b + d) (icao_gnss_altitude s)
                   else icao_gnss_altitude s
               | None => icao_gnss_altitude s
               end) as [Hd Hg].
  { subst s'. unfold Ver2.main.loop_body. rewrite Hid. unfold try_continue.
    rewrite (decode_block_adsb lib aa m df 19 _ _ Hdf Htc).
    change ((9 <=? 19) && (19 <=? 18)) with false.
    change (19 =? 19) with true. cbv iota.
    rewrite (altitude_block_none lib aa m df _ _
               (get_altitude_any_df_velocity lib m df Hdf Htc)).
    cbn [fst].
    destruct (velocity_block_fuses lib aa m t d
                (fst (Ver2.main.timestamps_block aa t 19
                        (fst (Ver2.main.squawk_block lib aa m df
                                (Ver2.main.register msg m aa df s)))))
                Hdiff) as (H1 & _ & H3).
    fold t. rewrite H1, H3.
    assert (icao_altitude_difference
              (fst (Ver2.main.timestamps_block aa t 19
                      (fst (Ver2.main.squawk_block lib aa m df
                              (Ver2.main.register msg m aa df s)))))
            = icao_altitude_difference s
            /\ current_baro_buffer
                 (fst (Ver2.main.timestamps_block aa t 19
                         (fst (Ver2.main.squawk_block lib aa m df
                                 (Ver2.main.register msg m aa df s)))))
               = current_baro_buffer s
            /\ icao_gnss_altitude
                 (fst (Ver2.main.timestamps_block aa t 19
                         (fst (Ver2.main.squawk_block lib aa m df
                                 (Ver2.main.register msg m aa df s)))))
               = icao_gnss_altitude s) as (F1 & F2 & F3).
    { apply (timestamps_block_keeps
               (fun x => icao_altitude_difference x = icao_altitude_difference s
                         /\ current_baro_buffer x = current_baro_buffer s
                         /\ icao_gnss_altitude x = icao_gnss_altitude s));
        auto.
      apply squawk_block_keeps; auto.
      apply register_keeps; auto. }
    now rewrite F1, F2, F3. }
  split; [now apply (get_altitude_difference_range lib m)|].
  split; [rewrite Hd; apply lookup_push|].
  split; [|split; [|split]].
  - intros tb b Hb Hlt. rewrite Hg, Hb, Hlt. apply lookup_push.
  - intros tb b Hb Hlt. now rewrite Hg, Hb, Hlt.
  - intros Hb. now rewrite Hg, Hb.
  - intros Hb -> . split; [|split]; intros Ht; rewrite Hg, Hb, Ht.
    + apply lookup_push.
    + reflexivity.
    + reflexivity.
Qed.

(** The barometric altitude 35000 ft at t = 100, then the difference +50:
    (104, 35050) is appended at t = 104, nothing at t = 105 and nothing at
    t = 106. *)
Lemma C3_gnss_altitude_fusion_witness :
  let s := Ver2.main.ingest Mock.pylib None ["100 204840D6000000"] in
  current_baro_buffer s !! "4840D6" = Some (100%float, 35000)
  /\ icao_gnss_altitude
       (Ver2.main.loop_body Mock.pylib None s "104 8D4840D6990050") !! "4840D6"
     = Some [(104%float, 35050)]
  /\ icao_gnss_altitude
       (Ver2.main.loop_body Mock.pylib None s "105 8D4840D6990050")
     = icao_gnss_altitude s
  /\ icao_gnss_altitude
       (Ver2.main.loop_body Mock.pylib None s "106 8D4840D6990050")
     = icao_gnss_altitude s.
Proof.
  intros s.
  pose proof (C3_gnss_altitude_fusion Mock.pylib None s "104 8D4840D6990050"
                (framed "104 8D4840D6990050") "8D4840D6990050" "4840D6" 17 50
                eq_refl (or_introl eq_refl) eq_refl eq_refl) as (_ & _ & _ & _ & _ & H104).
  pose proof (C3_gnss_altitude_fusion Mock.pylib None s "106 8D4840D6990050"
                (framed "106 8D4840D6990050") "8D4840D6990050" "4840D6" 17 50
                eq_refl (or_introl eq_refl) eq_refl eq_refl) as (_ & _ & _ & _ & _ & H106).
  pose proof (C3_gnss_altitude_fusion Mock.pylib None s "105 8D4840D6990050"
                (framed "105 8D4840D6990050") "8D4840D6990050" "4840D6" 17 50
                eq_refl (or_introl eq_refl) eq_refl eq_refl) as (_ & _ & _ & _ & _ & H105).
  split; [reflexivity|]. split; [|split].
  - exact (proj1 (H104 eq_refl eq_refl) eq_refl).
  - exact (proj1 (proj2 (H105 eq_refl eq_refl)) eq_refl).
  - exact (proj2 (proj2 (H106 eq_refl eq_refl)) eq_refl).
Defined.

(** C3 as stated fails at the edge of the tolerance: with the buffer
    (100, 35000), the difference +50 at t = 105 is 5 seconds away, hence
    within 5 seconds, and no GNSS-derived altitude is appended: the test of
    the program is strict. *)
Lemma C3_gap_of_five_seconds_is_rejected :
  let s := Ver2.main.ingest Mock.pylib None ["100 204840D6000000"] in
  let s' := Ver2.main.loop_body Mock.pylib None s "105 8D4840D6990050" in
  current_baro_buffer s !! "4840D6" = Some (100%float, 35000)
  /\ apart_at_most 105 100 5
  /\ icao_altitude_difference s' !! "4840D6" = Some [(105%float, 50)]
  /\ PrimFloat.ltb (PrimFloat.abs (PrimFloat.sub 105 100)) 5 = false
  /\ icao_gnss_altitude s' !! "4840D6" = None
  /\ icao_gnss_altitude s' !! "4840D6" <> Some [(105%float, 35050)].
Proof.
  repeat split; try reflexivity.
  - vm_compute. discriminate.
  - vm_compute. discriminate.
Qed.

(** ** Pairing of position frames *)

Lemma getitem_setdefault {V : Type} (k : string) (v : V) (d : gmap string V) :
  getitem (setdefault k v d) k = Ok (default v (d !! k)).
Proof.
  unfold getitem, setdefault.
  destruct (d !! k) eqn:E; [now rewrite E|now rewrite lookup_insert_eq].
Qed.

Lemma insert_setdefault {V : Type} (k : string) (v w : V) (d : gmap string V) :
  <[k := w]> (setdefault k v d) = <[k := w]> d.
Proof.
  unfold setdefault. destruct (d !! k); [reflexivity|apply insert_insert_eq].
Qed.

(** The variables after the block, once the frame is stored and both
    slots are populated. *)
Lemma cpr_block_run (lib : PyLib) (aa m : string) (ts : float) (s : State)
    (oe : Z) (i : nat) (m0 m1 : string) (t0 t1 : float) :
  pms_adsb_oe_flag lib m = Ok oe ->
  list_index (length (default [None; None] (cpr_messages s !! aa))) oe = Ok i ->
  <[i := Some (m, ts)]> (default [None; None] (cpr_messages s !! aa))
  = [Some (m0, t0); Some (m1, t1)] ->
  fst (Ver2.main.cpr_block lib aa m ts s)
  = let stored :=
      set_cpr_messages
        (<[aa := [Some (m0, t0); Some (m1, t1)]]> (cpr_messages s)) s in
    if PrimFloat.ltb (PrimFloat.abs (PrimFloat.sub t0 t1)) 10 then
      let called :=
        set_position_calls (position_calls s ++ [(m0, m1, t0, t1)])%list
          stored in
      match pms_adsb_position lib m0 m1 t0 t1 with
      | Ok (Some (lat, lon)) =>
          set_cpr_messages (<[aa := [None; None]]> (cpr_messages s))
            (set_icao_positions (push aa (ts, lat, lon) (icao_positions s))
               called)
      | Ok None =>
          set_cpr_messages (<[aa := [None; None]]> (cpr_messages s)) called
      | Raise => called
      end
    else stored.
Proof.
  intros Hoe Hi Hst. unfold Ver2.main.cpr_block.
  unfold bind at 1. cbn [store fst snd].
  rewrite Hoe. unfold bind at 1. cbn [call].
  unfold bind at 1. cbn [read cpr_messages set_cpr_messages].
  rewrite getitem_setdefault.
  rewrite Hi. unfold bind at 1. cbn [call].
  unfold bind at 1. cbn [store].
  unfold bind at 1. cbn [read cpr_messages set_cpr_messages].
  unfold getitem at 1. rewrite lookup_insert_eq. rewrite Hst.
  cbn [all_set forallb andb].
  change (unpack [Some (m0, t0); Some (m1, t1)] 0) with (Ok (m0, t0)).
  change (unpack [Some (m0, t0); Some (m1, t1)] 1) with (Ok (m1, t1)).
  unfold bind at 1. cbn [call]. unfold bind at 1. cbn [call].
  rewrite insert_setdefault.
  destruct (PrimFloat.ltb (PrimFloat.abs (PrimFloat.sub t0 t1)) 10);
    [|reflexivity].
  unfold bind at 1. unfold Ver2.main.position.
  destruct (pms_adsb_position lib m0 m1 t0 t1) as [[[lat lon]|]|];
    cbn; rewrite ?insert_insert_eq; reflexivity.
Qed.

(** The order of binary64: [a <= b] excludes [b < a]. *)
Lemma SFcompare_swap (x y : spec_float) (c : comparison) :
  SFcompare x y = Some c -> SFcompare y x = Some (CompOpp c).
Proof.
  destruct x as [sx|sx| |sx mx ex], y as [sy|sy| |sy my ey]; cbn;
    try discriminate;
    try (destruct sx; intros [= <-]; reflexivity);
    try (destruct sy; intros [= <-]; reflexivity);
    try (intros [= <-]; reflexivity).
  - destruct sx, sy; intros [= <-]; reflexivity.
  - destruct sx, sy; intros [= <-]; try reflexivity.
    + rewrite (Z.compare_antisym ey ex).
      destruct (ey ?= ex)%Z; cbn; try reflexivity.
      now rewrite (Pos.compare_cont_antisym mx my Eq).
    + rewrite (Z.compare_antisym ey ex).
      destruct (ey ?= ex)%Z; cbn; try reflexivity.
      now rewrite (Pos.compare_cont_antisym mx my Eq).
Qed.

Lemma leb_not_ltb (a b : float) :
  PrimFloat.leb a b = true -> PrimFloat.ltb b a = false.
Proof.
  rewrite FloatAxioms.leb_spec, FloatAxioms.ltb_spec. unfold SFleb, SFltb.
  destruct (SFcompare (Prim2SF a) (Prim2SF b)) as [c|] eqn:E; [|discriminate].
  rewrite (SFcompare_swap _ _ _ E).
  destruct c; try discriminate; reflexivity.
Qed.

(** The variables after an airborne position frame whose storing fills
    both slots. *)
Lemma loop_body_pair (lib : PyLib) (target_icao : option string) (s : State)
    (line : string) (msg : ADSBMessage) (m aa : string) (df tc oe : Z)
    (i : nat) (m0 m1 : string) (t0 t1 : float) :
  Ver2.main.identify lib target_icao line = Some (msg, m, aa, df) ->
  Z_in df [17; 18] = true ->
  pms_adsb_typecode lib m = Ok (Some tc) ->
  9 <= tc <= 18 ->
  pms_adsb_oe_flag lib m = Ok oe ->
  list_index (length (default [None; None] (cpr_messages s !! aa))) oe = Ok i ->
  <[i := Some (m, timestamp msg)]> (default [None; None] (cpr_messages s !! aa))
  = [Some (m0, t0); Some (m1, t1)] ->
  exists s3,
    cpr_messages s3 = cpr_messages s
    /\ position_calls s3 = position_calls s
    /\ icao_positions s3 = icao_positions s
    /\ Ver2.main.loop_body lib target_icao s line
       = fst (Ver2.main.cpr_block lib aa m (timestamp msg) s3)
    /\ list_index (length (default [None; None] (cpr_messages s3 !! aa))) oe
       = Ok i
    /\ <[i := Some (m, timestamp msg)]>
         (default [None; None] (cpr_messages s3 !! aa))
       = [Some (m0, t0); Some (m1, t1)].
Proof.
  intros Hid Hdf Htc Hr Hoe Hi Hst.
  eexists. split; [|split; [|split; [|split; [|split]]]].
  4: { unfold Ver2.main.loop_body. rewrite Hid. unfold try_continue.
       rewrite (decode_block_adsb lib aa m df tc _ _ Hdf Htc).
       decide_tests. cbn [andb]. reflexivity. }
  1-3: apply (before_dispatch (fun x => _ x = _)); auto.
  - rewrite <- Hi. do 3 f_equal.
    apply (before_dispatch
             (fun x => cpr_messages x !! aa = cpr_messages s !! aa)); auto.
  - rewrite <- Hst. do 2 f_equal.
    apply (before_dispatch
             (fun x => cpr_messages x !! aa = cpr_messages s !! aa)); auto.
Qed.

(** C1: when an airborne position frame of an aircraft is stored and both
    slots of the aircraft are then populated with times whose difference,
    as the program computes it, is less than 10 seconds,
    [pms.adsb.position] is called exactly once, on the two stored frames.
    When the call returns, a position or none, both slots are emptied, and
    a position is appended to the positions of the aircraft only if one
    was returned.  When the call raises, the handler of the loop abandons
    the message before the slots are emptied: the pair stays and no
    position is appended.  The slots and the positions of the other
    aircraft are not touched, and version 1 does the same. *)
Theorem C1_complete_pair_is_resolved_once (lib : PyLib)
    (target_icao : option string) (s : State) (line : string)
    (msg : ADSBMessage) (m aa : string) (df tc oe : Z) (i : nat)
    (m0 m1 : string) (t0 t1 : float)
    (result : outcome (option (float * float)))
    (Hid : Ver2.main.identify lib target_icao line = Some (msg, m, aa, df))
    (Hes : df = 17 \/ df = 18)
    (Htc : pms_adsb_typecode lib m = Ok (Some tc))
    (Hairborne : 9 <= tc <= 18)
    (Hoe : pms_adsb_oe_flag lib m = Ok oe)
    (Hslot : list_index (length (default [None; None] (cpr_messages s !! aa))) oe
             = Ok i)
    (Hboth : <[i := Some (m, timestamp msg)]>
               (default [None; None] (cpr_messages s !! aa))
             = [Some (m0, t0); Some (m1, t1)])
    (Hgap : PrimFloat.ltb (PrimFloat.abs (PrimFloat.sub t0 t1)) 10 = true)
    (Hcall : pms_adsb_position lib m0 m1 t0 t1 = result) :
  let s' := Ver2.main.loop_body lib target_icao s line in
  position_calls s' = (position_calls s ++ [(m0, m1, t0, t1)])%list
  /\ (forall k, k <> aa ->
        cpr_messages s' !! k = cpr_messages s !! k
        /\ icao_positions s' !! k = icao_positions s !! k)
  /\ match result with
     | Ok (Some (lat, lon)) =>
         cpr_messages s' !! aa = Some [None; None]
         /\ icao_positions s' !! aa
            = Some (series_of (icao_positions s) aa
                    ++ [(timestamp msg, lat, lon)])%list
     | Ok None =>
         cpr_messages s' !! aa = Some [None; None]
         /\ icao_positions s' = icao_positions s
     | Raise =>
         cpr_messages s' !! aa = Some [Some (m0, t0); Some (m1, t1)]
         /\ icao_positions s' = icao_positions s
     end
  /\ Ver1.prog1.loop_body lib target_icao s line = s'.
Proof.
  pose proof (extended_squitter_format df Hes) as Hdf.
  intros s'. rewrite loop_body_same. fold s'.
  destruct (loop_body_pair lib target_icao s line msg m aa df tc oe i m0 m1
              t0 t1 Hid Hdf Htc Hairborne Hoe Hslot Hboth)
    as (s3 & Fc & Fl & Fp & Hrun & Hslot3 & Hboth3).
  subst s'. rewrite Hrun.
  rewrite (cpr_block_run lib aa m (timestamp msg) s3 oe i m0 m1 t0 t1
             Hoe Hslot3 Hboth3).
  cbv zeta. rewrite Hgap, Hcall.
  destruct result as [[[lat lon]|]|]; cbn; rewrite ?Fc, ?Fl, ?Fp;
    repeat split;
    try apply lookup_insert_eq;
    try (now apply lookup_insert_ne);
    try apply lookup_push.
Qed.

(** An even frame at t = 1.0, then an odd frame at t = 2.5: one call; both
    slots are empty when the call returns, and the pair stays when it
    raises. *)
Lemma C1_complete_pair_is_resolved_once_witness :
  let s := Ver2.main.ingest Mock.pylib None ["1.0 8D4840D6580000"] in
  let s' := Ver2.main.loop_body Mock.pylib None s "2.5 8D4840D6580400" in
  let raising := Mock.failing_resolver Mock.pylib in
  let r := Ver2.main.ingest raising None ["1.0 8D4840D6580000"] in
  let r' := Ver2.main.loop_body raising None r "2.5 8D4840D6580400" in
  cpr_messages s !! "4840D6" = Some [Some ("8D4840D6580000", 1%float); None]
  /\ position_calls s'
     = [("8D4840D6580000", "8D4840D6580400", 1%float, 2.5%float)]
  /\ cpr_messages s' !! "4840D6" = Some [None; None]
  /\ icao_positions s' !! "4840D6"
     = Some [(2.5%float, 52.2572%float, 3.91937%float)]
  /\ position_calls r'
     = [("8D4840D6580000", "8D4840D6580400", 1%float, 2.5%float)]
  /\ cpr_messages r' !! "4840D6"
     = Some [Some ("8D4840D6580000", 1%float);
             Some ("8D4840D6580400", 2.5%float)]
  /\ icao_positions r' = icao_positions r.
Proof.
  intros s s' raising r r'.
  pose proof (C1_complete_pair_is_resolved_once Mock.pylib None s
                "2.5 8D4840D6580400" (framed "2.5 8D4840D6580400")
                "8D4840D6580400" "4840D6" 17 11 1 1%nat
                "8D4840D6580000" "8D4840D6580400" 1%float 2.5%float
                (Ok (Some (52.2572%float, 3.91937%float)))
                eq_refl (or_introl eq_refl) eq_refl ltac:(lia) eq_refl
                eq_refl eq_refl eq_refl eq_refl)
    as (Hcalls & _ & [Hslots Hfix] & _).
  pose proof (C1_complete_pair_is_resolved_once raising None r
                "2.5 8D4840D6580400" (framed "2.5 8D4840D6580400")
                "8D4840D6580400" "4840D6" 17 11 1 1%nat
                "8D4840D6580000" "8D4840D6580400" 1%float 2.5%float
                Raise
                eq_refl (or_introl eq_refl) eq_refl ltac:(lia) eq_refl
                eq_refl eq_refl eq_refl eq_refl)
    as (Hcalls' & _ & [Hslots' Hnone] & _).
  split; [reflexivity|].
  split; [exact Hcalls|]. split; [exact Hslots|]. split; [exact Hfix|].
  split; [exact Hcalls'|]. split; [exact Hslots'|exact Hnone].
Defined.

(** C1 as stated fails: an even frame at t = 6.000000000000001 and an odd
    frame at t = 16 are less than 10 seconds apart, but the difference the
    program computes is rounded to 10, which is not below 10: both slots
    are populated, no call is made and the slots are not emptied. *)
Lemma C1_close_pair_is_not_resolved :
  let s := Ver2.main.ingest Mock.pylib None
             ["6.000000000000001 8D4840D6580000"] in
  let s' := Ver2.main.loop_body Mock.pylib None s "16 8D4840D6580400" in
  cpr_messages s !! "4840D6"
  = Some [Some ("8D4840D6580000", just_above_6); None]
  /\ cpr_messages s' !! "4840D6"
     = Some [Some ("8D4840D6580000", just_above_6);
             Some ("8D4840D6580400", 16%float)]
  /\ apart_less_than just_above_6 16 10
  /\ PrimFloat.abs (PrimFloat.sub just_above_6 16) = 10%float
  /\ position_calls s' = []
  /\ icao_positions s' !! "4840D6" = None
  /\ cpr_messages s' !! "4840D6" <> Some [None; None].
Proof.
  repeat split; try reflexivity.
  vm_compute. discriminate.
Qed.

(** C2: when an airborne position frame of an aircraft is stored and both
    slots are then populated with times 10 seconds or more apart,
    [pms.adsb.position] is not called, no position is appended for any
    aircraft, and the slots keep their contents: the new frame in the slot
    of its parity, the other slot as it was. *)
Theorem C2_stale_pair_is_kept (lib : PyLib) (target_icao : option string)
    (s : State) (line : string) (msg : ADSBMessage) (m aa : string)
    (df tc oe : Z) (i : nat) (m0 m1 : string) (t0 t1 : float)
    (Hid : Ver2.main.identify lib target_icao line = Some (msg, m, aa, df))
    (Hes : df = 17 \/ df = 18)
    (Htc : pms_adsb_typecode lib m = Ok (Some tc))
    (Hairborne : 9 <= tc <= 18)
    (Hoe : pms_adsb_oe_flag lib m = Ok oe)
    (Hslot : list_index (length (default [None; None] (cpr_messages s !! aa))) oe
             = Ok i)
    (Hboth : <[i := Some (m, timestamp msg)]>
               (default [None; None] (cpr_messages s !! aa))
             = [Some (m0, t0); Some (m1, t1)])
    (Hgap : PrimFloat.leb 10 (PrimFloat.abs (PrimFloat.sub t0 t1)) = true) :
  let s' := Ver2.main.loop_body lib target_icao s line in
  position_calls s' = position_calls s
  /\ icao_positions s' = icao_positions s
  /\ cpr_messages s' !! aa
     = Some (<[i := Some (m, timestamp msg)]>
               (default [None; None] (cpr_messages s !! aa)))
  /\ (forall j, j <> i ->
        default [None; None] (cpr_messages s' !! aa) !! j
        = default [None; None] (cpr_messages s !! aa) !! j)
  /\ (forall k, k <> aa -> cpr_messages s' !! k = cpr_messages s !! k).
Proof.
  pose proof (extended_squitter_format df Hes) as Hdf.
  intros s'.
  destruct (loop_body_pair lib target_icao s line msg m aa df tc oe i m0 m1
              t0 t1 Hid Hdf Htc Hairborne Hoe Hslot Hboth)
    as (s3 & Fc & Fl & Fp & Hrun & Hslot3 & Hboth3).
  subst s'. rewrite Hrun.
  rewrite (cpr_block_run lib aa m (timestamp msg) s3 oe i m0 m1 t0 t1
             Hoe Hslot3 Hboth3).
  cbv zeta. rewrite (leb_not_ltb _ _ Hgap). cbn. rewrite ?Fc, ?Fl, ?Fp.
  rewrite lookup_insert_eq, Hboth.
  repeat split.
  - intros j Hj. cbn [default]. rewrite <- Hboth.
    now apply list_lookup_insert_ne.
  - intros k Hk. now apply lookup_insert_ne.
Qed.

(** An even frame at t = 1.0, then an odd frame at t = 20.5: no call, and
    both frames stay in the slots. *)
Lemma C2_stale_pair_is_kept_witness :
  let s := Ver2.main.ingest Mock.pylib None ["1.0 8D4840D6580000"] in
  let s' := Ver2.main.loop_body Mock.pylib None s "20.5 8D4840D6580400" in
  position_calls s' = []
  /\ icao_positions s' = icao_positions s
  /\ cpr_messages s' !! "4840D6"
     = Some [Some ("8D4840D6580000", 1%float);
             Some ("8D4840D6580400", 20.5%float)].
Proof.
  intros s s'.
  pose proof (C2_stale_pair_is_kept Mock.pylib None s
                "20.5 8D4840D6580400" (framed "20.5 8D4840D6580400")
                "8D4840D6580400" "4840D6" 17 11 1 1%nat
                "8D4840D6580000" "8D4840D6580400" 1%float 20.5%float
                eq_refl (or_introl eq_refl) eq_refl ltac:(lia) eq_refl
                eq_refl eq_refl eq_refl) as (Hcalls & Hpos & Hslots & _).
  split; [exact Hcalls|]. split; [exact Hpos|exact Hslots].
Defined.

(** ** Further properties of the program *)

(** When [pms.adsb.position] raises on a complete pair less than 10
    seconds apart, the handler of the loop abandons the message: the call
    was made once, no position is appended, and the statement that empties
    the slots is not reached, so the pair stays in the slots. *)
Theorem pair_kept_when_resolution_raises (lib : PyLib)
    (target_icao : option string) (s : State) (line : string)
    (msg : ADSBMessage) (m aa : string) (df tc oe : Z) (i : nat)
    (m0 m1 : string) (t0 t1 : float)
    (Hid : Ver2.main.identify lib target_icao line = Some (msg, m, aa, df))
    (Hes : df = 17 \/ df = 18)
    (Htc : pms_adsb_typecode lib m = Ok (Some tc))
    (Hairborne : 9 <= tc <= 18)
    (Hoe : pms_adsb_oe_flag lib m = Ok oe)
    (Hslot : list_index (length (default [None; None] (cpr_messages s !! aa))) oe
             = Ok i)
    (Hboth : <[i := Some (m, timestamp msg)]>
               (default [None; None] (cpr_messages s !! aa))
             = [Some (m0, t0); Some (m1, t1)])
    (Hgap : PrimFloat.ltb (PrimFloat.abs (PrimFloat.sub t0 t1)) 10 = true)
    (Hpos : pms_adsb_position lib m0 m1 t0 t1 = Raise) :
  let s' := Ver2.main.loop_body lib target_icao s line in
  position_calls s' = (position_calls s ++ [(m0, m1, t0, t1)])%list
  /\ cpr_messages s' !! aa = Some [Some (m0, t0); Some (m1, t1)]
  /\ icao_positions s' = icao_positions s.
Proof.
  pose proof (extended_squitter_format df Hes) as Hdf.
  intros s'.
  destruct (loop_body_pair lib target_icao s line msg m aa df tc oe i m0 m1
              t0 t1 Hid Hdf Htc Hairborne Hoe Hslot Hboth)
    as (s3 & Fc & Fl & Fp & Hrun & Hslot3 & Hboth3).
  subst s'. rewrite Hrun.
  rewrite (cpr_block_run lib aa m (timestamp msg) s3 oe i m0 m1 t0 t1
             Hoe Hslot3 Hboth3).
  cbv zeta. rewrite Hgap, Hpos. cbn. rewrite ?Fc, ?Fl, ?Fp.
  repeat split. apply lookup_insert_eq.
Qed.

(** The pair of the example above with a resolver that raises. *)
Lemma pair_kept_when_resolution_raises_witness :
  let lib := Mock.failing_resolver Mock.pylib in
  let s := Ver2.main.ingest lib None ["1.0 8D4840D6580000"] in
  let s' := Ver2.main.loop_body lib None s "2.5 8D4840D6580400" in
  position_calls s'
  = [("8D4840D6580000", "8D4840D6580400", 1%float, 2.5%float)]
  /\ cpr_messages s' !! "4840D6"
     = Some [Some ("8D4840D6580000", 1%float);
             Some ("8D4840D6580400", 2.5%float)].
Proof.
  intros lib s s'.
  pose proof (pair_kept_when_resolution_raises lib None s
                "2.5 8D4840D6580400" (framed "2.5 8D4840D6580400")
                "8D4840D6580400" "4840D6" 17 11 1 1%nat
                "8D4840D6580000" "8D4840D6580400" 1%float 2.5%float
                eq_refl (or_introl eq_refl) eq_refl ltac:(lia) eq_refl
                eq_refl eq_refl eq_refl eq_refl) as (Hcalls & Hslots & _).
  split; [exact Hcalls|exact Hslots].
Defined.

Lemma chunks2_length (s : string) :
  length (Py.chunks2 s) = Nat.div2 (S (String.length s)).
Proof.
  assert (forall s,
            length (Py.chunks2 s) = Nat.div2 (S (String.length s))
            /\ forall c,
                 length (Py.chunks2 (String c s))
                 = Nat.div2 (S (String.length (String c s)))) as H.
  { induction s0 as [|a s0 [IH1 IH2]]; [split; [reflexivity|intros c; reflexivity]|].
    split; [apply IH2|].
    intros c. cbn [Py.chunks2 length String.length]. rewrite IH1. reflexivity. }
  apply H.
Qed.

Lemma bytes_of_length (chunks : list string) (bs : list Z) :
  Ver2.decoder.bytes_of chunks = Ok bs -> length bs = length chunks.
Proof.
  revert bs. induction chunks as [|c chunks IH]; intros bs.
  - intros [= <-]. reflexivity.
  - cbn [Ver2.decoder.bytes_of]. unfold obind.
    destruct (Py.int16 c) as [b|]; [|discriminate].
    destruct (Ver2.decoder.bytes_of chunks) as [bs'|]; [|discriminate].
    intros [= <-]. cbn [length]. now rewrite (IH bs').
Qed.

(** A framed line has a payload that is not empty and hexadecimal; the
    number of its bytes is half the number of its digits, rounded up, and
    at most 32; the buffer of the message always has 32 bytes. *)
Theorem framed_payload_length (lib : PyLib) (line : string)
    (msg : ADSBMessage) (message_spaced message_str : string)
    (Hframed : Ver2.decoder.parse_ads_b_line lib line
               = Some (msg, message_spaced, message_str)) :
  message_length msg
  = Nat.min (Nat.div2 (S (String.length message_str))) 32
  /\ length (message msg) = 32%nat
  /\ message_str <> ""
  /\ Py.all_chars (fun c => Py.char_in c "0123456789ABCDEF") message_str = true.
Proof.
  revert Hframed. unfold Ver2.decoder.parse_ads_b_line.
  destruct (length (Py.split (Py.strip line)) <? 2)%nat; [discriminate|].
  destruct (np_float64 lib _) as [ts|]; [|discriminate]. cbv zeta.
  match goal with
  | |- Ver2.decoder.decode_hex_parts _ ?hp = _ -> _ => generalize hp
  end.
  intros hex_parts. unfold Ver2.decoder.decode_hex_parts.
  set (str := Py.remove_blanks (Py.strip (Py.upper (Py.join " " hex_parts)))).
  destruct (String.length str =? 0)%nat eqn:Hlen; [discriminate|].
  destruct (Py.all_chars _ str) eqn:Hhex; [|discriminate]. cbn [negb orb].
  destruct (Ver2.decoder.bytes_of (Py.chunks2 str)) as [bs|] eqn:Hbs;
    [|discriminate].
  intros [= <- _ <-]. cbn [message_length message].
  apply bytes_of_length in Hbs. rewrite chunks2_length in Hbs.
  unfold Ver2.config.MAX_MESSAGE_LENGTH. rewrite Hbs.
  split; [reflexivity|]. split; [|split; [|exact Hhex]].
  - rewrite length_app, length_map, length_take, length_replicate, Hbs. lia.
  - intros E. rewrite E in Hlen. discriminate Hlen.
Qed.

(** Thirteen digits after the marker: seven bytes. *)
Lemma framed_payload_length_witness :
  message_length (framed "1.5 DF 8D4840D6 58000") = 7%nat
  /\ length (message (framed "1.5 DF 8D4840D6 58000")) = 32%nat.
Proof.
  pose proof (framed_payload_length Mock.pylib "1.5 DF 8D4840D6 58000"
                (framed "1.5 DF 8D4840D6 58000") "8D4840D6 58000"
                "8D4840D658000" eq_refl) as (Hlen & Hbuf & _).
  split; [exact Hlen|exact Hbuf].
Defined.

(** Taking the same target state twice gives the mode set of taking it
    once: the modes are merged by set union. *)
Theorem modes_merge_is_idempotent (lib : PyLib) (aa m : string) (ts : float)
    (s : State) :
  let once := fst (Ver2.main.target_state_block lib aa m ts s) in
  let twice := fst (Ver2.main.target_state_block lib aa m ts once) in
  icao_callsigns twice = icao_callsigns once.
Proof.
  intros once twice. subst once twice.
  unfold Ver2.main.target_state_block.
  destruct (Ver2.decoder.get_selected_altitude lib m) as [[v modes]|];
    destruct (Ver2.decoder.get_baro_correction lib m) as [b|];
    try reflexivity;
    unfold bind, store, load, call, skip, ret; cbn;
    destruct (icao_callsigns s !! (aa ++ "_modes")%string) as [[t|ms]|] eqn:E;
    cbn; rewrite ?E; cbn; rewrite ?lookup_insert_eq; cbn;
    rewrite ?insert_insert_eq; try reflexivity.
  all: now rewrite <- (assoc_L (∪)), (idemp_L (∪) modes).
Qed.

(** ** Further invariants of the loop

    The blocks are read through their weakest preconditions where what
    a block stores depends on what it has read. *)

Section Wp.
Context {A B : Type} (Q : A -> State -> Prop) (R : State -> Prop).

Lemma wp_ret (a : A) (s : State) : Q a s -> wp (ret a) Q R s.
Proof. exact (fun H => H). Qed.

Lemma wp_load (f : State -> A) (s : State) : Q (f s) s -> wp (load f) Q R s.
Proof. exact (fun H => H). Qed.

Lemma wp_read (f : State -> outcome A) (s : State) :
  match f s with Ok a => Q a s | Raise => R s end -> wp (read f) Q R s.
Proof. exact (fun H => H). Qed.

Lemma wp_call (o : outcome A) (s : State) :
  match o with Ok a => Q a s | Raise => R s end -> wp (call o) Q R s.
Proof. exact (fun H => H). Qed.

Lemma wp_bind (m : M B) (k : B -> M A) (s : State) :
  wp m (fun b s' => wp (k b) Q R s') R s -> wp (bind m k) Q R s.
Proof. unfold wp, bind. now destruct (m s) as [s' [b|]]. Qed.

End Wp.

Lemma wp_store (Q : unit -> State -> Prop) (R : State -> Prop)
    (f : State -> State) (s : State) :
  Q tt (f s) -> wp (store f) Q R s.
Proof. exact (fun H => H). Qed.

Lemma wp_skip (Q : unit -> State -> Prop) (R : State -> Prop) (s : State) :
  Q tt s -> wp skip Q R s.
Proof. exact (fun H => H). Qed.

Lemma wp_position (Q : option (float * float) -> State -> Prop)
    (R : State -> Prop) (lib : PyLib) (m0 m1 : string) (t0 t1 : float)
    (s : State) :
  (let s' := set_position_calls (position_calls s ++ [(m0, m1, t0, t1)])%list s in
   match pms_adsb_position lib m0 m1 t0 t1 with
   | Ok a => Q a s'
   | Raise => R s'
   end) ->
  wp (Ver2.main.position lib m0 m1 t0 t1) Q R s.
Proof. exact (fun H => H). Qed.

Lemma keeps_wp {A : Type} (P : State -> Prop) (m : M A) :
  (forall s, P s -> wp m (fun _ => P) P s) -> keeps P m.
Proof.
  intros H s Hs. specialize (H s Hs). unfold wp in H.
  now destruct (m s) as [s' [a|]].
Qed.

Ltac wp_step :=
  lazymatch goal with
  | |- wp (bind _ _) _ _ _ => apply wp_bind
  | |- wp (store _) _ _ _ => apply wp_store
  | |- wp (load _) _ _ _ => apply wp_load
  | |- wp (ret _) _ _ _ => apply wp_ret
  | |- wp skip _ _ _ => apply wp_skip
  | |- wp (read _) _ _ _ => apply wp_read
  | |- wp (call _) _ _ _ => apply wp_call
  | |- wp (Ver2.main.position _ _ _ _ _) _ _ _ => apply wp_position; cbv zeta
  | |- wp (match ?x with _ => _ end) _ _ _ => destruct x eqn:?
  | |- match ?x with Ok _ => _ | Raise => _ end => destruct x eqn:?
  end; cbv beta.

Ltac wp_run := repeat wp_step.

(** A property kept by each block is kept by the loop. *)
Lemma adsb_block_keeps (P : State -> Prop) (lib : PyLib) (aa m : string)
    (ts : float) :
  (forall tc, keeps P (Ver2.main.timestamps_block aa ts tc)) ->
  keeps P (Ver2.main.cpr_block lib aa m ts) ->
  keeps P (Ver2.main.velocity_block lib aa m ts) ->
  keeps P (Ver2.main.identification_block lib aa m) ->
  keeps P (Ver2.main.target_state_block lib aa m ts) ->
  keeps P (Ver2.main.adsb_block lib aa m ts).
Proof.
  intros Ht Hc Hv Hi Hg. unfold Ver2.main.adsb_block.
  keeps_block; solve [ apply Ht | assumption ].
Qed.

Lemma decode_block_keeps (P : State -> Prop) (lib : PyLib) (aa m : string)
    (df : Z) (ts : float) :
  keeps P (Ver2.main.altitude_block lib aa m df ts) ->
  keeps P (Ver2.main.squawk_block lib aa m df) ->
  keeps P (Ver2.main.adsb_block lib aa m ts) ->
  keeps P (Ver2.main.decode_block lib aa m df ts).
Proof.
  intros Ha Hs Hb. unfold Ver2.main.decode_block.
  keeps_block; assumption.
Qed.

Lemma loop_body_keeps (P : State -> Prop) (lib : PyLib)
    (target_icao : option string) (s : State) (line : string) :
  (forall msg m aa df,
     Ver2.main.identify lib target_icao line = Some (msg, m, aa, df) ->
     P (Ver2.main.register msg m aa df s)
     /\ keeps P (Ver2.main.decode_block lib aa m df (timestamp msg))) ->
  P s -> P (Ver2.main.loop_body lib target_icao s line).
Proof.
  intros H Hs. unfold Ver2.main.loop_body.
  destruct (Ver2.main.identify lib target_icao line)
    as [[[[msg m] aa] df]|]; [|exact Hs].
  destruct (H msg m aa df eq_refl) as [Hr Hd]. now apply Hd.
Qed.

Lemma ingest_keeps (P : State -> Prop) (lib : PyLib)
    (target_icao : option string) (lines : list string) :
  P empty_state ->
  (forall s line, P s -> P (Ver2.main.loop_body lib target_icao s line)) ->
  P (Ver2.main.ingest lib target_icao lines).
Proof.
  intros H0 Hstep. unfold Ver2.main.ingest.
  generalize empty_state H0. induction lines as [|line lines IH]; intros s Hs.
  - exact Hs.
  - cbn [fold_left]. apply IH. now apply Hstep.
Qed.

(** A block that assigns none of the variables a property reads keeps
    the property. *)
Ltac frame_blocks :=
  unfold Ver2.main.altitude_block, Ver2.main.squawk_block,
    Ver2.main.timestamps_block, Ver2.main.cpr_block,
    Ver2.main.velocity_block, Ver2.main.identification_block,
    Ver2.main.target_state_block;
  keeps_block; assumption.

Lemma series_of_push {A : Type} (aa k : string) (x : A)
    (d : gmap string (list A)) :
  series_of (push aa x d) k
  = if String.eqb k aa then (series_of d aa ++ [x])%list else series_of d k.
Proof.
  unfold series_of, push. destruct (String.eqb_spec k aa) as [->|Hne].
  - now rewrite lookup_insert_eq.
  - now rewrite lookup_insert_ne by congruence.
Qed.

(** The three parts of the inner [try], and one iteration by cases. *)
Lemma decode_block_sequence (lib : PyLib) (aa m : string) (df : Z) (ts : float)
    (s : State) :
  Ver2.main.decode_block lib aa m df ts s
  = (if Z_in df [17; 18] then Ver2.main.adsb_block lib aa m ts else skip)
      (fst (Ver2.main.squawk_block lib aa m df
              (fst (Ver2.main.altitude_block lib aa m df ts s)))).
Proof.
  unfold Ver2.main.decode_block.
  rewrite bind_total by apply altitude_block_total.
  now rewrite bind_total by apply squawk_block_total.
Qed.

Lemma loop_body_cases (lib : PyLib) (target_icao : option string) (s : State)
    (line : string) :
  Ver2.main.loop_body lib target_icao s line
  = match Ver2.main.identify lib target_icao line with
    | None => s
    | Some (msg, m, aa, df) =>
        let s2 :=
          fst (Ver2.main.squawk_block lib aa m df
                 (fst (Ver2.main.altitude_block lib aa m df (timestamp msg)
                         (Ver2.main.register msg m aa df s)))) in
        if Z_in df [17; 18] then
          match pms_adsb_typecode lib m with
          | Ok (Some tc) =>
              fst ((if (9 <=? tc) && (tc <=? 18)
                    then Ver2.main.cpr_block lib aa m (timestamp msg)
                    else if tc =? 19
                    then Ver2.main.velocity_block lib aa m (timestamp msg)
                    else if (1 <=? tc) && (tc <=? 4)
                    then Ver2.main.identification_block lib aa m
                    else if tc =? 29
                    then Ver2.main.target_state_block lib aa m (timestamp msg)
                    else skip)
                     (fst (Ver2.main.timestamps_block aa (timestamp msg) tc s2)))
          | _ => s2
          end
        else s2
    end.
Proof.
  unfold Ver2.main.loop_body.
  destruct (Ver2.main.identify lib target_icao line)
    as [[[[msg m] aa] df]|]; [|reflexivity].
  unfold try_continue. rewrite decode_block_sequence. cbv zeta.
  destruct (Z_in df [17; 18]); [|reflexivity].
  unfold Ver2.main.adsb_block.
  destruct (pms_adsb_typecode lib m) as [[tc|]|]; try reflexivity.
  rewrite (bind_ok (call (Ok (Some tc))) _ _ (Some tc)) by reflexivity.
  now rewrite bind_total by apply timestamps_block_total.
Qed.

(** *** The last barometric altitude *)

Lemma altitude_block_keeps_buffer (lib : PyLib) (aa m : string) (df : Z)
    (ts : float) :
  keeps buffer_is_last_altitude (Ver2.main.altitude_block lib aa m df ts).
Proof.
  apply keeps_wp. intros s Hs. unfold Ver2.main.altitude_block.
  wp_run; try exact Hs.
  intros k. cbn. rewrite series_of_push.
  destruct (String.eqb_spec k aa) as [->|Hne].
  - now rewrite lookup_insert_eq, last_snoc.
  - rewrite lookup_insert_ne by congruence. apply Hs.
Qed.

Lemma decode_block_keeps_buffer (lib : PyLib) (aa m : string) (df : Z)
    (ts : float) :
  keeps buffer_is_last_altitude (Ver2.main.decode_block lib aa m df ts).
Proof.
  apply decode_block_keeps;
    [apply altitude_block_keeps_buffer | frame_blocks |].
  apply adsb_block_keeps; [intros tc|..]; frame_blocks.
Qed.

(** After the ingestion of any sequence of lines, the last barometric
    altitude kept for an aircraft, which the GNSS altitude is derived
    from, is the last sample of the barometric series of the aircraft,
    time and value, and there is none exactly when the series is
    empty. *)
Theorem baro_buffer_is_last_altitude (lib : PyLib)
    (target_icao : option string) (lines : list string) (aa : string) :
  let s := Ver2.main.ingest lib target_icao lines in
  current_baro_buffer s !! aa = list.last (series_of (icao_altitude s) aa).
Proof.
  cbv zeta. revert aa.
  apply (ingest_keeps buffer_is_last_altitude).
  - intros aa. reflexivity.
  - intros s line Hs. apply loop_body_keeps; [|exact Hs].
    intros msg m aa df _. split.
    + apply register_keeps; try (intros v s' H; exact H). exact Hs.
    + apply decode_block_keeps_buffer.
Qed.

(** *** The aircraft, their times and their labels *)

Lemma register_registered (msg : ADSBMessage) (m aa : string) (df : Z)
    (s : State) :
  registered s -> registered (Ver2.main.register msg m aa df s).
Proof.
  intros (Ht & Hd & Hn).
  assert (registered
            (set_icao_times
               (<[aa := default {| first := timestamp msg; last := timestamp msg |}
                          ((fun t => {| first := first t; last := timestamp msg |})
                             <$> icao_times s !! aa)]> (icao_times s))
               (set_icao_dfs
                  (add_to aa (Ver2.decoder.get_format_label m df) (icao_dfs s))
                  (set_adsb_icao_list (adsb_icao_list s ∪ {[aa]}) s)))) as H.
  { unfold registered, add_to. cbn. repeat split.
    - rewrite dom_insert_L, Ht. apply (comm_L (∪)).
    - rewrite dom_insert_L, Hd. apply (comm_L (∪)).
    - intros k dfs. destruct (decide (k = aa)) as [->|Hne].
      + rewrite lookup_insert_eq. intros [= <-] E.
        apply (not_elem_of_empty (C := gset string)
                 (Ver2.decoder.get_format_label m df)).
        rewrite <- E. apply elem_of_union_r. now apply elem_of_singleton.
      + rewrite lookup_insert_ne by congruence. apply Hn. }
  unfold Ver2.main.register. cbn.
  destruct (icao_times s !! aa) eqn:E; cbn in H;
    destruct (df =? 11); exact H.
Qed.

Lemma decode_block_keeps_registered (lib : PyLib) (aa m : string) (df : Z)
    (ts : float) :
  keeps registered (Ver2.main.decode_block lib aa m df ts).
Proof.
  apply decode_block_keeps; [frame_blocks..|].
  apply adsb_block_keeps; [intros tc|..]; frame_blocks.
Qed.

(** After the ingestion of any sequence of lines, the aircraft of
    [adsb_icao_list] are exactly those that have first and last times and
    exactly those that have labels, and each has at least one label; so
    the table skips no aircraft the filter retains for want of its
    times. *)
Theorem every_aircraft_is_registered (lib : PyLib)
    (target_icao : option string) (lines : list string) :
  let s := Ver2.main.ingest lib target_icao lines in
  dom (icao_times s) = adsb_icao_list s
  /\ dom (icao_dfs s) = adsb_icao_list s
  /\ (forall icao, icao ∈ adsb_icao_list s -> labels_of s icao <> ∅)
  /\ (forall icao,
        icao ∈ Ver2.main.filtered_icao_list s -> is_Some (icao_times s !! icao)).
Proof.
  cbv zeta.
  assert (registered (Ver2.main.ingest lib target_icao lines))
    as (Ht & Hd & Hn).
  { apply ingest_keeps.
    - unfold registered. cbn. rewrite !dom_empty_L. repeat split.
      intros aa dfs. now rewrite lookup_empty.
    - intros s line Hs. apply loop_body_keeps; [|exact Hs].
      intros msg m aa df _. split.
      + now apply register_registered.
      + apply decode_block_keeps_registered. }
  repeat split; try assumption.
  - intros icao Hin. rewrite <- Hd in Hin. apply elem_of_dom in Hin.
    destruct Hin as [dfs E]. unfold labels_of. rewrite E. cbn. now apply Hn in E.
  - intros icao Hin. apply filtered_icao_list_spec in Hin.
    destruct Hin as [Hin _]. rewrite <- Ht in Hin. now apply elem_of_dom in Hin.
Qed.

(** Two aircraft, of which the filter retains one *)
Lemma every_aircraft_is_registered_witness :
  let s :=
    Ver2.main.ingest Mock.pylib None
      ["1.0 8D4840D620AAAA"; "2.0 203C6444000000"; "3.0 283C6444999900"] in
  labels_of s "3C6444" <> ∅
  /\ is_Some (icao_times s !! "4840D6").
Proof.
  intros s.
  destruct (every_aircraft_is_registered Mock.pylib None
              ["1.0 8D4840D620AAAA"; "2.0 203C6444000000";
               "3.0 283C6444999900"]) as (_ & _ & Hlabels & Htimes).
  split.
  - apply Hlabels. vm_compute. reflexivity.
  - apply Htimes. vm_compute. reflexivity.
Defined.

(** *** The target aircraft *)

Lemma identify_target (lib : PyLib) (t line : string) :
  Py.truthy t = true ->
  Ver2.main.identify lib (Some t) line
  = if names lib t line then Ver2.main.identify lib None line else None.
Proof.
  intros Ht. unfold names, Ver2.main.identify.
  destruct (negb (Py.truthy (Py.strip line))); [reflexivity|].
  destruct (Ver2.decoder.parse_ads_b_line lib line) as [[[msg sp] m]|];
    [|reflexivity].
  destruct (pms_icao lib m) as [aa|]; [|reflexivity].
  destruct (pms_df lib m) as [df|]; [|reflexivity].
  rewrite Ht. cbn. now destruct (String.eqb aa t).
Qed.

Lemma loop_body_target (lib : PyLib) (t : string) (s : State) (line : string) :
  Py.truthy t = true ->
  Ver2.main.loop_body lib (Some t) s line
  = if names lib t line then Ver2.main.loop_body lib None s line else s.
Proof.
  intros Ht. unfold Ver2.main.loop_body. rewrite identify_target by exact Ht.
  now destruct (names lib t line).
Qed.

Lemma fold_loop_target (lib : PyLib) (t : string) (lines : list string)
    (s : State) :
  Py.truthy t = true ->
  fold_left (Ver2.main.loop_body lib (Some t)) lines s
  = fold_left (Ver2.main.loop_body lib None) (List.filter (names lib t) lines) s.
Proof.
  intros Ht. revert s. induction lines as [|line lines IH]; intros s.
  - reflexivity.
  - cbn [fold_left List.filter]. rewrite loop_body_target by exact Ht.
    destruct (names lib t line); cbn [fold_left]; apply IH.
Qed.

Lemma loop_body_aircraft (lib : PyLib) (target_icao : option string)
    (s : State) (line : string) :
  adsb_icao_list (Ver2.main.loop_body lib target_icao s line)
  = match Ver2.main.identify lib target_icao line with
    | Some (_, _, aa, _) => adsb_icao_list s ∪ {[aa]}
    | None => adsb_icao_list s
    end.
Proof.
  unfold Ver2.main.loop_body.
  destruct (Ver2.main.identify lib target_icao line)
    as [[[[msg m] aa] df]|]; [|reflexivity].
  assert (keeps (fun s' => adsb_icao_list s' = adsb_icao_list s ∪ {[aa]})
            (Ver2.main.decode_block lib aa m df (timestamp msg))) as H.
  { apply decode_block_keeps; [frame_blocks..|].
    apply adsb_block_keeps; [intros tc|..]; frame_blocks. }
  apply H. unfold Ver2.main.register.
  destruct (icao_times _ !! aa); destruct (df =? 11); reflexivity.
Qed.

(** With a target address, the ingestion of a log is the ingestion,
    without target, of the lines of the log that are messages of the
    target; no other aircraft enters [adsb_icao_list]. *)
Theorem target_restricts_the_log (lib : PyLib) (t : string)
    (lines : list string)
    (Htarget : Py.truthy t = true) :
  Ver2.main.ingest lib (Some t) lines
  = Ver2.main.ingest lib None (List.filter (names lib t) lines)
  /\ adsb_icao_list (Ver2.main.ingest lib (Some t) lines) ⊆ {[t]}.
Proof.
  split; [now apply fold_loop_target|].
  apply (ingest_keeps (fun s => adsb_icao_list s ⊆ {[t]})).
  - cbn. apply empty_subseteq.
  - intros s line Hs. rewrite loop_body_aircraft, identify_target by exact Htarget.
    unfold names.
    destruct (Ver2.main.identify lib None line) as [[[[msg m] aa] df]|];
      [|exact Hs].
    destruct (String.eqb_spec aa t) as [->|Hne]; [|exact Hs].
    now apply union_least.
Qed.

(** Of three lines, the one of another aircraft is left out. *)
Lemma target_restricts_the_log_witness :
  let lines := ["1.0 8D4840D620AAAA"; "2.0 203C6444000000"; "3.0 8D4840D6990050"] in
  Ver2.main.ingest Mock.pylib (Some "4840D6") lines
  = Ver2.main.ingest Mock.pylib None ["1.0 8D4840D620AAAA"; "3.0 8D4840D6990050"]
  /\ adsb_icao_list (Ver2.main.ingest Mock.pylib (Some "4840D6") lines)
     ⊆ {[ "4840D6" ]}.
Proof.
  exact (target_restricts_the_log Mock.pylib "4840D6"
           ["1.0 8D4840D620AAAA"; "2.0 203C6444000000"; "3.0 8D4840D6990050"]
           eq_refl).
Defined.

(** *** The parity slots *)

Lemma two_slots_insert (aa : string) (slots : list (option (string * float)))
    (d : gmap string (list (option (string * float)))) :
  two_slots d -> length slots = 2%nat -> two_slots (<[aa := slots]> d).
Proof.
  intros Hs Hl k l. destruct (decide (k = aa)) as [->|Hne].
  - rewrite lookup_insert_eq. now intros [= <-].
  - rewrite lookup_insert_ne by congruence. apply Hs.
Qed.

Lemma two_slots_setdefault (aa : string)
    (d : gmap string (list (option (string * float)))) :
  two_slots d -> two_slots (setdefault aa [None; None] d).
Proof.
  intros Hs. unfold setdefault. destruct (d !! aa); [exact Hs|].
  now apply two_slots_insert.
Qed.

Lemma two_slots_getitem (aa : string) (slots : list (option (string * float)))
    (d : gmap string (list (option (string * float)))) :
  two_slots d -> getitem d aa = Ok slots -> length slots = 2%nat.
Proof.
  intros Hs. unfold getitem. destruct (d !! aa) as [l|] eqn:E; [|discriminate].
  intros [= <-]. now apply (Hs aa).
Qed.

Lemma cpr_block_keeps_two_slots (lib : PyLib) (aa m : string) (ts : float) :
  keeps (fun s => two_slots (cpr_messages s)) (Ver2.main.cpr_block lib aa m ts).
Proof.
  apply keeps_wp. intros s Hs. unfold Ver2.main.cpr_block.
  wp_run; cbn;
    repeat first
      [ assumption
      | apply two_slots_insert
      | apply two_slots_setdefault
      | reflexivity
      | rewrite length_insert;
        eapply two_slots_getitem; [|eassumption];
        now apply two_slots_setdefault ].
Qed.

Lemma list_index_two (slots : list (option (string * float))) (oe : Z) :
  length slots = 2%nat ->
  list_index (length slots) oe
  = if (-2 <=? oe) && (oe <=? 1) then Ok (Z.to_nat (oe mod 2)) else Raise.
Proof.
  intros ->. unfold list_index.
  destruct (Z.leb_spec 0 oe), (Z.ltb_spec oe (Z.of_nat 2)),
    (Z.leb_spec (- Z.of_nat 2) oe), (Z.ltb_spec oe 0),
    (Z.leb_spec (-2) oe), (Z.leb_spec oe 1); cbn [andb]; try lia;
    try reflexivity; f_equal.
  - assert (oe = 0 \/ oe = 1) as [->| ->] by lia; reflexivity.
  - assert (oe = -2 \/ oe = -1) as [->| ->] by lia; reflexivity.
Qed.

(** After the ingestion of any sequence of lines, the slots of an
    aircraft are a list of exactly two items, whatever was stored or
    reset; so a parity flag 0 or 1 always designates a slot, and a flag
    below -2 or above 1 raises, which abandons the message. *)
Theorem parity_slots_stay_a_pair (lib : PyLib) (target_icao : option string)
    (lines : list string) (aa : string)
    (slots : list (option (string * float))) (oe : Z)
    (Hslots : cpr_messages (Ver2.main.ingest lib target_icao lines) !! aa
              = Some slots) :
  length slots = 2%nat
  /\ (oe = 0 \/ oe = 1 -> list_index (length slots) oe = Ok (Z.to_nat oe))
  /\ (oe < -2 \/ 1 < oe -> list_index (length slots) oe = Raise).
Proof.
  assert (two_slots (cpr_messages (Ver2.main.ingest lib target_icao lines)))
    as H.
  { apply (ingest_keeps (fun s => two_slots (cpr_messages s))).
    - intros k l. cbn. now rewrite lookup_empty.
    - intros s line Hs. apply loop_body_keeps; [|exact Hs].
      intros msg m aa' df _. split.
      + apply register_keeps; try (intros v s' H; exact H). exact Hs.
      + apply decode_block_keeps; [frame_blocks..|].
        apply adsb_block_keeps; [intros tc|..];
          try apply cpr_block_keeps_two_slots; frame_blocks. }
  pose proof (H aa slots Hslots) as Hl. split; [exact Hl|].
  rewrite (list_index_two slots oe Hl). split.
  - now intros [-> | ->].
  - intros Hout.
    destruct (Z.leb_spec (-2) oe), (Z.leb_spec oe 1); cbn [andb];
      try reflexivity; lia.
Qed.

(** One even frame: the slots are the frame and [None]. *)
Lemma parity_slots_stay_a_pair_witness :
  let s := Ver2.main.ingest Mock.pylib None ["1.0 8D4840D6580000"] in
  cpr_messages s !! "4840D6" = Some [Some ("8D4840D6580000", 1%float); None]
  /\ list_index 2 1 = Ok 1%nat.
Proof.
  intros s. split; [reflexivity|].
  pose proof (parity_slots_stay_a_pair Mock.pylib None ["1.0 8D4840D6580000"]
                "4840D6" [Some ("8D4840D6580000", 1%float); None] 1 eq_refl)
    as (_ & Hin & _).
  apply Hin. now right.
Defined.

(** *** The range of the GNSS altitude *)

Lemma altitude_block_keeps_gnss (lib : PyLib) (aa m : string) (df : Z)
    (ts : float) :
  keeps gnss_bounded (Ver2.main.altitude_block lib aa m df ts).
Proof.
  apply keeps_wp. intros s [Hb Hg]. unfold Ver2.main.altitude_block.
  wp_run; try (split; assumption).
  split; [|exact Hg]. intros k t b. cbn.
  destruct (decide (k = aa)) as [->|Hne].
  - rewrite lookup_insert_eq. intros [= <- <-].
    match goal with
    | E : _ && _ = true |- _ =>
        apply andb_true_iff in E; destruct E as [E1 E2];
        apply Z.leb_le in E1, E2; now split
    end.
  - rewrite lookup_insert_ne by congruence. apply Hb.
Qed.

Lemma velocity_block_keeps_gnss (lib : PyLib) (aa m : string) (ts : float) :
  keeps gnss_bounded (Ver2.main.velocity_block lib aa m ts).
Proof.
  apply keeps_wp. intros s [Hb Hg]. unfold Ver2.main.velocity_block.
  wp_run; (split; [exact Hb|]); try exact Hg.
  all: cbn; apply all_values_push; [exact Hg|].
  all: match goal with
       | E : Ver2.decoder.get_altitude_difference _ _ = Some _ |- _ =>
           apply get_altitude_difference_range in E
       end.
  all: match goal with
       | E : current_baro_buffer _ !! _ = Some _ |- _ => apply Hb in E
       end.
  all: lia.
Qed.

(** The GNSS altitude has no range check of its own, yet after the
    ingestion of any sequence of lines every stored GNSS altitude is
    within -4500..62500 ft: it is the sum of a barometric altitude that
    passed its check and of an altitude difference that passed its
    own. *)
Theorem gnss_altitude_is_bounded (lib : PyLib) (target_icao : option string)
    (lines : list string) (aa : string) (series : list (float * Z))
    (Hseries : icao_gnss_altitude (Ver2.main.ingest lib target_icao lines) !! aa
               = Some series) :
  Forall (fun sample => -4500 <= snd sample <= 62500) series.
Proof.
  assert (gnss_bounded (Ver2.main.ingest lib target_icao lines)) as [_ H].
  { apply ingest_keeps.
    - split.
      + intros k t b. cbn. now rewrite lookup_empty.
      + apply all_values_empty.
    - intros s line Hs. apply loop_body_keeps; [|exact Hs].
      intros msg m aa' df _. split.
      + apply register_keeps; try (intros v s' H; exact H). exact Hs.
      + apply decode_block_keeps;
          [apply altitude_block_keeps_gnss | frame_blocks |].
        apply adsb_block_keeps; [intros tc|..];
          try apply velocity_block_keeps_gnss; frame_blocks. }
  exact (H aa series Hseries).
Qed.

(** 35000 ft at 100 s and a difference of +50 ft at 104 s *)
Lemma gnss_altitude_is_bounded_witness :
  let s := Ver2.main.ingest Mock.pylib None
             ["100 204840D6000000"; "104 8D4840D6990050"] in
  icao_gnss_altitude s !! "4840D6" = Some [(104%float, 35050)]
  /\ Forall (fun sample : float * Z => -4500 <= snd sample <= 62500)
       [(104%float, 35050)].
Proof.
  intros s. split; [reflexivity|].
  exact (gnss_altitude_is_bounded Mock.pylib None
           ["100 204840D6000000"; "104 8D4840D6990050"] "4840D6"
           [(104%float, 35050)] eq_refl).
Defined.

(** *** The keys of [icao_callsigns] *)

Lemma list_ascii_app (x y : string) :
  list_ascii_of_string (x ++ y)
  = (list_ascii_of_string x ++ list_ascii_of_string y)%list.
Proof. induction x as [|c x IH]; simpl; [reflexivity|now rewrite IH]. Qed.

Lemma list_ascii_inj (x y : string) :
  list_ascii_of_string x = list_ascii_of_string y -> x = y.
Proof.
  intros H. rewrite <- (string_of_list_ascii_of_string x),
    <- (string_of_list_ascii_of_string y). now rewrite H.
Qed.

Lemma append_inv_tail (x y z : string) :
  (x ++ z)%string = (y ++ z)%string -> x = y.
Proof.
  intros H. apply list_ascii_inj.
  apply (f_equal list_ascii_of_string) in H. rewrite !list_ascii_app in H.
  now apply app_inv_tail in H.
Qed.

Lemma sq_not_modes (x y : string) : (x ++ "_sq")%string <> (y ++ "_modes")%string.
Proof.
  intros H. apply (f_equal list_ascii_of_string) in H.
  rewrite !list_ascii_app in H. apply (f_equal list.last) in H.
  rewrite !last_app in H. discriminate H.
Qed.

Lemma has_underscore_sq (x : string) : Py.char_in "_" (x ++ "_sq") = true.
Proof. rewrite char_in_app. apply orb_true_r. Qed.

Lemma has_underscore_modes (x : string) : Py.char_in "_" (x ++ "_modes") = true.
Proof. rewrite char_in_app. apply orb_true_r. Qed.

Lemma altitude_block_callsigns (lib : PyLib) (aa m : string) (df : Z)
    (ts : float) (s : State) :
  icao_callsigns (fst (Ver2.main.altitude_block lib aa m df ts s))
  = icao_callsigns s.
Proof.
  apply (altitude_block_keeps (fun s' => icao_callsigns s' = icao_callsigns s));
    try (intros v s' H; exact H).
  reflexivity.
Qed.

Lemma squawk_block_callsigns (lib : PyLib) (aa m : string) (df : Z) (s : State) :
  icao_callsigns (fst (Ver2.main.squawk_block lib aa m df s))
  = match Ver2.decoder.get_squawk lib m df with
    | Some sq =>
        if Py.truthy sq
        then <[(aa ++ "_sq")%string := Text sq]> (icao_callsigns s)
        else icao_callsigns s
    | None => icao_callsigns s
    end.
Proof.
  unfold Ver2.main.squawk_block.
  destruct (Ver2.decoder.get_squawk lib m df) as [sq|]; [|reflexivity].
  now destruct (Py.truthy sq).
Qed.

Lemma timestamps_block_callsigns (aa : string) (ts : float) (tc : Z) (s : State) :
  icao_callsigns (fst (Ver2.main.timestamps_block aa ts tc s)) = icao_callsigns s.
Proof.
  apply (timestamps_block_keeps (fun s' => icao_callsigns s' = icao_callsigns s));
    try (intros v s' H; exact H).
  reflexivity.
Qed.

(** The blocks of an extended squitter write the entry of the address
    and the entry of its modes, no other. *)
Lemma adsb_block_keeps_entry (lib : PyLib) (aa m : string) (ts : float)
    (key : string) (v : option entry) :
  key <> aa -> key <> (aa ++ "_modes")%string ->
  keeps (fun s => icao_callsigns s !! key = v) (Ver2.main.adsb_block lib aa m ts).
Proof.
  intros Ha Hm.
  apply adsb_block_keeps; [intros tc|..];
    unfold Ver2.main.timestamps_block, Ver2.main.cpr_block,
      Ver2.main.velocity_block, Ver2.main.identification_block,
      Ver2.main.target_state_block;
    keeps_block; try assumption; cbn;
    now rewrite lookup_insert_ne by congruence.
Qed.

Lemma adsb_block_keeps_no_modes (lib : PyLib) (aa m : string) (ts : float)
    (key : string) (v : option entry) :
  key <> aa -> Ver2.decoder.get_selected_altitude lib m = None ->
  keeps (fun s => icao_callsigns s !! key = v) (Ver2.main.adsb_block lib aa m ts).
Proof.
  intros Ha Hsel.
  apply adsb_block_keeps; [intros tc|..];
    unfold Ver2.main.timestamps_block, Ver2.main.cpr_block,
      Ver2.main.velocity_block, Ver2.main.identification_block,
      Ver2.main.target_state_block;
    rewrite ?Hsel;
    keeps_block; try assumption; cbn;
    now rewrite lookup_insert_ne by congruence.
Qed.

Lemma register_squawk_altitude (lib : PyLib) (msg : ADSBMessage)
    (aa m : string) (df : Z) (s : State) :
  icao_callsigns
    (fst (Ver2.main.squawk_block lib aa m df
            (fst (Ver2.main.altitude_block lib aa m df (timestamp msg)
                    (Ver2.main.register msg m aa df s)))))
  = match Ver2.decoder.get_squawk lib m df with
    | Some sq =>
        if Py.truthy sq
        then <[(aa ++ "_sq")%string := Text sq]> (icao_callsigns s)
        else icao_callsigns s
    | None => icao_callsigns s
    end.
Proof.
  now rewrite squawk_block_callsigns, altitude_block_callsigns,
    register_callsigns.
Qed.

Lemma get_selected_altitude_inv (lib : PyLib) (m : string) (v : Z)
    (modes : gset string) :
  Ver2.decoder.get_selected_altitude lib m = Some (v, modes) ->
  exists df,
    pms_df lib m = Ok df /\ Z_in df [17; 18] = true
    /\ pms_adsb_typecode lib m = Ok (Some 29).
Proof.
  unfold Ver2.decoder.get_selected_altitude, obind.
  destruct (pms_df lib m) as [df|]; [|discriminate].
  destruct (Z_in df [17; 18]) eqn:Hin; [|discriminate]. cbn [negb].
  destruct (pms_adsb_typecode lib m) as [[tc|]|]; try discriminate.
  cbn [is_int]. destruct (Z.eqb_spec tc 29) as [->|]; [|discriminate].
  intros _. now exists df.
Qed.

Lemma target_state_block_modes (lib : PyLib) (aa m : string) (ts : float)
    (v : Z) (modes : gset string) (s : State) :
  Ver2.decoder.get_selected_altitude lib m = Some (v, modes) ->
  icao_callsigns (fst (Ver2.main.target_state_block lib aa m ts s))
    !! (aa ++ "_modes")%string
  = merge_modes (icao_callsigns s !! (aa ++ "_modes")%string) modes.
Proof.
  intros Hsel. unfold Ver2.main.target_state_block. rewrite Hsel.
  unfold bind, store, load, call, skip, ret, Ver2.main.union_modes, merge_modes.
  cbn.
  destruct (icao_callsigns s !! (aa ++ "_modes")%string) as [[t|x]|] eqn:E.
  - cbn. exact E.
  - destruct (Ver2.decoder.get_baro_correction lib m); cbn;
      apply lookup_insert_eq.
  - destruct (Ver2.decoder.get_baro_correction lib m); cbn;
      apply lookup_insert_eq.
Qed.

Lemma merge_modes_from (l : list (gset string)) (x : gset string) :
  fold_left merge_modes l (Some (Modes x)) = Some (Modes (x ∪ ⋃ l)).
Proof.
  revert x. induction l as [|ms l IH]; intros x; cbn.
  - now rewrite (right_id_L ∅ (∪)).
  - now rewrite IH, (assoc_L (∪)).
Qed.

Lemma mock_icao_plain (t : Mock.table) :
  Forall (fun e => Py.char_in "_" (Mock.fr_icao (snd e)) = false) t ->
  forall m a,
    Mock.ask t m (fun fr => Ok (Mock.fr_icao fr)) = Ok a ->
    Py.char_in "_" a = false.
Proof.
  intros Ht m a. unfold Mock.ask.
  induction Ht as [|[k fr] t Hfr Ht IH]; cbn [Mock.find]; [discriminate|].
  destruct (String.eqb k m); [|exact IH].
  intros [= <-]. exact Hfr.
Qed.

Section Keys.

Variable lib : PyLib.
Variable target_icao : option string.
Hypothesis Haddress :
  forall m a, pms_icao lib m = Ok a -> Py.char_in "_" a = false.

Lemma loop_body_squawk (s : State) (line aa : string) :
  icao_callsigns (Ver2.main.loop_body lib target_icao s line)
    !! (aa ++ "_sq")%string
  = match squawk_of lib target_icao aa line with
    | Some sq => Some (Text sq)
    | None => icao_callsigns s !! (aa ++ "_sq")%string
    end.
Proof.
  unfold Ver2.main.loop_body, squawk_of.
  destruct (Ver2.main.identify lib target_icao line)
    as [[[[msg m] aa'] df]|] eqn:Hid; [|reflexivity].
  destruct (identify_df _ _ _ _ _ _ _ Hid) as (Hicao & _ & _).
  apply Haddress in Hicao.
  unfold try_continue. rewrite decode_block_sequence.
  assert (keeps
            (fun s' =>
               icao_callsigns s' !! (aa ++ "_sq")%string
               = icao_callsigns
                   (fst (Ver2.main.squawk_block lib aa' m df
                           (fst (Ver2.main.altitude_block lib aa' m df
                                   (timestamp msg)
                                   (Ver2.main.register msg m aa' df s)))))
                   !! (aa ++ "_sq")%string)
            (if Z_in df [17; 18]
             then Ver2.main.adsb_block lib aa' m (timestamp msg) else skip))
    as Hk.
  { destruct (Z_in df [17; 18]); [|apply keeps_skip].
    apply adsb_block_keeps_entry.
    - intros E. rewrite <- E, has_underscore_sq in Hicao. discriminate.
    - apply sq_not_modes. }
  rewrite Hk by reflexivity. rewrite register_squawk_altitude.
  destruct (String.eqb_spec aa' aa) as [->|Hne].
  - destruct (Ver2.decoder.get_squawk lib m df) as [sq|]; [|reflexivity].
    destruct (Py.truthy sq); [|reflexivity]. apply lookup_insert_eq.
  - destruct (Ver2.decoder.get_squawk lib m df) as [sq|]; [|reflexivity].
    destruct (Py.truthy sq); [|reflexivity].
    apply lookup_insert_ne. intros E. now apply append_inv_tail in E.
Qed.

Lemma fold_loop_squawk (aa : string) (lines : list string) (s : State) :
  icao_callsigns (fold_left (Ver2.main.loop_body lib target_icao) lines s)
    !! (aa ++ "_sq")%string
  = match list.last (squawks_of lib target_icao aa lines) with
    | Some sq => Some (Text sq)
    | None => icao_callsigns s !! (aa ++ "_sq")%string
    end.
Proof.
  revert s. induction lines as [|line lines IH]; intros s; [reflexivity|].
  cbn [fold_left]. rewrite IH. unfold squawks_of. cbn [omap list_omap].
  fold (squawks_of lib target_icao aa lines).
  rewrite loop_body_squawk.
  destruct (squawk_of lib target_icao aa line) as [sq|]; [|reflexivity].
  rewrite last_cons.
  now destruct (list.last (squawks_of lib target_icao aa lines)).
Qed.

Lemma loop_body_modes (s : State) (line aa : string) :
  icao_callsigns (Ver2.main.loop_body lib target_icao s line)
    !! (aa ++ "_modes")%string
  = match modes_of_line lib target_icao aa line with
    | Some modes => merge_modes (icao_callsigns s !! (aa ++ "_modes")%string) modes
    | None => icao_callsigns s !! (aa ++ "_modes")%string
    end.
Proof.
  unfold Ver2.main.loop_body, modes_of_line.
  destruct (Ver2.main.identify lib target_icao line)
    as [[[[msg m] aa'] df]|] eqn:Hid; [|reflexivity].
  destruct (identify_df _ _ _ _ _ _ _ Hid) as (Hicao & Hdf & _).
  apply Haddress in Hicao. unfold try_continue.
  assert (icao_callsigns
            (fst (Ver2.main.squawk_block lib aa' m df
                    (fst (Ver2.main.altitude_block lib aa' m df (timestamp msg)
                            (Ver2.main.register msg m aa' df s)))))
            !! (aa ++ "_modes")%string
          = icao_callsigns s !! (aa ++ "_modes")%string) as Hbefore.
  { rewrite register_squawk_altitude.
    destruct (Ver2.decoder.get_squawk lib m df) as [sq|]; [|reflexivity].
    destruct (Py.truthy sq); [|reflexivity].
    apply lookup_insert_ne, sq_not_modes. }
  assert (aa ++ "_modes" <> aa')%string as Hkey.
  { intros E. rewrite <- E, has_underscore_modes in Hicao. discriminate. }
  destruct (String.eqb_spec aa' aa) as [->|Hne].
  - destruct (Ver2.decoder.get_selected_altitude lib m) as [[v modes]|] eqn:Hsel;
      cbn [fmap option_fmap option_map snd].
    + destruct (get_selected_altitude_inv _ _ _ _ Hsel) as (df' & Hdf' & Hin & Htc).
      assert (df' = df) as -> by congruence.
      rewrite (decode_block_adsb lib aa m df 29 (timestamp msg) _ Hin Htc).
      cbn [Z.leb Z.eqb Z.compare Pos.compare Pos.compare_cont andb Pos.eqb].
      rewrite (target_state_block_modes lib aa m (timestamp msg) v modes _ Hsel).
      now rewrite timestamps_block_callsigns, Hbefore.
    + rewrite decode_block_sequence, <- Hbefore.
      assert (keeps
                (fun s' =>
                   icao_callsigns s' !! (aa ++ "_modes")%string
                   = icao_callsigns
                       (fst (Ver2.main.squawk_block lib aa m df
                               (fst (Ver2.main.altitude_block lib aa m df
                                       (timestamp msg)
                                       (Ver2.main.register msg m aa df s)))))
                       !! (aa ++ "_modes")%string)
                (if Z_in df [17; 18]
                 then Ver2.main.adsb_block lib aa m (timestamp msg) else skip))
        as Hk.
      { destruct (Z_in df [17; 18]); [|apply keeps_skip].
        now apply adsb_block_keeps_no_modes. }
      now apply Hk.
  - rewrite decode_block_sequence, <- Hbefore.
    assert (keeps
              (fun s' =>
                 icao_callsigns s' !! (aa ++ "_modes")%string
                 = icao_callsigns
                     (fst (Ver2.main.squawk_block lib aa' m df
                             (fst (Ver2.main.altitude_block lib aa' m df
                                     (timestamp msg)
                                     (Ver2.main.register msg m aa' df s)))))
                     !! (aa ++ "_modes")%string)
              (if Z_in df [17; 18]
               then Ver2.main.adsb_block lib aa' m (timestamp msg) else skip))
      as Hk.
    { destruct (Z_in df [17; 18]); [|apply keeps_skip].
      apply adsb_block_keeps_entry; [exact Hkey|].
      intros E. apply append_inv_tail in E. congruence. }
    now apply Hk.
Qed.

Lemma fold_loop_modes (aa : string) (lines : list string) (s : State) :
  icao_callsigns (fold_left (Ver2.main.loop_body lib target_icao) lines s)
    !! (aa ++ "_modes")%string
  = fold_left merge_modes (modes_of lib target_icao aa lines)
      (icao_callsigns s !! (aa ++ "_modes")%string).
Proof.
  revert s. induction lines as [|line lines IH]; intros s; [reflexivity|].
  cbn [fold_left]. rewrite IH, loop_body_modes. unfold modes_of.
  cbn [omap list_omap].
  now destruct (modes_of_line lib target_icao aa line).
Qed.

Lemma loop_body_modes_clean (s : State) (line : string) :
  modes_clean s -> modes_clean (Ver2.main.loop_body lib target_icao s line).
Proof.
  intros Hs aa t. rewrite loop_body_modes.
  destruct (modes_of_line lib target_icao aa line) as [modes|]; [|apply Hs].
  specialize (Hs aa). unfold merge_modes.
  destruct (icao_callsigns s !! (aa ++ "_modes")%string) as [[t'|x]|];
    try discriminate. now destruct (Hs t').
Qed.

End Keys.

(** For every sequence of lines and every aircraft, when no address the
    decoder returns has an underscore, the squawk recorded under the key
    of the aircraft is the code of the latest message of the aircraft
    that carried one that is not empty, and there is none when no message
    carried one: each such message overwrites the entry, whatever the
    rest of the message decodes to. *)
Theorem latest_squawk_wins (lib : PyLib) (target_icao : option string)
    (lines : list string) (aa : string)
    (Haddress : forall m a, pms_icao lib m = Ok a -> Py.char_in "_" a = false) :
  icao_callsigns (Ver2.main.ingest lib target_icao lines) !! (aa ++ "_sq")%string
  = Text <$> list.last (squawks_of lib target_icao aa lines).
Proof.
  unfold Ver2.main.ingest. rewrite fold_loop_squawk by exact Haddress.
  now destruct (list.last (squawks_of lib target_icao aa lines)).
Qed.

(** An identity reply after a target state of another aircraft *)
Lemma latest_squawk_wins_witness :
  icao_callsigns
    (Ver2.main.ingest Mock.pylib None
       ["120 8D4840D6EA0000"; "121 283C6444999900"]) !! "3C6444_sq"
  = Some (Text "9999").
Proof.
  assert (forall m a, pms_icao Mock.pylib m = Ok a -> Py.char_in "_" a = false)
    as Haddress.
  { apply mock_icao_plain. repeat constructor. }
  exact (latest_squawk_wins Mock.pylib None
           ["120 8D4840D6EA0000"; "121 283C6444999900"] "3C6444" Haddress).
Defined.

(** For every sequence of lines and every aircraft, when no address the
    decoder returns has an underscore, the modes recorded under the key of
    the aircraft are the union of the modes of all its messages from
    which a selected altitude was extracted, and there is no entry when
    there was no such message: modes are added, never removed. *)
Theorem modes_are_accumulated (lib : PyLib) (target_icao : option string)
    (lines : list string) (aa : string)
    (Haddress : forall m a, pms_icao lib m = Ok a -> Py.char_in "_" a = false) :
  icao_callsigns (Ver2.main.ingest lib target_icao lines)
    !! (aa ++ "_modes")%string
  = match modes_of lib target_icao aa lines with
    | [] => None
    | reported => Some (Modes (⋃ reported))
    end.
Proof.
  unfold Ver2.main.ingest. rewrite fold_loop_modes by exact Haddress.
  destruct (modes_of lib target_icao aa lines) as [|ms l]; [reflexivity|].
  unfold empty_state. cbn [fold_left icao_callsigns].
  rewrite lookup_empty. cbn [merge_modes].
  rewrite merge_modes_from. cbn [union_list foldr].
  now rewrite (left_id_L ∅ (∪)).
Qed.

(** The target state "MCP/FCU", twice *)
Lemma modes_are_accumulated_witness :
  icao_callsigns
    (Ver2.main.ingest Mock.pylib None
       ["120 8D4840D6EA0000"; "121 283C6444999900"; "125 8D4840D6EA0000"])
    !! "4840D6_modes"
  = Some (Modes {[ "VNAV"; "HDG"; "APP"; "ALT"; "LNAV"; "AP" ]}).
Proof.
  assert (forall m a, pms_icao Mock.pylib m = Ok a -> Py.char_in "_" a = false)
    as Haddress.
  { apply mock_icao_plain. repeat constructor. }
  refine (eq_trans
            (modes_are_accumulated Mock.pylib None
               ["120 8D4840D6EA0000"; "121 283C6444999900";
                "125 8D4840D6EA0000"] "4840D6" Haddress) _).
  vm_compute. reflexivity.
Defined.

(** *** The flags of the table *)

Lemma no_empty_push {A : Type} (aa : string) (x : A)
    (d : gmap string (list A)) :
  no_empty_series d -> no_empty_series (push aa x d).
Proof.
  intros H k. unfold push. destruct (decide (k = aa)) as [->|Hne].
  - rewrite lookup_insert_eq. intros [= E]. now destruct (default [] (d !! aa)).
  - rewrite lookup_insert_ne by congruence. apply H.
Qed.

Lemma series_flag_spec {A : Type} (d : gmap string (list A)) (icao : string) :
  no_empty_series d ->
  (Ver2.main.series_flag d icao = "+" <-> is_Some (d !! icao)).
Proof.
  intros H. unfold Ver2.main.series_flag. specialize (H icao).
  destruct (d !! icao) as [[|x l]|]; split; try discriminate; try congruence.
  - intros _. now eexists.
  - intros [l [=]].
Qed.

Ltac solve_flags :=
  match goal with
  | H : flags_sound _ |- _ =>
      destruct H as (Hpos & Hhdg & Hdif & Hbar & Hgns & Hsel & Hflag)
  end;
  unfold flags_sound; cbn;
  repeat match goal with |- _ /\ _ => split end;
  first [ assumption | apply no_empty_push; assumption ].

Lemma target_state_block_keeps_flags (lib : PyLib) (aa m : string) (ts : float) :
  keeps flags_sound (Ver2.main.target_state_block lib aa m ts).
Proof.
  apply keeps_wp. intros s Hs. unfold Ver2.main.target_state_block.
  assert (forall v,
            flags_sound
              (set_icao_has_selected_alt (<[aa := true]> (icao_has_selected_alt s))
                 (set_icao_selected_altitude
                    (push aa (ts, v) (icao_selected_altitude s)) s))) as Hsel'.
  { intros v. destruct Hs as (Hpos & Hhdg & Hdif & Hbar & Hgns & Hsel & Hflag).
    unfold flags_sound; cbn. repeat match goal with |- _ /\ _ => split end;
      try assumption.
    - now apply no_empty_push.
    - intros k. unfold push. destruct (decide (k = aa)) as [->|Hne].
      + now rewrite !lookup_insert_eq.
      + rewrite !lookup_insert_ne by congruence. apply Hflag. }
  wp_run;
    try exact Hs;
    try (specialize (Hsel' z); generalize Hsel'; clear; intros H; solve_flags);
    try (generalize Hs; clear; intros H; solve_flags).
Qed.

Lemma decode_block_keeps_flags (lib : PyLib) (aa m : string) (df : Z)
    (ts : float) :
  keeps flags_sound (Ver2.main.decode_block lib aa m df ts).
Proof.
  apply decode_block_keeps;
    [ unfold Ver2.main.altitude_block; keeps_block; try assumption; solve_flags
    | unfold Ver2.main.squawk_block; keeps_block; try assumption; solve_flags
    | ].
  apply adsb_block_keeps; [intros tc|..];
    try apply target_state_block_keeps_flags;
    unfold Ver2.main.timestamps_block, Ver2.main.cpr_block,
      Ver2.main.velocity_block, Ver2.main.identification_block;
    keeps_block; try assumption; solve_flags.
Qed.

(** After the ingestion of any sequence of lines, each flag of a row of
    the table is ["+"] exactly when the aircraft has an entry in the
    dictionary of the column: no stored series is empty, so the test of
    the series adds nothing to the test of the key, and the flag of the
    selected altitude, read from [icao_has_selected_alt], agrees with the
    series of selected altitudes. *)
Theorem presence_flags_follow_the_data (lib : PyLib)
    (target_icao : option string) (lines : list string) (icao : string) :
  let s := Ver2.main.ingest lib target_icao lines in
  (Ver2.main.series_flag (icao_positions s) icao = "+"
   <-> is_Some (icao_positions s !! icao))
  /\ (Ver2.main.series_flag (icao_courses s) icao = "+"
      <-> is_Some (icao_courses s !! icao))
  /\ (Ver2.main.series_flag (icao_altitude_difference s) icao = "+"
      <-> is_Some (icao_altitude_difference s !! icao))
  /\ (Ver2.main.series_flag (icao_baro_correction s) icao = "+"
      <-> is_Some (icao_baro_correction s !! icao))
  /\ (Ver2.main.series_flag (icao_gnss_altitude s) icao = "+"
      <-> is_Some (icao_gnss_altitude s !! icao))
  /\ (Ver2.main.sel_flag s icao = "+"
      <-> is_Some (icao_selected_altitude s !! icao)).
Proof.
  cbv zeta.
  assert (flags_sound (Ver2.main.ingest lib target_icao lines))
    as (Hpos & Hhdg & Hdif & Hbar & Hgns & Hsel & Hflag).
  { apply ingest_keeps.
    - unfold flags_sound, no_empty_series. cbn.
      repeat split; intros aa; now rewrite lookup_empty.
    - intros s line Hs. apply loop_body_keeps; [|exact Hs].
      intros msg m aa df _. split.
      + apply register_keeps; try (intros v s' H; exact H). exact Hs.
      + apply decode_block_keeps_flags. }
  repeat match goal with |- _ /\ _ => split end;
    try (now apply series_flag_spec).
  unfold Ver2.main.sel_flag. rewrite Hflag.
  destruct (icao_selected_altitude _ !! icao) as [l|]; split;
    try discriminate; try reflexivity.
  - intros _. now exists l.
  - intros [l' [=]].
Qed.

(** *** The times of the messages, per kind *)

Lemma timestamps_block_by_kind (k : kind) (aa' aa : string) (ts : float)
    (tc : Z) (s : State) :
  series_of (times_by k (fst (Ver2.main.timestamps_block aa' ts tc s))) aa
  = (series_of (times_by k s) aa
     ++ if String.eqb aa aa' && has_kind k tc then [ts] else [])%list.
Proof.
  unfold Ver2.main.timestamps_block.
  assert (tc <= 0 \/ 1 <= tc <= 4 \/ 5 <= tc <= 8 \/ 9 <= tc <= 18 \/ tc = 19
          \/ 20 <= tc <= 22 \/ 23 <= tc <= 27 \/ tc = 28 \/ tc = 29 \/ tc = 30
          \/ tc = 31 \/ 32 <= tc) as Hc by lia.
  repeat destruct Hc as [Hc|Hc]; destruct k; unfold has_kind; decide_tests;
    cbn [andb orb]; unfold bind, store, skip, ret; cbn;
    rewrite ?andb_false_r, ?andb_true_r, ?app_nil_r, ?series_of_push;
    try reflexivity;
    (destruct (String.eqb_spec aa aa') as [->|Hne];
     [reflexivity|now rewrite app_nil_r]).
Qed.

Lemma has_kind_once (k k' : kind) (tc : Z) :
  has_kind k tc = true -> has_kind k' tc = true -> k = k'.
Proof.
  assert (tc <= 0 \/ 1 <= tc <= 4 \/ 5 <= tc <= 8 \/ 9 <= tc <= 18 \/ tc = 19
          \/ 20 <= tc <= 22 \/ 23 <= tc <= 27 \/ tc = 28 \/ tc = 29 \/ tc = 30
          \/ tc = 31 \/ 32 <= tc) as Hc by lia.
  repeat destruct Hc as [Hc|Hc]; destruct k, k'; unfold has_kind;
    decide_tests; cbn [andb orb]; try discriminate; reflexivity.
Qed.

(** The blocks after the times of the message leave the seven lists as
    they are. *)
Lemma dispatch_keeps_times (lib : PyLib) (aa m : string) (ts : float) (tc : Z)
    (k : kind) (v : gmap string (list float)) :
  keeps (fun s => times_by k s = v)
    (if (9 <=? tc) && (tc <=? 18) then Ver2.main.cpr_block lib aa m ts
     else if tc =? 19 then Ver2.main.velocity_block lib aa m ts
     else if (1 <=? tc) && (tc <=? 4) then Ver2.main.identification_block lib aa m
     else if tc =? 29 then Ver2.main.target_state_block lib aa m ts
     else skip).
Proof.
  destruct ((9 <=? tc) && (tc <=? 18)); [destruct k; frame_blocks|].
  destruct (tc =? 19); [destruct k; frame_blocks|].
  destruct ((1 <=? tc) && (tc <=? 4)); [destruct k; frame_blocks|].
  destruct (tc =? 29); [destruct k; frame_blocks|apply keeps_skip].
Qed.

Lemma before_times (lib : PyLib) (msg : ADSBMessage) (aa m : string) (df : Z)
    (k : kind) (s : State) :
  times_by k
    (fst (Ver2.main.squawk_block lib aa m df
            (fst (Ver2.main.altitude_block lib aa m df (timestamp msg)
                    (Ver2.main.register msg m aa df s)))))
  = times_by k s.
Proof.
  apply (squawk_block_keeps (fun s' => times_by k s' = times_by k s));
    [intros v s' H; destruct k; exact H|].
  apply (altitude_block_keeps (fun s' => times_by k s' = times_by k s));
    try (intros v s' H; destruct k; exact H).
  apply (register_keeps (fun s' => times_by k s' = times_by k s));
    try (intros v s' H; destruct k; exact H).
  reflexivity.
Qed.

Lemma loop_body_by_kind (lib : PyLib) (target_icao : option string) (s : State)
    (line aa : string) (k : kind) :
  series_of (times_by k (Ver2.main.loop_body lib target_icao s line)) aa
  = (series_of (times_by k s) aa
     ++ (squitters lib target_icao aa k [line]).*1)%list.
Proof.
  rewrite loop_body_cases. unfold squitters, squitter. cbn [omap list_omap].
  destruct (Ver2.main.identify lib target_icao line)
    as [[[[msg m] aa'] df]|]; [|now rewrite app_nil_r].
  cbv zeta.
  pose proof (before_times lib msg aa' m df k s) as H2.
  set (s2 := fst (Ver2.main.squawk_block lib aa' m df
                    (fst (Ver2.main.altitude_block lib aa' m df (timestamp msg)
                            (Ver2.main.register msg m aa' df s))))) in *.
  destruct (Z_in df [17; 18]);
    [|rewrite H2, andb_false_r; now rewrite app_nil_r].
  rewrite andb_true_r.
  destruct (pms_adsb_typecode lib m) as [[tc|]|];
    try (rewrite H2; destruct (String.eqb aa' aa); now rewrite app_nil_r).
  rewrite (dispatch_keeps_times lib aa' m (timestamp msg) tc k _ _ eq_refl).
  rewrite timestamps_block_by_kind, H2, String.eqb_sym.
  destruct (String.eqb aa' aa); cbn [andb]; [|reflexivity].
  now destruct (has_kind k tc).
Qed.

Lemma loop_body_df11 (lib : PyLib) (target_icao : option string) (s : State)
    (line aa : string) :
  series_of (icao_df11_ts (Ver2.main.loop_body lib target_icao s line)) aa
  = (series_of (icao_df11_ts s) aa
     ++ match acquisition_time lib target_icao aa line with
        | Some t => [t]
        | None => []
        end)%list.
Proof.
  unfold Ver2.main.loop_body, acquisition_time.
  destruct (Ver2.main.identify lib target_icao line)
    as [[[[msg m] aa'] df]|]; [|now rewrite app_nil_r].
  unfold try_continue.
  assert (keeps
            (fun s' =>
               icao_df11_ts s' = icao_df11_ts (Ver2.main.register msg m aa' df s))
            (Ver2.main.decode_block lib aa' m df (timestamp msg))) as Hk.
  { apply decode_block_keeps; [frame_blocks..|].
    apply adsb_block_keeps; [intros tc|..]; frame_blocks. }
  rewrite Hk by reflexivity. unfold Ver2.main.register.
  rewrite (String.eqb_sym aa' aa).
  destruct (icao_times _ !! aa'); destruct (df =? 11); cbn;
    rewrite ?series_of_push, ?andb_true_r, ?andb_false_r, ?app_nil_r;
    try reflexivity;
    (destruct (String.eqb_spec aa aa') as [->|Hne];
     [reflexivity|now rewrite app_nil_r]).
Qed.

(** After the ingestion of any sequence of lines, each of the seven
    lists of times of an aircraft holds, in the order of the file, the
    times of the extended squitters of the aircraft whose type code
    passes the test of the list, whether or not the fields of the message
    decode afterwards; the seven tests exclude one another, so a message
    is timed in one list at most; and the list of all-call replies holds
    the times of the messages of format 11. *)
Theorem message_times_by_kind (lib : PyLib) (target_icao : option string)
    (lines : list string) (aa : string) (k : kind) :
  let s := Ver2.main.ingest lib target_icao lines in
  series_of (times_by k s) aa = (squitters lib target_icao aa k lines).*1
  /\ (forall k' tc, has_kind k tc = true -> has_kind k' tc = true -> k = k')
  /\ series_of (icao_df11_ts s) aa
     = omap (acquisition_time lib target_icao aa) lines.
Proof.
  cbv zeta. split; [|split; [intros k' tc; apply has_kind_once|]].
  - unfold Ver2.main.ingest.
    assert (forall s,
              series_of
                (times_by k
                   (fold_left (Ver2.main.loop_body lib target_icao) lines s)) aa
              = (series_of (times_by k s) aa
                 ++ (squitters lib target_icao aa k lines).*1)%list)
      as H.
    { induction lines as [|line lines IH]; intros s.
      - cbn. now rewrite app_nil_r.
      - cbn [fold_left]. rewrite IH, loop_body_by_kind.
        rewrite <- app_assoc. unfold squitters. cbn [omap list_omap].
        now destruct (squitter lib target_icao aa (has_kind k) line). }
    rewrite H. now destruct k.
  - unfold Ver2.main.ingest.
    assert (forall s,
              series_of
                (icao_df11_ts
                   (fold_left (Ver2.main.loop_body lib target_icao) lines s)) aa
              = (series_of (icao_df11_ts s) aa
                 ++ omap (acquisition_time lib target_icao aa) lines)%list)
      as H.
    { induction lines as [|line lines IH]; intros s.
      - cbn. now rewrite app_nil_r.
      - cbn [fold_left omap list_omap]. rewrite IH, loop_body_df11.
        rewrite <- app_assoc.
        now destruct (acquisition_time lib target_icao aa line). }
    now rewrite H.
Qed.

(** A velocity message at 104 s is timed as such, and as nothing else. *)
Lemma message_times_by_kind_witness :
  series_of
    (times_by Speed
       (Ver2.main.ingest Mock.pylib None
          ["100 204840D6000000"; "104 8D4840D6990050"])) "4840D6"
  = [104%float]
  /\ has_kind TargetState 19 = false.
Proof.
  destruct (message_times_by_kind Mock.pylib None
              ["100 204840D6000000"; "104 8D4840D6990050"] "4840D6" Speed)
    as (Htimes & Honce & _).
  split.
  - etransitivity; [exact Htimes|]. vm_compute. reflexivity.
  - destruct (has_kind TargetState 19) eqn:E; [|reflexivity].
    discriminate (Honce TargetState 19 eq_refl E).
Defined.

(** *** The series, sample by sample *)

Lemma altitude_block_series (lib : PyLib) (aa' m : string) (df : Z) (ts : float)
    (s : State) (aa : string) :
  series_of (icao_altitude (fst (Ver2.main.altitude_block lib aa' m df ts s))) aa
  = (series_of (icao_altitude s) aa
     ++ if String.eqb aa aa' then
          match Ver2.decoder.get_altitude_any_df lib m df with
          | Some alt =>
              if (-2000 <=? alt) && (alt <=? 60000) then [(ts, alt)] else []
          | None => []
          end
        else [])%list.
Proof.
  unfold Ver2.main.altitude_block.
  destruct (Ver2.decoder.get_altitude_any_df lib m df) as [alt|];
    [|cbn; destruct (String.eqb aa aa'); now rewrite app_nil_r].
  destruct ((-2000 <=? alt) && (alt <=? 60000));
    [|cbn; destruct (String.eqb aa aa'); now rewrite app_nil_r].
  unfold bind, store. cbn. rewrite series_of_push.
  destruct (String.eqb_spec aa aa') as [->|Hne];
    [reflexivity|now rewrite app_nil_r].
Qed.

Lemma loop_body_altitude (lib : PyLib) (target_icao : option string)
    (s : State) (line aa : string) :
  series_of (icao_altitude (Ver2.main.loop_body lib target_icao s line)) aa
  = (series_of (icao_altitude s) aa
     ++ match altitude_sample lib target_icao aa line with
        | Some sample => [sample]
        | None => []
        end)%list.
Proof.
  unfold Ver2.main.loop_body, altitude_sample.
  destruct (Ver2.main.identify lib target_icao line)
    as [[[[msg m] aa'] df]|]; [|now rewrite app_nil_r].
  unfold try_continue. rewrite decode_block_sequence.
  assert (keeps
            (fun s' =>
               icao_altitude s'
               = icao_altitude
                   (fst (Ver2.main.altitude_block lib aa' m df (timestamp msg)
                           (Ver2.main.register msg m aa' df s))))
            (if Z_in df [17; 18]
             then Ver2.main.adsb_block lib aa' m (timestamp msg) else skip))
    as Hk.
  { destruct (Z_in df [17; 18]); [|apply keeps_skip].
    apply adsb_block_keeps; [intros tc|..]; frame_blocks. }
  rewrite Hk
    by (apply squawk_block_keeps; [intros v s' H; exact H|reflexivity]).
  rewrite altitude_block_series, String.eqb_sym.
  assert (icao_altitude (Ver2.main.register msg m aa' df s) = icao_altitude s)
    as ->.
  { apply (register_keeps (fun s' => icao_altitude s' = icao_altitude s));
      try (intros v s' H; exact H). reflexivity. }
  destruct (String.eqb aa' aa); [|reflexivity].
  destruct (Ver2.decoder.get_altitude_any_df lib m df) as [alt|]; [|reflexivity].
  now destruct ((-2000 <=? alt) && (alt <=? 60000)).
Qed.

(** After the ingestion of any sequence of lines, the barometric series
    of an aircraft holds, in the order of the file, one sample for each
    message of the aircraft, of any format, whose altitude is extracted
    and within -2000..60000 ft, with the time of the message; nothing
    else is in the series and nothing is ever removed from it. *)
Theorem altitude_series_is_the_decoded_altitudes (lib : PyLib)
    (target_icao : option string) (lines : list string) (aa : string) :
  series_of (icao_altitude (Ver2.main.ingest lib target_icao lines)) aa
  = omap (altitude_sample lib target_icao aa) lines.
Proof.
  unfold Ver2.main.ingest.
  assert (forall s,
            series_of
              (icao_altitude
                 (fold_left (Ver2.main.loop_body lib target_icao) lines s)) aa
            = (series_of (icao_altitude s) aa
               ++ omap (altitude_sample lib target_icao aa) lines)%list) as H.
  { induction lines as [|line lines IH]; intros s.
    - now rewrite app_nil_r.
    - cbn [fold_left omap list_omap]. rewrite IH, loop_body_altitude.
      rewrite <- app_assoc.
      now destruct (altitude_sample lib target_icao aa line). }
  now rewrite H.
Qed.

(** What the velocity block stores *)
Lemma velocity_block_stores (lib : PyLib) (aa m : string) (ts : float)
    (s : State) :
  let s' := fst (Ver2.main.velocity_block lib aa m ts s) in
  icao_speed s'
  = match Ver2.decoder.get_velocity lib m with
    | Some gs => push aa (ts, gs) (icao_speed s)
    | None => icao_speed s
    end
  /\ icao_courses s'
     = match Ver2.decoder.get_course lib m with
       | Some course => push aa (ts, course) (icao_courses s)
       | None => icao_courses s
       end
  /\ icao_altitude_difference s'
     = match Ver2.decoder.get_altitude_difference lib m with
       | Some d => push aa (ts, d) (icao_altitude_difference s)
       | None => icao_altitude_difference s
       end.
Proof.
  unfold Ver2.main.velocity_block, bind, store, load, skip, ret.
  destruct (Ver2.decoder.get_velocity lib m),
    (Ver2.decoder.get_course lib m),
    (Ver2.decoder.get_altitude_difference lib m); cbn;
    repeat match goal with
           | |- context [current_baro_buffer ?s !! ?k] =>
               destruct (current_baro_buffer s !! k) as [[? ?]|]
           | |- context [PrimFloat.ltb ?a ?b] => destruct (PrimFloat.ltb a b)
           end; cbn; repeat split.
Qed.

Lemma velocity_series_eq (a b : State) :
  velocity_series a = velocity_series b ->
  icao_speed a = icao_speed b /\ icao_courses a = icao_courses b
  /\ icao_altitude_difference a = icao_altitude_difference b.
Proof. unfold velocity_series. now intros [= -> -> ->]. Qed.

Lemma loop_body_velocity (lib : PyLib) (target_icao : option string)
    (s : State) (line aa : string) :
  let s' := Ver2.main.loop_body lib target_icao s line in
  let frame := squitters lib target_icao aa Speed [line] in
  series_of (icao_speed s') aa
  = (series_of (icao_speed s) aa
     ++ extracted (Ver2.decoder.get_velocity lib) frame)%list
  /\ series_of (icao_courses s') aa
     = (series_of (icao_courses s) aa
        ++ extracted (Ver2.decoder.get_course lib) frame)%list
  /\ series_of (icao_altitude_difference s') aa
     = (series_of (icao_altitude_difference s) aa
        ++ extracted (Ver2.decoder.get_altitude_difference lib) frame)%list.
Proof.
  cbv zeta. rewrite loop_body_cases. unfold squitters, squitter, has_kind.
  cbn [omap list_omap].
  destruct (Ver2.main.identify lib target_icao line)
    as [[[[msg m] aa'] df]|]; [|cbn; now rewrite !app_nil_r].
  cbv zeta.
  set (s2 := fst (Ver2.main.squawk_block lib aa' m df
                    (fst (Ver2.main.altitude_block lib aa' m df (timestamp msg)
                            (Ver2.main.register msg m aa' df s))))).
  assert (velocity_series s2 = velocity_series s) as H2.
  { subst s2.
    apply (squawk_block_keeps (fun s' => velocity_series s' = velocity_series s));
      [intros v s' H; exact H|].
    apply (altitude_block_keeps (fun s' => velocity_series s' = velocity_series s));
      try (intros v s' H; exact H).
    apply (register_keeps (fun s' => velocity_series s' = velocity_series s));
      try (intros v s' H; exact H).
    reflexivity. }
  assert (forall s3 : State,
            velocity_series s3 = velocity_series s ->
            series_of (icao_speed s3) aa
            = (series_of (icao_speed s) aa ++ [])%list
            /\ series_of (icao_courses s3) aa
               = (series_of (icao_courses s) aa ++ [])%list
            /\ series_of (icao_altitude_difference s3) aa
               = (series_of (icao_altitude_difference s) aa ++ [])%list)
    as Hsame.
  { intros s3 [= -> -> ->]. now rewrite !app_nil_r. }
  destruct (Z_in df [17; 18]);
    [|rewrite andb_false_r; now apply Hsame].
  rewrite andb_true_r.
  destruct (pms_adsb_typecode lib m) as [[tc|]|];
    try (destruct (String.eqb aa' aa); now apply Hsame).
  assert (velocity_series
            (fst (Ver2.main.timestamps_block aa' (timestamp msg) tc s2))
          = velocity_series s) as H3.
  { rewrite <- H2.
    apply (timestamps_block_keeps
             (fun s' => velocity_series s' = velocity_series s2));
      try (intros v s' H; exact H).
    reflexivity. }
  destruct (Z.eqb_spec tc 19) as [->|Hne].
  - cbn [Z.leb Z.eqb Z.compare Pos.compare Pos.compare_cont andb Pos.eqb].
    destruct (velocity_block_stores lib aa' m (timestamp msg)
                (fst (Ver2.main.timestamps_block aa' (timestamp msg) 19 s2)))
      as (-> & -> & ->).
    destruct (velocity_series_eq _ _ H3) as (-> & -> & ->).
    unfold extracted.
    destruct (String.eqb_spec aa' aa) as [->|Hne]; cbn [omap list_omap fst snd].
    + destruct (Ver2.decoder.get_velocity lib m),
        (Ver2.decoder.get_course lib m),
        (Ver2.decoder.get_altitude_difference lib m);
        cbn; rewrite ?series_of_push, ?String.eqb_refl, ?app_nil_r;
        repeat split.
    + assert (String.eqb aa aa' = false) as E by (apply String.eqb_neq; congruence).
      destruct (Ver2.decoder.get_velocity lib m),
        (Ver2.decoder.get_course lib m),
        (Ver2.decoder.get_altitude_difference lib m);
        cbn; rewrite ?series_of_push, ?E, ?app_nil_r;
        repeat split.
  - match goal with
    | |- context [fst (?chain (fst (Ver2.main.timestamps_block _ _ _ _)))] =>
        assert (keeps (fun s' => velocity_series s' = velocity_series s) chain)
          as Hk
    end.
    { destruct ((9 <=? tc) && (tc <=? 18)); [frame_blocks|].
      destruct ((1 <=? tc) && (tc <=? 4)); [frame_blocks|].
      destruct (tc =? 29); [frame_blocks|apply keeps_skip]. }
    destruct (String.eqb aa' aa); apply Hsame; now apply Hk.
Qed.

(** After the ingestion of any sequence of lines, the series of speeds,
    of courses and of altitude differences of an aircraft hold, in the
    order of the file and with the time of the message, what
    [get_velocity], [get_course] and [get_altitude_difference] extract
    from the extended squitters of the aircraft whose type code is 19, and
    nothing else. *)
Theorem velocity_series_are_the_decoded_values (lib : PyLib)
    (target_icao : option string) (lines : list string) (aa : string) :
  let s := Ver2.main.ingest lib target_icao lines in
  let frames := squitters lib target_icao aa Speed lines in
  series_of (icao_speed s) aa = extracted (Ver2.decoder.get_velocity lib) frames
  /\ series_of (icao_courses s) aa
     = extracted (Ver2.decoder.get_course lib) frames
  /\ series_of (icao_altitude_difference s) aa
     = extracted (Ver2.decoder.get_altitude_difference lib) frames.
Proof.
  cbv zeta. unfold Ver2.main.ingest.
  assert (forall s,
            let s' := fold_left (Ver2.main.loop_body lib target_icao) lines s in
            let frames := squitters lib target_icao aa Speed lines in
            series_of (icao_speed s') aa
            = (series_of (icao_speed s) aa
               ++ extracted (Ver2.decoder.get_velocity lib) frames)%list
            /\ series_of (icao_courses s') aa
               = (series_of (icao_courses s) aa
                  ++ extracted (Ver2.decoder.get_course lib) frames)%list
            /\ series_of (icao_altitude_difference s') aa
               = (series_of (icao_altitude_difference s) aa
                  ++ extracted (Ver2.decoder.get_altitude_difference lib) frames)%list)
    as H.
  { induction lines as [|line lines IH]; intros s; cbv zeta.
    - cbn. now rewrite !app_nil_r.
    - cbn [fold_left].
      destruct (IH (Ver2.main.loop_body lib target_icao s line)) as (-> & -> & ->).
      destruct (loop_body_velocity lib target_icao s line aa) as (-> & -> & ->).
      rewrite <- !app_assoc. unfold extracted, squitters. cbn [omap list_omap].
      destruct (squitter lib target_icao aa (has_kind Speed) line) as [f|];
        cbn [omap list_omap app]; repeat split.
      all: try match goal with
               | |- context [?g (snd ?x)] => destruct (g (snd x))
               end; reflexivity. }
  exact (H empty_state).
Qed.

Lemma target_state_series_eq (a b : State) :
  target_state_series a = target_state_series b ->
  icao_selected_altitude a = icao_selected_altitude b
  /\ icao_baro_correction a = icao_baro_correction b.
Proof. unfold target_state_series. now intros [= -> ->]. Qed.

(** What the target state block stores when the entry of the modes holds
    no text *)
Lemma target_state_block_stores (lib : PyLib) (aa m : string) (ts : float)
    (s : State) :
  (forall t, icao_callsigns s !! (aa ++ "_modes")%string <> Some (Text t)) ->
  let s' := fst (Ver2.main.target_state_block lib aa m ts s) in
  icao_selected_altitude s'
  = match Ver2.decoder.get_selected_altitude lib m with
    | Some (v, _) => push aa (ts, v) (icao_selected_altitude s)
    | None => icao_selected_altitude s
    end
  /\ icao_baro_correction s'
     = match Ver2.decoder.get_baro_correction lib m with
       | Some b => push aa (ts, b) (icao_baro_correction s)
       | None => icao_baro_correction s
       end.
Proof.
  intros Hclean.
  unfold Ver2.main.target_state_block, bind, store, load, call, skip, ret,
    Ver2.main.union_modes.
  destruct (Ver2.decoder.get_selected_altitude lib m) as [[v modes]|]; cbn.
  - destruct (icao_callsigns s !! (aa ++ "_modes")%string) as [[t|x]|] eqn:E;
      [now destruct (Hclean t)|..];
      destruct (Ver2.decoder.get_baro_correction lib m); cbn; now split.
  - destruct (Ver2.decoder.get_baro_correction lib m); cbn; now split.
Qed.

Section TargetStateSeries.

Variable lib : PyLib.
Variable target_icao : option string.
Hypothesis Haddress :
  forall m a, pms_icao lib m = Ok a -> Py.char_in "_" a = false.

Lemma loop_body_target_state (s : State) (line aa : string) :
  modes_clean s ->
  let s' := Ver2.main.loop_body lib target_icao s line in
  let frame := squitters lib target_icao aa TargetState [line] in
  series_of (icao_selected_altitude s') aa
  = (series_of (icao_selected_altitude s) aa
     ++ extracted (fun m => fst <$> Ver2.decoder.get_selected_altitude lib m)
          frame)%list
  /\ series_of (icao_baro_correction s') aa
     = (series_of (icao_baro_correction s) aa
        ++ extracted (Ver2.decoder.get_baro_correction lib) frame)%list.
Proof.
  intros Hclean. cbv zeta. rewrite loop_body_cases.
  unfold squitters, squitter, has_kind. cbn [omap list_omap].
  destruct (Ver2.main.identify lib target_icao line)
    as [[[[msg m] aa'] df]|]; [|cbn; now rewrite !app_nil_r].
  cbv zeta.
  pose proof (register_squawk_altitude lib msg aa' m df s) as Hcs.
  set (s2 := fst (Ver2.main.squawk_block lib aa' m df
                    (fst (Ver2.main.altitude_block lib aa' m df (timestamp msg)
                            (Ver2.main.register msg m aa' df s))))) in *.
  assert (target_state_series s2 = target_state_series s) as H2.
  { subst s2.
    apply (squawk_block_keeps
             (fun s' => target_state_series s' = target_state_series s));
      [intros v s' H; exact H|].
    apply (altitude_block_keeps
             (fun s' => target_state_series s' = target_state_series s));
      try (intros v s' H; exact H).
    apply (register_keeps
             (fun s' => target_state_series s' = target_state_series s));
      try (intros v s' H; exact H).
    reflexivity. }
  assert (forall s3 : State,
            target_state_series s3 = target_state_series s ->
            series_of (icao_selected_altitude s3) aa
            = (series_of (icao_selected_altitude s) aa ++ [])%list
            /\ series_of (icao_baro_correction s3) aa
               = (series_of (icao_baro_correction s) aa ++ [])%list)
    as Hsame.
  { intros s3 [= -> ->]. now rewrite !app_nil_r. }
  destruct (Z_in df [17; 18]);
    [|rewrite andb_false_r; now apply Hsame].
  rewrite andb_true_r.
  destruct (pms_adsb_typecode lib m) as [[tc|]|];
    try (destruct (String.eqb aa' aa); now apply Hsame).
  assert (target_state_series
            (fst (Ver2.main.timestamps_block aa' (timestamp msg) tc s2))
          = target_state_series s) as H3.
  { rewrite <- H2.
    apply (timestamps_block_keeps
             (fun s' => target_state_series s' = target_state_series s2));
      try (intros v s' H; exact H).
    reflexivity. }
  destruct (Z.eqb_spec tc 29) as [->|Hne].
  - cbn [Z.leb Z.eqb Z.compare Pos.compare Pos.compare_cont andb Pos.eqb].
    destruct (target_state_block_stores lib aa' m (timestamp msg)
                (fst (Ver2.main.timestamps_block aa' (timestamp msg) 29 s2)))
      as (-> & ->).
    { intros t. rewrite timestamps_block_callsigns, Hcs.
      destruct (Ver2.decoder.get_squawk lib m df) as [sq|]; [|apply Hclean].
      destruct (Py.truthy sq); [|apply Hclean].
      rewrite lookup_insert_ne by apply sq_not_modes. apply Hclean. }
    destruct (target_state_series_eq _ _ H3) as (-> & ->).
    unfold extracted.
    destruct (String.eqb_spec aa' aa) as [->|Hne]; cbn [omap list_omap fst snd].
    + destruct (Ver2.decoder.get_selected_altitude lib m) as [[v modes]|],
        (Ver2.decoder.get_baro_correction lib m);
        cbn; rewrite ?series_of_push, ?String.eqb_refl, ?app_nil_r;
        repeat split.
    + assert (String.eqb aa aa' = false) as E by (apply String.eqb_neq; congruence).
      destruct (Ver2.decoder.get_selected_altitude lib m) as [[v modes]|],
        (Ver2.decoder.get_baro_correction lib m);
        cbn; rewrite ?series_of_push, ?E, ?app_nil_r;
        repeat split.
  - match goal with
    | |- context [fst (?chain (fst (Ver2.main.timestamps_block _ _ _ _)))] =>
        assert (keeps
                  (fun s' => target_state_series s' = target_state_series s)
                  chain) as Hk
    end.
    { destruct ((9 <=? tc) && (tc <=? 18)); [frame_blocks|].
      destruct (tc =? 19); [frame_blocks|].
      destruct ((1 <=? tc) && (tc <=? 4)); [frame_blocks|apply keeps_skip]. }
    destruct (String.eqb aa' aa); apply Hsame; now apply Hk.
Qed.

Lemma fold_loop_target_state (aa : string) (lines : list string) (s : State) :
  modes_clean s ->
  let s' := fold_left (Ver2.main.loop_body lib target_icao) lines s in
  let frames := squitters lib target_icao aa TargetState lines in
  series_of (icao_selected_altitude s') aa
  = (series_of (icao_selected_altitude s) aa
     ++ extracted (fun m => fst <$> Ver2.decoder.get_selected_altitude lib m)
          frames)%list
  /\ series_of (icao_baro_correction s') aa
     = (series_of (icao_baro_correction s) aa
        ++ extracted (Ver2.decoder.get_baro_correction lib) frames)%list.
Proof.
  revert s. induction lines as [|line lines IH]; intros s Hs; cbv zeta.
  - cbn. now rewrite !app_nil_r.
  - cbn [fold_left].
    destruct (IH (Ver2.main.loop_body lib target_icao s line)
                (loop_body_modes_clean lib target_icao Haddress s line Hs))
      as (-> & ->).
    destruct (loop_body_target_state s line aa Hs) as (-> & ->).
    rewrite <- !app_assoc. unfold extracted, squitters. cbn [omap list_omap].
    destruct (squitter lib target_icao aa (has_kind TargetState) line) as [f|];
      cbn [omap list_omap app]; repeat split.
    all: try match goal with
             | |- context [Ver2.decoder.get_selected_altitude ?l (snd ?x)] =>
                 destruct (Ver2.decoder.get_selected_altitude l (snd x))
             | |- context [Ver2.decoder.get_baro_correction ?l (snd ?x)] =>
                 destruct (Ver2.decoder.get_baro_correction l (snd x))
             end; reflexivity.
Qed.

End TargetStateSeries.

(** After the ingestion of any sequence of lines, when no address the
    decoder returns has an underscore, the series of selected altitudes
    and of pressure settings of an aircraft hold, in the order of the
    file and with the time of the message, what [get_selected_altitude]
    and [get_baro_correction] extract from the extended squitters of the
    aircraft whose type code is 29, and nothing else: the merging of the
    modes, which comes between the two, then never raises. *)
Theorem target_state_series_are_the_decoded_values (lib : PyLib)
    (target_icao : option string) (lines : list string) (aa : string)
    (Haddress : forall m a, pms_icao lib m = Ok a -> Py.char_in "_" a = false) :
  let s := Ver2.main.ingest lib target_icao lines in
  let frames := squitters lib target_icao aa TargetState lines in
  series_of (icao_selected_altitude s) aa
  = extracted (fun m => fst <$> Ver2.decoder.get_selected_altitude lib m) frames
  /\ series_of (icao_baro_correction s) aa
     = extracted (Ver2.decoder.get_baro_correction lib) frames.
Proof.
  apply (fold_loop_target_state lib target_icao Haddress aa lines empty_state).
  intros k t. cbn. now rewrite lookup_empty.
Qed.

(** A target state that selects 36000 ft at 1013.6 hPa *)
Lemma target_state_series_are_the_decoded_values_witness :
  let s := Ver2.main.ingest Mock.pylib None
             ["119 283C6444999900"; "120 8D4840D6EA0000"] in
  series_of (icao_selected_altitude s) "4840D6" = [(120%float, 36000)]
  /\ series_of (icao_baro_correction s) "4840D6" = [(120%float, 1013.6%float)].
Proof.
  assert (forall m a, pms_icao Mock.pylib m = Ok a -> Py.char_in "_" a = false)
    as Haddress.
  { apply mock_icao_plain. repeat constructor. }
  exact (target_state_series_are_the_decoded_values Mock.pylib None
           ["119 283C6444999900"; "120 8D4840D6EA0000"] "4840D6" Haddress).
Defined.

(** ** Further properties of the decoders and of the line framer *)

Lemma all_chars_filter (p : ascii -> bool) (s : string) :
  Py.all_chars p (Py.filter_chars p s) = true.
Proof.
  induction s as [|c s IH]; [reflexivity|]. cbn [Py.filter_chars].
  destruct (p c) eqn:E; [|exact IH]. cbn [Py.all_chars]. now rewrite E, IH.
Qed.

Lemma get_callsign_sanitized (lib : PyLib) (m cs : string) :
  Ver2.decoder.get_callsign lib m = Some cs ->
  exists raw,
    pms_adsb_callsign lib m = Ok (Some raw)
    /\ cs = Py.filter_chars Py.isalnum raw.
Proof.
  unfold Ver2.decoder.get_callsign, obind.
  destruct (pms_df lib m) as [df|]; [|discriminate].
  destruct (negb (Z_in df [17; 18])); [discriminate|].
  destruct (pms_adsb_typecode lib m) as [tc|]; [|discriminate].
  destruct (between 1 tc 4) as [[|]|]; try discriminate.
  destruct (pms_adsb_callsign lib m) as [[raw|]|]; try discriminate.
  destruct (Py.truthy raw); [|discriminate].
  cbn [or_none]. intros [= <-]. now exists raw.
Qed.

Lemma callsign_of_sanitized (lib : PyLib) (target_icao : option string)
    (aa line cs : string) :
  callsign_of lib target_icao aa line = Some cs ->
  cs <> "" /\ Py.all_chars Py.isalnum cs = true.
Proof.
  unfold callsign_of.
  destruct (Ver2.main.identify lib target_icao line)
    as [[[[msg m] aa'] df]|]; [|discriminate].
  destruct (String.eqb aa' aa); [|discriminate].
  destruct (Ver2.decoder.get_callsign lib m) as [cs'|] eqn:E; [|discriminate].
  destruct (Py.truthy cs') eqn:T; [|discriminate].
  intros [= <-]. split.
  - intros ->. discriminate T.
  - apply get_callsign_sanitized in E. destruct E as (raw & _ & ->).
    apply all_chars_filter.
Qed.

(** After the ingestion of any sequence of lines, what is recorded under
    the address of an aircraft (an address has no underscore) is a call
    sign, text that is not empty and made of letters and digits only:
    the padding and the punctuation of the decoded call sign never reach
    the dictionary, and the text "N/A", which the table prints for an
    aircraft without call sign, is never a recorded call sign. *)
Theorem recorded_callsign_is_alphanumeric (lib : PyLib)
    (target_icao : option string) (lines : list string) (aa : string)
    (recorded : entry)
    (Haddress : Py.char_in "_" aa = false)
    (Hrecorded : icao_callsigns (Ver2.main.ingest lib target_icao lines) !! aa
                 = Some recorded) :
  exists cs,
    recorded = Text cs /\ cs <> "" /\ Py.all_chars Py.isalnum cs = true
    /\ cs <> "N/A".
Proof.
  unfold Ver2.main.ingest in Hrecorded.
  rewrite fold_loop_callsign in Hrecorded by exact Haddress.
  destruct (list.last (callsigns_of lib target_icao aa lines)) as [cs|] eqn:E.
  - injection Hrecorded as <-. exists cs. split; [reflexivity|].
    apply last_Some_elem_of in E. unfold callsigns_of in E.
    apply list_elem_of_omap in E. destruct E as (line & _ & E).
    apply callsign_of_sanitized in E. destruct E as [Hne Halnum].
    repeat split; try assumption.
    intros ->. discriminate Halnum.
  - cbn in Hrecorded. now rewrite lookup_empty in Hrecorded.
Qed.

(** The call sign "KLM1023_" is recorded without its padding. *)
Lemma recorded_callsign_is_alphanumeric_witness :
  icao_callsigns
    (Ver2.main.ingest Mock.pylib None
       ["1.0 8D4840D620AAAA"; "2.0 8D4840D6990050"]) !! "4840D6"
  = Some (Text "KLM1023")
  /\ exists cs,
       Text "KLM1023" = Text cs /\ cs <> ""
       /\ Py.all_chars Py.isalnum cs = true /\ cs <> "N/A".
Proof.
  split; [reflexivity|].
  exact (recorded_callsign_is_alphanumeric Mock.pylib None
           ["1.0 8D4840D620AAAA"; "2.0 8D4840D6990050"] "4840D6"
           (Text "KLM1023") eq_refl eq_refl).
Defined.

Lemma str_of_int_inj (a b : Z) : Py.str_of_int a = Py.str_of_int b -> a = b.
Proof.
  unfold Py.str_of_int. intros H.
  assert (forall z, NilZero.int_of_string (NilZero.string_of_int (Z.to_int z))
                    = Some (Z.to_int z)) as Hisi.
  { intros z. apply NilZero.isi; destruct z; cbn; try discriminate;
      intros [= E]; now apply (DecimalPos.Unsigned.to_uint_nonnil p). }
  apply DecimalZ.to_int_inj.
  apply (f_equal NilZero.int_of_string) in H. rewrite !Hisi in H.
  now injection H.
Qed.

(** Two messages of different formats never get the same label, whatever
    their lengths: the label of a message names its format, so the set of
    labels of an aircraft tells the formats it was heard in. *)
Theorem format_label_names_one_format (m m' : string) (df df' : Z)
    (Hformats : df <> df') :
  Ver2.decoder.get_format_label m df <> Ver2.decoder.get_format_label m' df'.
Proof.
  destruct (get_format_label_shape m df) as (lt & Hlt & ->).
  destruct (get_format_label_shape m' df') as (lt' & Hlt' & ->).
  intros H. apply Hformats, str_of_int_inj.
  apply (f_equal list_ascii_of_string) in H. rewrite !list_ascii_app in H.
  apply app_inj_2 in H.
  - destruct H as [H _]. apply app_inv_head in H. now apply list_ascii_inj.
  - destruct Hlt as [->|[->| ->]], Hlt' as [->|[->| ->]]; reflexivity.
Qed.

(** An extended squitter and a Mode S altitude reply *)
Lemma format_label_names_one_format_witness :
  Ver2.decoder.get_format_label "8D4840D6580000" 17
  <> Ver2.decoder.get_format_label "203C6444000000" 4.
Proof.
  apply (format_label_names_one_format "8D4840D6580000" "203C6444000000" 17 4).
  lia.
Defined.

(** White space and case in the payload *)

Lemma split_tokens (s : string) : Forall token (Py.split s).
Proof.
  induction s as [|c s IH]; [constructor|]. cbn [Py.split].
  destruct (Py.is_space c) eqn:Hc; [exact IH|].
  assert (token (String c "")) as Hone.
  { split; [|discriminate]. unfold solid. cbn. now rewrite Hc. }
  destruct s as [|c' s']; [constructor; [exact Hone|constructor]|].
  destruct (Py.is_space c') eqn:Hc'; [now constructor|].
  destruct (Py.split (String c' s')) as [|w ws];
    [constructor; [exact Hone|constructor]|].
  inversion IH as [|? ? [Hw _] Hws]; subst. constructor; [|exact Hws].
  split; [|discriminate]. unfold solid in *. cbn [Py.all_chars].
  now rewrite Hc, Hw.
Qed.

Lemma upper_char_space (c : ascii) :
  Py.is_space (Py.upper_char c) = Py.is_space c.
Proof. destruct c as [[] [] [] [] [] [] [] []]; reflexivity. Qed.

Lemma upper_char_idem (c : ascii) :
  Py.upper_char (Py.upper_char c) = Py.upper_char c.
Proof. destruct c as [[] [] [] [] [] [] [] []]; reflexivity. Qed.

Lemma upper_idem (s : string) : Py.upper (Py.upper s) = Py.upper s.
Proof.
  induction s as [|c s IH]; [reflexivity|]. cbn [Py.upper].
  now rewrite upper_char_idem, IH.
Qed.

Lemma upper_app (a b : string) :
  Py.upper (a ++ b) = (Py.upper a ++ Py.upper b)%string.
Proof. induction a as [|c a IH]; simpl; [reflexivity|now rewrite IH]. Qed.

Lemma upper_join (sep : string) (l : list string) :
  Py.upper (Py.join sep l) = Py.join (Py.upper sep) (map Py.upper l).
Proof.
  induction l as [|x l IH]; [reflexivity|].
  destruct l as [|y l]; [reflexivity|].
  change (Py.join sep (x :: y :: l)) with (x ++ sep ++ Py.join sep (y :: l))%string.
  change (Py.join (Py.upper sep) (map Py.upper (x :: y :: l)))
    with (Py.upper x ++ Py.upper sep
          ++ Py.join (Py.upper sep) (map Py.upper (y :: l)))%string.
  now rewrite !upper_app, IH.
Qed.

Lemma solid_upper (t : string) : solid (Py.upper t) = solid t.
Proof.
  unfold solid. induction t as [|c t IH]; [reflexivity|].
  cbn [Py.upper Py.all_chars]. now rewrite upper_char_space, IH.
Qed.

Lemma solid_app (a b : string) : solid (a ++ b) = solid a && solid b.
Proof.
  unfold solid. induction a as [|c a IH]; simpl; [reflexivity|].
  now rewrite IH, andb_assoc.
Qed.

Lemma solid_join (l : list string) :
  Forall token l -> solid (Py.join "" l) = true.
Proof.
  induction 1 as [|x l [Hx _] Hl IH]; [reflexivity|].
  destruct l as [|y l]; [exact Hx|].
  change (Py.join "" (x :: y :: l)) with (x ++ "" ++ Py.join "" (y :: l))%string.
  rewrite !solid_app, Hx, IH. reflexivity.
Qed.

Lemma lstrip_solid (t : string) : solid t = true -> Py.lstrip t = t.
Proof.
  destruct t as [|c t]; [reflexivity|]. unfold solid. cbn.
  now destruct (Py.is_space c).
Qed.

Lemma rstrip_solid (t : string) : solid t = true -> Py.rstrip t = t.
Proof.
  unfold solid. induction t as [|c t IH]; [reflexivity|].
  cbn [Py.all_chars Py.rstrip]. intros H. apply andb_true_iff in H.
  destruct H as [Hc Ht]. rewrite (IH Ht).
  destruct t; [|reflexivity]. now destruct (Py.is_space c).
Qed.

Lemma rstrip_app_token (a t : string) :
  token t -> Py.rstrip (a ++ t) = (a ++ t)%string.
Proof.
  intros [Ht Hne]. induction a as [|c a IH]; [now apply rstrip_solid|].
  change (String c a ++ t)%string with (String c (a ++ t)).
  cbn [Py.rstrip]. rewrite IH. destruct (a ++ t)%string eqn:E; [|reflexivity].
  destruct a; [|discriminate E]. now destruct Hne.
Qed.

Lemma append_assoc (a b c : string) :
  ((a ++ b) ++ c)%string = (a ++ b ++ c)%string.
Proof.
  induction a as [|x a IH]; [reflexivity|].
  change (String x ((a ++ b) ++ c) = String x (a ++ b ++ c)). now f_equal.
Qed.

Lemma join_ends_with_token (l : list string) (x : string) :
  Forall token (x :: l) ->
  exists a t, Py.join " " (x :: l) = (a ++ t)%string /\ token t.
Proof.
  revert x. induction l as [|y l IH]; intros x H.
  - exists "", x. split; [reflexivity|]. now inversion H.
  - inversion H as [|? ? Hx Hl]; subst.
    destruct (IH y Hl) as (a & t & E & Ht).
    exists (x ++ " " ++ a)%string, t. split; [|exact Ht].
    change (Py.join " " (x :: y :: l)) with (x ++ " " ++ Py.join " " (y :: l))%string.
    rewrite E. now rewrite !append_assoc.
Qed.

Lemma token_upper (t : string) : token t -> token (Py.upper t).
Proof.
  intros [Ht Hne]. split; [now rewrite solid_upper|]. now destruct t.
Qed.

Lemma strip_solid (t : string) : solid t = true -> Py.strip t = t.
Proof.
  intros H. unfold Py.strip. rewrite (lstrip_solid t H). now apply rstrip_solid.
Qed.

Lemma strip_join (l : list string) :
  Forall token l -> Py.strip (Py.join " " l) = Py.join " " l.
Proof.
  intros H. destruct l as [|x l]; [reflexivity|]. unfold Py.strip.
  assert (Py.lstrip (Py.join " " (x :: l)) = Py.join " " (x :: l)) as ->.
  { inversion H as [|? ? [Hx Hne] _]; subst.
    destruct x as [|c x]; [now destruct Hne|].
    unfold solid in Hx. cbn [Py.all_chars] in Hx.
    apply andb_true_iff in Hx. destruct Hx as [Hc _].
    apply negb_true_iff in Hc. cbv beta in Hc.
    destruct l as [|y l].
    - cbn [Py.join Py.lstrip]. now rewrite Hc.
    - change (Py.join " " (String c x :: y :: l))
        with (String c (x ++ " " ++ Py.join " " (y :: l))).
      cbn [Py.lstrip]. now rewrite Hc. }
  destruct (join_ends_with_token l x H) as (a & t & -> & Ht).
  now apply rstrip_app_token.
Qed.

Lemma remove_blanks_app (a b : string) :
  Py.remove_blanks (a ++ b)
  = (Py.remove_blanks a ++ Py.remove_blanks b)%string.
Proof.
  induction a as [|c a IH]; [reflexivity|].
  change (String c a ++ b)%string with (String c (a ++ b)).
  cbn [Py.remove_blanks]. rewrite IH. now destruct (Ascii.eqb c " ").
Qed.

Lemma remove_blanks_solid (t : string) :
  solid t = true -> Py.remove_blanks t = t.
Proof.
  unfold solid. induction t as [|c t IH]; [reflexivity|].
  cbn [Py.all_chars Py.remove_blanks]. intros H.
  apply andb_true_iff in H. destruct H as [Hc Ht]. rewrite (IH Ht).
  destruct (Ascii.eqb_spec c " ") as [->|]; [discriminate Hc|reflexivity].
Qed.

Lemma remove_blanks_join (l : list string) :
  Forall token l -> Py.remove_blanks (Py.join " " l) = Py.join "" l.
Proof.
  induction 1 as [|x l [Hx _] Hl IH]; [reflexivity|].
  destruct l as [|y l]; [now apply remove_blanks_solid|].
  change (Py.join " " (x :: y :: l)) with (x ++ " " ++ Py.join " " (y :: l))%string.
  change (Py.join "" (x :: y :: l)) with (x ++ Py.join "" (y :: l))%string.
  rewrite !remove_blanks_app, IH, (remove_blanks_solid x Hx). reflexivity.
Qed.

Lemma spaced_of_tokens (l : list string) :
  Forall token l ->
  Py.strip (Py.upper (Py.join " " l)) = Py.join " " (map Py.upper l).
Proof.
  intros H. rewrite upper_join. apply strip_join.
  apply Forall_map. eapply Forall_impl; [exact H|]. apply token_upper.
Qed.

Lemma spaced_of_glued (l : list string) :
  Forall token l ->
  Py.strip (Py.upper (Py.join " " [Py.join "" l])) = Py.join "" (map Py.upper l).
Proof.
  intros H. cbn [Py.join]. rewrite upper_join. apply strip_solid.
  apply solid_join.
  apply Forall_map. eapply Forall_impl; [exact H|]. apply token_upper.
Qed.

Lemma decode_hex_parts_text (ts : float) (l : list string) (msg : ADSBMessage)
    (message_spaced message_str : string) :
  Forall token l ->
  Ver2.decoder.decode_hex_parts ts l = Some (msg, message_spaced, message_str) ->
  message_spaced = Py.join " " (map Py.upper l)
  /\ message_str = Py.join "" (map Py.upper l).
Proof.
  intros H.
  assert (Forall token (map Py.upper l)) as Hu.
  { apply Forall_map. eapply Forall_impl; [exact H|]. apply token_upper. }
  unfold Ver2.decoder.decode_hex_parts.
  rewrite (spaced_of_tokens _ H), (remove_blanks_join _ Hu).
  destruct ((String.length (Py.join "" (map Py.upper l)) =? 0)%nat
            || negb (Py.all_chars (fun c => Py.char_in c "0123456789ABCDEF")
                       (Py.join "" (map Py.upper l))));
    [discriminate|].
  destruct (Ver2.decoder.bytes_of (Py.chunks2 (Py.join "" (map Py.upper l))));
    [|discriminate].
  intros E. split.
  - now apply (f_equal (fun r => match r with
                                 | Some (_, spaced, _) => spaced
                                 | None => ""
                                 end)) in E.
  - now apply (f_equal (fun r => match r with
                                 | Some (_, _, str) => str
                                 | None => ""
                                 end)) in E.
Qed.

Lemma parse_hex_parts (lib : PyLib) (line : string) (msg : ADSBMessage)
    (message_spaced message_str : string) :
  Ver2.decoder.parse_ads_b_line lib line
  = Some (msg, message_spaced, message_str) ->
  exists ts kept,
    (kept = drop 1 (Py.split (Py.strip line))
     \/ kept = drop 2 (Py.split (Py.strip line)))
    /\ Ver2.decoder.decode_hex_parts ts kept
       = Some (msg, message_spaced, message_str).
Proof.
  unfold Ver2.decoder.parse_ads_b_line.
  destruct (length (Py.split (Py.strip line)) <? 2)%nat; [discriminate|].
  destruct (np_float64 lib (nth 0 (Py.split (Py.strip line)) "")) as [ts|];
    [|discriminate].
  destruct ((3 <=? length (Py.split (Py.strip line)))%nat
            && (String.eqb (Py.upper (nth 1 (Py.split (Py.strip line)) "")) "DF"
                || String.eqb (Py.upper (nth 1 (Py.split (Py.strip line)) ""))
                     "UF"));
    intros H; eauto.
Qed.

(** The payload of a line is framed as if its tokens were written without
    white space between them: same message, same text, the text with
    blanks alone keeps the tokens apart; and as if they were written in
    upper case.  [hex_parts] is what [parse_ads_b_line] keeps of the
    tokens of the line, the tokens after the first one or two: for a line
    that is framed, the text of the message is these tokens in upper
    case, one after the other, and the text with blanks is these tokens
    in upper case with one blank between two. *)
Theorem payload_blanks_and_case_are_ignored (lib : PyLib) (ts : float)
    (line : string) (k : nat) :
  let parts := Py.split (Py.strip line) in
  let hex_parts := drop k parts in
  Ver2.decoder.decode_hex_parts ts hex_parts
  = match Ver2.decoder.decode_hex_parts ts [Py.join "" hex_parts] with
    | Some (msg, _, message_str) =>
        Some (msg, Py.join " " (map Py.upper hex_parts), message_str)
    | None => None
    end
  /\ Ver2.decoder.decode_hex_parts ts (map Py.upper hex_parts)
     = Ver2.decoder.decode_hex_parts ts hex_parts
  /\ (forall msg message_spaced message_str,
        Ver2.decoder.parse_ads_b_line lib line
        = Some (msg, message_spaced, message_str) ->
        exists kept,
          (kept = drop 1 parts \/ kept = drop 2 parts)
          /\ message_spaced = Py.join " " (map Py.upper kept)
          /\ message_str = Py.join "" (map Py.upper kept)).
Proof.
  intros parts hex_parts.
  assert (Forall token hex_parts) as H.
  { apply Forall_drop, split_tokens. }
  assert (Forall token (map Py.upper hex_parts)) as Hu.
  { apply Forall_map. eapply Forall_impl; [exact H|]. apply token_upper. }
  split; [|split].
  - unfold Ver2.decoder.decode_hex_parts.
    rewrite (spaced_of_tokens _ H), (spaced_of_glued _ H).
    rewrite (remove_blanks_join _ Hu).
    rewrite (remove_blanks_solid _ (solid_join _ Hu)).
    destruct ((String.length (Py.join "" (map Py.upper hex_parts)) =? 0)%nat
              || negb (Py.all_chars (fun c => Py.char_in c "0123456789ABCDEF")
                         (Py.join "" (map Py.upper hex_parts))));
      [reflexivity|].
    now destruct (Ver2.decoder.bytes_of
                    (Py.chunks2 (Py.join "" (map Py.upper hex_parts)))).
  - unfold Ver2.decoder.decode_hex_parts.
    rewrite !upper_join, map_map.
    rewrite (map_ext (fun x => Py.upper (Py.upper x)) Py.upper upper_idem).
    reflexivity.
  - intros msg message_spaced message_str Hp.
    destruct (parse_hex_parts _ _ _ _ _ Hp) as (ts' & kept & Hkept & Hd).
    exists kept. split; [exact Hkept|].
    apply (decode_hex_parts_text ts' kept msg); [|exact Hd].
    destruct Hkept as [-> | ->]; apply Forall_drop, split_tokens.
Qed.

(** A line with a marker and a payload in two tokens, one in lower
    case *)
Lemma payload_blanks_and_case_are_ignored_witness :
  let line := "1.5 DF 8d4840d6 58000" in
  Ver2.decoder.parse_ads_b_line Mock.pylib line
  = Some (framed line, "8D4840D6 58000", "8D4840D658000")
  /\ exists kept,
       (kept = drop 1 (Py.split (Py.strip line))
        \/ kept = drop 2 (Py.split (Py.strip line)))
       /\ "8D4840D6 58000" = Py.join " " (map Py.upper kept)
       /\ "8D4840D658000" = Py.join "" (map Py.upper kept).
Proof.
  intros line. split; [reflexivity|].
  destruct (payload_blanks_and_case_are_ignored Mock.pylib 0 line 0)
    as (_ & _ & H).
  exact (H (framed line) "8D4840D6 58000" "8D4840D658000" eq_refl).
Defined.

(** ** The viewer: its list of aircraft and its navigation *)

Lemma insort_str_perm (x : string) (l : list string) :
  Ver1.prog1.IcaoGraphs.insort_str x l ≡ₚ x :: l.
Proof.
  induction l as [|y l IH]; [reflexivity|].
  cbn [Ver1.prog1.IcaoGraphs.insort_str].
  destruct (String.ltb x y); [reflexivity|].
  rewrite IH. apply Permutation_swap.
Qed.

Lemma sorted_str_perm (l : list string) :
  Ver1.prog1.IcaoGraphs.sorted_str l ≡ₚ l.
Proof.
  unfold Ver1.prog1.IcaoGraphs.sorted_str.
  assert (forall acc,
            fold_left (fun acc x => Ver1.prog1.IcaoGraphs.insort_str x acc) l acc
            ≡ₚ acc ++ l)
    as H.
  { induction l as [|x l IH]; intros acc; cbn [fold_left].
    - now rewrite app_nil_r.
    - rewrite IH, insort_str_perm. apply Permutation_middle. }
  apply H.
Qed.

Lemma ltb_asym (x y : string) : String.ltb x y = true -> String.ltb y x = false.
Proof.
  unfold String.ltb. rewrite (String.compare_antisym y x).
  now destruct (String.compare x y).
Qed.

Lemma insort_str_hd (x y : string) (l : list string) :
  ascending y x -> HdRel ascending y l ->
  HdRel ascending y (Ver1.prog1.IcaoGraphs.insort_str x l).
Proof.
  intros Hx Hl.
  destruct l as [|z l]; cbn [Ver1.prog1.IcaoGraphs.insort_str];
    [now constructor|].
  destruct (String.ltb x z); constructor; [exact Hx|]. now inversion Hl.
Qed.

Lemma insort_str_sorted (x : string) (l : list string) :
  Sorted ascending l -> Sorted ascending (Ver1.prog1.IcaoGraphs.insort_str x l).
Proof.
  induction 1 as [|y l Hl IH Hy]; cbn [Ver1.prog1.IcaoGraphs.insort_str];
    [now repeat constructor|].
  destruct (String.ltb x y) eqn:E.
  - constructor; [now constructor|]. constructor. now apply ltb_asym.
  - constructor; [exact IH|]. now apply insort_str_hd.
Qed.

Lemma sorted_str_sorted (l : list string) :
  Sorted ascending (Ver1.prog1.IcaoGraphs.sorted_str l).
Proof.
  unfold Ver1.prog1.IcaoGraphs.sorted_str.
  assert (forall acc,
            Sorted ascending acc ->
            Sorted ascending
              (fold_left (fun acc x => Ver1.prog1.IcaoGraphs.insort_str x acc)
                 l acc))
    as H.
  { induction l as [|x l IH]; intros acc Hacc; [exact Hacc|].
    cbn [fold_left]. apply IH. now apply insort_str_sorted. }
  apply H. constructor.
Qed.

(** The aircraft the viewer offers, given the aircraft the filter
    retained, are exactly the retained aircraft that have a barometric,
    speed, position, course or GNSS series, an airborne position time or
    an all-call reply time; each is listed once, in ascending order of
    its address. *)
Theorem viewer_lists_filtered_aircraft_with_data (s : State) (icao : string) :
  let offered :=
    Ver1.prog1.IcaoGraphs.icao_list s (Ver2.main.filtered_icao_list s) in
  (icao ∈ offered
   <-> icao ∈ Ver2.main.filtered_icao_list s
       /\ icao ∈ Ver1.prog1.IcaoGraphs.icao_with_data s)
  /\ NoDup offered
  /\ Sorted ascending offered.
Proof.
  cbv zeta. unfold Ver1.prog1.IcaoGraphs.icao_list. split; [|split].
  - rewrite sorted_str_perm, elem_of_elements, elem_of_intersection. tauto.
  - rewrite sorted_str_perm. apply NoDup_elements.
  - apply sorted_str_sorted.
Qed.

Lemma on_key_in_range (aircraft : list string) (key : string)
    (v : Ver1.prog1.IcaoGraphs.view) :
  in_range aircraft v ->
  in_range aircraft (Ver1.prog1.IcaoGraphs.on_key aircraft key v).
Proof.
  intros [Hi Hm]. unfold Ver1.prog1.IcaoGraphs.on_key.
  assert (0 < Z.of_nat (length Ver1.prog1.IcaoGraphs.plot_modes)) as Hp
    by (cbn; lia).
  destruct aircraft as [|x l]; [cbn in Hi; lia|].
  assert (0 < Z.of_nat (length (x :: l))) as Hl by (cbn [length]; lia).
  repeat match goal with
         | |- context [String.eqb key ?k] => destruct (String.eqb key k)
         end;
    split;
    cbn [Ver1.prog1.IcaoGraphs.next_icao Ver1.prog1.IcaoGraphs.prev_icao
         Ver1.prog1.IcaoGraphs.next_mode Ver1.prog1.IcaoGraphs.prev_mode
         Ver1.prog1.IcaoGraphs.icao_index Ver1.prog1.IcaoGraphs.plot_mode_idx];
    try assumption; now apply Z.mod_pos_bound.
Qed.

(** Whatever keys are pressed, from the view the viewer starts with, the
    index of the aircraft and the index of the display mode stay within
    their lists, so the aircraft and the mode to draw always exist; the
    viewer starts only when it has an aircraft to offer. *)
Theorem navigation_stays_in_range (aircraft : list string)
    (keys : list string)
    (Hsome : aircraft <> []) :
  let v := after_keys aircraft keys in
  in_range aircraft v
  /\ is_Some (aircraft !! Z.to_nat (Ver1.prog1.IcaoGraphs.icao_index v))
  /\ is_Some (Ver1.prog1.IcaoGraphs.plot_modes
                !! Z.to_nat (Ver1.prog1.IcaoGraphs.plot_mode_idx v)).
Proof.
  cbv zeta.
  assert (in_range aircraft (after_keys aircraft keys)) as H.
  { unfold after_keys.
    assert (in_range aircraft Ver1.prog1.IcaoGraphs.initial_view) as H0.
    { destruct aircraft as [|x l]; [now destruct Hsome|].
      split; cbn; lia. }
    generalize Ver1.prog1.IcaoGraphs.initial_view H0.
    induction keys as [|key keys IH]; intros v Hv; [exact Hv|].
    cbn [fold_left]. apply IH. now apply on_key_in_range. }
  split; [exact H|]. destruct H as [Hi Hm]. split.
  - apply lookup_lt_is_Some. lia.
  - apply lookup_lt_is_Some. lia.
Qed.

(** Right, right, down and left, with two aircraft *)
Lemma navigation_stays_in_range_witness :
  let aircraft := ["3C6444"; "4840D6"] in
  let keys := ["right"; "right"; "down"; "left"] in
  after_keys aircraft keys
  = {| Ver1.prog1.IcaoGraphs.icao_index := 1;
       Ver1.prog1.IcaoGraphs.plot_mode_idx := 17 |}
  /\ in_range aircraft (after_keys aircraft keys).
Proof.
  intros aircraft keys. split; [reflexivity|].
  apply (navigation_stays_in_range aircraft keys). discriminate.
Defined.

Lemma mod_step_back (i n : Z) :
  0 <= i < n -> ((i + 1) mod n - 1 + n) mod n = i.
Proof.
  intros H. destruct (Z.eq_dec (i + 1) n) as [E|E].
  - rewrite E, Z_mod_same_full. symmetry.
    apply (Z.mod_unique_pos _ n 0); lia.
  - rewrite (Z.mod_small (i + 1)) by lia. symmetry.
    apply (Z.mod_unique_pos _ n 1); lia.
Qed.

Lemma mod_step_forth (i n : Z) :
  0 <= i < n -> ((i - 1 + n) mod n + 1) mod n = i.
Proof.
  intros H. destruct (Z.eq_dec i 0) as [->|E].
  - rewrite (Z.mod_small (0 - 1 + n)) by lia. symmetry.
    apply (Z.mod_unique_pos _ n 1); lia.
  - assert ((i - 1 + n) mod n = i - 1) as ->.
    { symmetry. apply (Z.mod_unique_pos _ n 1); lia. }
    replace (i - 1 + 1) with i by lia. apply Z.mod_small. lia.
Qed.

Lemma iter_next_icao (x : string) (l : list string) (k : nat)
    (v : Ver1.prog1.IcaoGraphs.view) :
  Nat.iter k (Ver1.prog1.IcaoGraphs.next_icao (x :: l)) v
  = match k with
    | O => v
    | _ =>
        {| Ver1.prog1.IcaoGraphs.icao_index :=
             (Ver1.prog1.IcaoGraphs.icao_index v + Z.of_nat k)
             mod Z.of_nat (length (x :: l));
           Ver1.prog1.IcaoGraphs.plot_mode_idx :=
             Ver1.prog1.IcaoGraphs.plot_mode_idx v |}
    end.
Proof.
  induction k as [|k IH]; [reflexivity|].
  rewrite Nat.iter_succ, IH. destruct k as [|k].
  - reflexivity.
  - unfold Ver1.prog1.IcaoGraphs.next_icao.
    cbn [Ver1.prog1.IcaoGraphs.icao_index Ver1.prog1.IcaoGraphs.plot_mode_idx].
    f_equal. rewrite Zplus_mod_idemp_l. f_equal. lia.
Qed.

(** From a view whose indices are within their lists, the previous
    aircraft of the next aircraft is the aircraft shown, and so in the
    other order and for the display modes: the lists are walked as
    rings; and as many steps forward as there are aircraft lead back to
    the aircraft shown. *)
Theorem navigation_is_cyclic (aircraft : list string)
    (v : Ver1.prog1.IcaoGraphs.view)
    (Hrange : in_range aircraft v) :
  Ver1.prog1.IcaoGraphs.prev_icao aircraft
    (Ver1.prog1.IcaoGraphs.next_icao aircraft v) = v
  /\ Ver1.prog1.IcaoGraphs.next_icao aircraft
       (Ver1.prog1.IcaoGraphs.prev_icao aircraft v) = v
  /\ Ver1.prog1.IcaoGraphs.prev_mode aircraft
       (Ver1.prog1.IcaoGraphs.next_mode aircraft v) = v
  /\ Ver1.prog1.IcaoGraphs.next_mode aircraft
       (Ver1.prog1.IcaoGraphs.prev_mode aircraft v) = v
  /\ Nat.iter (length aircraft) (Ver1.prog1.IcaoGraphs.next_icao aircraft) v = v.
Proof.
  destruct Hrange as [Hi Hm]. destruct v as [i m].
  cbn [Ver1.prog1.IcaoGraphs.icao_index Ver1.prog1.IcaoGraphs.plot_mode_idx]
    in Hi, Hm.
  destruct aircraft as [|x l]; [cbn in Hi; lia|].
  assert (Nat.iter (length (x :: l)) (Ver1.prog1.IcaoGraphs.next_icao (x :: l))
            {| Ver1.prog1.IcaoGraphs.icao_index := i;
               Ver1.prog1.IcaoGraphs.plot_mode_idx := m |}
          = {| Ver1.prog1.IcaoGraphs.icao_index := i;
               Ver1.prog1.IcaoGraphs.plot_mode_idx := m |}) as Hturn.
  { rewrite iter_next_icao.
    cbn [length Ver1.prog1.IcaoGraphs.icao_index
         Ver1.prog1.IcaoGraphs.plot_mode_idx].
    f_equal. symmetry. apply (Z.mod_unique_pos _ _ 1); cbn [length] in Hi; lia. }
  rewrite Hturn.
  unfold Ver1.prog1.IcaoGraphs.prev_icao, Ver1.prog1.IcaoGraphs.next_icao,
    Ver1.prog1.IcaoGraphs.prev_mode, Ver1.prog1.IcaoGraphs.next_mode.
  cbn [Ver1.prog1.IcaoGraphs.icao_index Ver1.prog1.IcaoGraphs.plot_mode_idx].
  rewrite !mod_step_back, !mod_step_forth by assumption.
  repeat split.
Qed.

(** The last of three aircraft and the first of the modes: next wraps to
    the first aircraft, previous to the last mode. *)
Lemma navigation_is_cyclic_witness :
  let l := ["3C6444"; "4840D6"; "4CA2D1"] in
  let v := {| Ver1.prog1.IcaoGraphs.icao_index := 2;
              Ver1.prog1.IcaoGraphs.plot_mode_idx := 0 |} in
  Ver1.prog1.IcaoGraphs.next_icao l v
  = {| Ver1.prog1.IcaoGraphs.icao_index := 0;
       Ver1.prog1.IcaoGraphs.plot_mode_idx := 0 |}
  /\ Ver1.prog1.IcaoGraphs.prev_icao l (Ver1.prog1.IcaoGraphs.next_icao l v) = v
  /\ Ver1.prog1.IcaoGraphs.prev_mode l v
     = {| Ver1.prog1.IcaoGraphs.icao_index := 2;
          Ver1.prog1.IcaoGraphs.plot_mode_idx := 17 |}
  /\ Ver1.prog1.IcaoGraphs.next_mode l (Ver1.prog1.IcaoGraphs.prev_mode l v) = v.
Proof.
  intros l v.
  destruct (navigation_is_cyclic l v) as (H1 & _ & _ & H4 & _).
  { split; cbn; lia. }
  split; [reflexivity|]. split; [exact H1|]. split; [reflexivity|exact H4].
Defined.

(** ** The three bands of the intervals *)

Ltac order_cases :=
  repeat match goal with
    | |- context [Z.compare ?a ?b] => destruct (Z.compare_spec a b)
    | |- context [Pos.compare_cont Eq ?a ?b] =>
        change (Pos.compare_cont Eq a b) with (Pos.compare a b);
        destruct (Pos.compare_spec a b)
    end.

(** No binary64 value is below the lower and above the upper of two
    ordered bounds. *)
Lemma SFcompare_between (x l h : spec_float) (c : comparison) :
  SFcompare x l = Some Lt -> SFcompare h x = Some Lt ->
  SFcompare l h = Some c -> c = Gt.
Proof.
  destruct x as [sx|sx| |sx mx ex], l as [sl|sl| |sl ml el],
    h as [sh|sh| |sh mh eh]; cbn; try discriminate;
    repeat match goal with s : bool |- _ => destruct s end;
    try discriminate; try (intros _ _ [= <-]; reflexivity);
    order_cases; cbn; try discriminate;
    try (intros _ _ [= <-]; reflexivity); intros; lia.
Qed.

Lemma SFcompare_defined (x y z : spec_float) (c d : comparison) :
  SFcompare x y = Some c -> SFcompare z z = Some d ->
  exists e e', SFcompare x z = Some e /\ SFcompare z y = Some e'.
Proof.
  destruct x as [sx|sx| |sx mx ex], y as [sy|sy| |sy my ey],
    z as [sz|sz| |sz mz ez]; cbn; try discriminate; intros _ _; eauto.
Qed.

(** Each value that is not negative is in exactly one of the three bands
    of two ordered bounds. *)
Lemma one_band (x low high : float) :
  PrimFloat.leb low high = true -> PrimFloat.leb 0 x = true ->
  (Nat.b2n (PrimFloat.leb low x && PrimFloat.leb x high)
   + Nat.b2n (PrimFloat.ltb x low) + Nat.b2n (PrimFloat.ltb high x))%nat = 1%nat.
Proof.
  rewrite !FloatAxioms.leb_spec, !FloatAxioms.ltb_spec. unfold SFleb, SFltb.
  destruct (SFcompare (Prim2SF low) (Prim2SF high)) as [c|] eqn:Hlh;
    [|discriminate].
  destruct (SFcompare (Prim2SF 0) (Prim2SF x)) as [c0|] eqn:H0; [|discriminate].
  intros Hc _.
  assert (exists d, SFcompare (Prim2SF x) (Prim2SF x) = Some d) as [d Hx].
  { destruct (Prim2SF x); cbn; eauto. }
  destruct (SFcompare_defined _ _ _ _ _ Hlh Hx) as (e & e' & Hlx & Hxh).
  pose proof (SFcompare_swap _ _ _ Hlx) as Hxl.
  pose proof (SFcompare_swap _ _ _ Hxh) as Hhx.
  rewrite Hlx, Hxh, Hxl, Hhx.
  destruct e, e'; cbn; try reflexivity.
  exfalso.
  assert (c = Gt) as ->.
  { eapply (SFcompare_between (Prim2SF x)); [| |exact Hlh].
    - rewrite Hxl. reflexivity.
    - rewrite Hhx. reflexivity. }
  discriminate Hc.
Qed.

Lemma three_filters {A : Type} (p1 p2 p3 : A -> bool) (l : list A) :
  Forall (fun x => (Nat.b2n (p1 x) + Nat.b2n (p2 x) + Nat.b2n (p3 x))%nat = 1%nat) l ->
  (length (List.filter p1 l) + length (List.filter p2 l)
   + length (List.filter p3 l))%nat = length l.
Proof.
  induction 1 as [|x l Hx Hl IH]; [reflexivity|]. cbn [List.filter].
  destruct (p1 x), (p2 x), (p3 x); cbn in Hx; try discriminate Hx;
    cbn [length]; lia.
Qed.

Lemma insort_length (x : float) (l : list float) :
  length (Ver1.prog1.IcaoGraphs.insort x l) = S (length l).
Proof.
  induction l as [|y l IH]; [reflexivity|]. cbn [Ver1.prog1.IcaoGraphs.insort].
  destruct (PrimFloat.ltb x y); cbn [length]; [reflexivity|now rewrite IH].
Qed.

Lemma sorted_length (l : list float) :
  length (Ver1.prog1.IcaoGraphs.sorted l) = length l.
Proof.
  unfold Ver1.prog1.IcaoGraphs.sorted.
  assert (forall acc,
            length (fold_left (fun acc x => Ver1.prog1.IcaoGraphs.insort x acc)
                      l acc)
            = (length acc + length l)%nat) as H.
  { induction l as [|x l IH]; intros acc; cbn [fold_left length]; [lia|].
    rewrite IH, insort_length. lia. }
  apply H.
Qed.

Lemma diff_length (l : list float) :
  length (Ver1.prog1.IcaoGraphs.diff l) = Nat.pred (length l).
Proof.
  induction l as [|a l IH]; [reflexivity|].
  destruct l as [|b l]; [reflexivity|].
  change (Ver1.prog1.IcaoGraphs.diff (a :: b :: l))
    with (PrimFloat.sub b a :: Ver1.prog1.IcaoGraphs.diff (b :: l)).
  cbn [length] in *. now rewrite IH.
Qed.

Lemma center_dev_ordered (mode : string) :
  PrimFloat.leb
    (Ver1.prog1.IcaoGraphs.float_of_int
       (fst (Ver1.prog1.IcaoGraphs.center_dev mode)
        - snd (Ver1.prog1.IcaoGraphs.center_dev mode)))
    (Ver1.prog1.IcaoGraphs.float_of_int
       (fst (Ver1.prog1.IcaoGraphs.center_dev mode)
        + snd (Ver1.prog1.IcaoGraphs.center_dev mode)))
  = true.
Proof.
  unfold Ver1.prog1.IcaoGraphs.center_dev.
  repeat match goal with
         | |- context [String.eqb mode ?k] => destruct (String.eqb mode k)
         end;
    vm_compute; reflexivity.
Qed.

(** For every display mode of the interval analysis and every list of
    times: with fewer than two times there is nothing to analyse; else
    with no interval left there is nothing to show; else the three bands
    share out the intervals, each interval being in the nominal band,
    below it or above it and in one only, so the three counts add up to
    the number of intervals; the intervals are all non-negative, and
    fewer than the times. *)
Theorem bands_partition_the_intervals (data : list float) (mode : string) :
  match
    Ver1.prog1.IcaoGraphs.plot_histogram (Some data)
      (fst (Ver1.prog1.IcaoGraphs.center_dev mode))
      (snd (Ver1.prog1.IcaoGraphs.center_dev mode))
  with
  | Ver1.prog1.IcaoGraphs.Bands intervals middle below above =>
      (length middle + length below + length above)%nat = length intervals
      /\ intervals <> []
      /\ (length intervals < length data)%nat
      /\ Forall (fun x => PrimFloat.leb 0 x = true) intervals
  | Ver1.prog1.IcaoGraphs.NoValidIntervals => (2 <= length data)%nat
  | Ver1.prog1.IcaoGraphs.InsufficientData => (length data < 2)%nat
  end.
Proof.
  unfold Ver1.prog1.IcaoGraphs.plot_histogram.
  destruct (Nat.ltb_spec (length data) 2) as [Hshort|Hlong]; [exact Hshort|].
  set (intervals :=
         List.filter (fun x => PrimFloat.leb 0 x)
           (map (fun d => PrimFloat.mul d 1000)
              (Ver1.prog1.IcaoGraphs.diff (Ver1.prog1.IcaoGraphs.sorted data)))).
  assert (Forall (fun x => PrimFloat.leb 0 x = true) intervals) as Hpos.
  { apply List.Forall_forall. intros x Hx. subst intervals.
    now apply List.filter_In in Hx. }
  destruct (Nat.eqb_spec (length intervals) 0) as [Hnone|Hsome]; [exact Hlong|].
  repeat split.
  - apply three_filters. eapply Forall_impl; [exact Hpos|].
    intros x Hx. cbv beta. apply one_band; [apply center_dev_ordered|exact Hx].
  - intros E. now rewrite E in Hsome.
  - subst intervals.
    eapply Nat.le_lt_trans; [apply List.filter_length_le|].
    rewrite length_map, diff_length, sorted_length. lia.
  - exact Hpos.
Qed.
